(** * SkillSetu: the availability engine of [src/lib/availability.ts]

    A shallow embedding of the scheduling code of the SkillSetu backend
    (time utilities, the conflict checker [isTeacherAvailable], the slot
    generator [generateTimeSlots], the booking validator [validateBooking]
    and the calendar exporter [generateICalendar]) together with the
    properties its specification states about them.

    Conventions of the embedding.
    - A JavaScript [Date] is its time value: an integer number of
      milliseconds since the epoch ([Z]).  Only valid dates are modelled.
    - Local time is UTC shifted by a fixed offset [tz] (minutes east of
      Greenwich); zones with daylight saving are outside the model.
    - [new Date()] is one instant [now] per call of an exported function.
    - The database behind Prisma is a record of tables, each a list of rows
      in the order the database scans them; [findFirst] is [List.find]. *)

From Stdlib Require Import ZArith List String Ascii Bool Lia DecimalString.
From Stdlib Require Import Sorted.
Import ListNotations.
Local Open Scope string_scope.
Local Open Scope Z_scope.

(** ** The fragment of JavaScript the module relies on *)

Module JS.

(** A JavaScript number, as far as the module computes with it: an integer
    in the safe range (where double arithmetic is exact), [NaN], or [Other]:
    a double whose value is not tracked (fractional, out of the safe range,
    infinite, or the result of [Number] on a string that is not a plain run
    of decimal digits; it may be [NaN] too). *)
Inductive number : Type :=
| NaN
| Int (z : Z)
| Other.

Definition MAX_SAFE_INTEGER : Z := 9007199254740991.

Definition isSafe (z : Z) : bool :=
  (- MAX_SAFE_INTEGER <=? z) && (z <=? MAX_SAFE_INTEGER).

Definition ofZ (z : Z) : number := if isSafe z then Int z else Other.

Definition mul (a b : number) : number :=
  match a, b with
  | NaN, _ | _, NaN => NaN
  | Int x, Int y => ofZ (x * y)
  | _, _ => Other
  end.

Definition add (a b : number) : number :=
  match a, b with
  | NaN, _ | _, NaN => NaN
  | Int x, Int y => ofZ (x + y)
  | _, _ => Other
  end.

Definition isDigit (c : ascii) : bool :=
  let n := N_of_ascii c in (48 <=? n)%N && (n <=? 57)%N.

Definition digitValue (c : ascii) : Z := Z.of_N (N_of_ascii c) - 48.

Fixpoint decimalValue (acc : Z) (s : string) : option Z :=
  match s with
  | EmptyString => Some acc
  | String c rest =>
      if isDigit c then decimalValue (10 * acc + digitValue c) rest else None
  end.

(** [Number(s)]: the empty string is 0, a run of decimal digits is its
    value; every other string is left undetermined. *)
Definition Number (s : string) : number :=
  match s with
  | EmptyString => Int 0
  | _ => match decimalValue 0 s with
         | Some v => ofZ v
         | None => Other
         end
  end.

(** [s.split(sep)] for a one-character separator. *)
Fixpoint split (sep : ascii) (s : string) : list string :=
  match s with
  | EmptyString => [EmptyString]
  | String c rest =>
      if Ascii.eqb c sep then EmptyString :: split sep rest
      else match split sep rest with
           | [] => [String c EmptyString]
           | piece :: pieces => String c piece :: pieces
           end
  end.

(** [lines.join(sep)] *)
Definition join (sep : string) (pieces : list string) : string :=
  String.concat sep pieces.

Fixpoint repeatChar (n : nat) (c : ascii) : string :=
  match n with
  | O => EmptyString
  | S k => String c (repeatChar k c)
  end.

(** [s.padStart(width, c)] for a one-character filler. *)
Definition padStart (width : nat) (c : ascii) (s : string) : string :=
  repeatChar (width - String.length s) c ++ s.

(** [n.toString()] for an integer. *)
Definition toString (z : Z) : string := NilZero.string_of_int (Z.to_int z).

(** [xs.includes(x)] on an array of integers. *)
Definition includes (xs : list Z) (x : Z) : bool := existsb (Z.eqb x) xs.

End JS.

(** ** Time utilities *)

(** [timeToMinutes]: [time.split(':').map(Number)], then
    [hours * 60 + minutes] on the first two entries; a missing second entry is
    [undefined], which the addition turns into [NaN]. *)
Definition timeToMinutes (time : string) : JS.number :=
  let parts := map JS.Number (JS.split ":" time) in
  let hours := nth 0 parts JS.NaN in
  let minutes := nth 1 parts JS.NaN in
  JS.add (JS.mul hours (JS.Int 60)) minutes.

Definition pad2 (z : Z) : string := JS.padStart 2 "0" (JS.toString z).

(** [minutesToTime]: [Math.floor(minutes / 60)] and [minutes % 60] (the
    remainder takes the sign of the dividend), each printed and padded to two
    characters.  [None] stands for an argument whose value is not tracked. *)
Definition minutesToTime (minutes : JS.number) : option string :=
  match minutes with
  | JS.Int m => Some (pad2 (m / 60) ++ ":" ++ pad2 (Z.rem m 60))
  | JS.NaN => Some "NaN:NaN"
  | JS.Other => None
  end.

(** [timeRangesOverlap]: comparison of the time values of four dates. *)
Definition timeRangesOverlap (start1 end1 start2 end2 : Z) : bool :=
  (start1 <? end2) && (start2 <? end1).

(** The time format the API accepts for a weekly rule
    ([/^([01]\d|2[0-3]):([0-5]\d)$/] in [src/lib/validators.ts]). *)
Definition charIn (cs : string) (c : ascii) : bool :=
  existsb (Ascii.eqb c) (list_ascii_of_string cs).

Definition validHHMM (s : string) : bool :=
  match s with
  | String h1 (String h2 (String c (String m1 (String m2 EmptyString)))) =>
      ((charIn "01" h1 && JS.isDigit h2) || (Ascii.eqb h1 "2" && charIn "0123" h2))
      && Ascii.eqb c ":"
      && charIn "012345" m1 && JS.isDigit m2
  | _ => false
  end.

(** ** Dates

    The time-value arithmetic of ECMAScript's [Date] (ECMA-262, section
    "Date Objects"), restricted to what the module calls.  [tz] is the local
    zone's offset in minutes. *)

Module Date.

Definition msPerSecond : Z := 1000.
Definition msPerMinute : Z := 60000.
Definition msPerHour : Z := 3600000.
Definition msPerDay : Z := 86400000.

Definition LocalTime (tz t : Z) : Z := t + tz * msPerMinute.
Definition UTC (tz t : Z) : Z := t - tz * msPerMinute.

Definition Day (t : Z) : Z := t / msPerDay.
Definition TimeWithinDay (t : Z) : Z := t mod msPerDay.
Definition WeekDay (t : Z) : Z := (Day t + 4) mod 7.
Definition HourFromTime (t : Z) : Z := (t / msPerHour) mod 24.
Definition MinFromTime (t : Z) : Z := (t / msPerMinute) mod 60.
Definition SecFromTime (t : Z) : Z := (t / msPerSecond) mod 60.
Definition msFromTime (t : Z) : Z := t mod msPerSecond.

Definition MakeTime (hour min sec ms : Z) : Z :=
  hour * msPerHour + min * msPerMinute + sec * msPerSecond + ms.
Definition MakeDate (day time : Z) : Z := day * msPerDay + time.

(** Years, months and days of the month. *)
Definition isLeap (y : Z) : bool :=
  ((y mod 4 =? 0) && negb (y mod 100 =? 0)) || (y mod 400 =? 0).
Definition DaysInYear (y : Z) : Z := if isLeap y then 366 else 365.
Definition DayFromYear (y : Z) : Z :=
  365 * (y - 1970) + (y - 1969) / 4 - (y - 1901) / 100 + (y - 1601) / 400.

(** The largest year that starts no later than [t]: an estimate from the
    mean length of a year, corrected by at most one. *)
Definition YearFromDay (day : Z) : Z :=
  let y := 1970 + (day * 400) / 146097 in
  if DayFromYear (y + 1) <=? day then y + 1
  else if DayFromYear y <=? day then y
  else y - 1.
Definition YearFromTime (t : Z) : Z := YearFromDay (Day t).

Definition leapDays (y : Z) : Z := if isLeap y then 1 else 0.
Definition DayWithinYear (t : Z) : Z := Day t - DayFromYear (YearFromTime t).

(** Day of the year on which month [m] (0 to 11) starts. *)
Definition monthStart (leap m : Z) : Z :=
  match m with
  | 0 => 0
  | 1 => 31
  | 2 => 59 + leap
  | 3 => 90 + leap
  | 4 => 120 + leap
  | 5 => 151 + leap
  | 6 => 181 + leap
  | 7 => 212 + leap
  | 8 => 243 + leap
  | 9 => 273 + leap
  | 10 => 304 + leap
  | _ => 334 + leap
  end.

Definition monthOfYearDay (leap d : Z) : Z :=
  if d <? 31 then 0
  else if d <? 59 + leap then 1
  else if d <? 90 + leap then 2
  else if d <? 120 + leap then 3
  else if d <? 151 + leap then 4
  else if d <? 181 + leap then 5
  else if d <? 212 + leap then 6
  else if d <? 243 + leap then 7
  else if d <? 273 + leap then 8
  else if d <? 304 + leap then 9
  else if d <? 334 + leap then 10
  else 11.

Definition MonthFromTime (t : Z) : Z :=
  monthOfYearDay (leapDays (YearFromTime t)) (DayWithinYear t).
Definition DateFromTime (t : Z) : Z :=
  DayWithinYear t
  - monthStart (leapDays (YearFromTime t)) (MonthFromTime t) + 1.

Definition MakeDay (year month date : Z) : Z :=
  let ym := year + month / 12 in
  let mn := month mod 12 in
  DayFromYear ym + monthStart (leapDays ym) mn + date - 1.

(** The local-time accessors and mutators the module uses. *)
Definition getDay (tz d : Z) : Z := WeekDay (LocalTime tz d).
Definition getHours (tz d : Z) : Z := HourFromTime (LocalTime tz d).
Definition getMinutes (tz d : Z) : Z := MinFromTime (LocalTime tz d).
Definition getDate (tz d : Z) : Z := DateFromTime (LocalTime tz d).

Definition setHours (tz d hour min sec ms : Z) : Z :=
  UTC tz (MakeDate (Day (LocalTime tz d)) (MakeTime hour min sec ms)).

Definition setMinutes (tz d min : Z) : Z :=
  let t := LocalTime tz d in
  UTC tz (MakeDate (Day t)
            (MakeTime (HourFromTime t) min (SecFromTime t) (msFromTime t))).

Definition setDate (tz d date : Z) : Z :=
  let t := LocalTime tz d in
  UTC tz (MakeDate (MakeDay (YearFromTime t) (MonthFromTime t) date)
            (TimeWithinDay t)).

Definition pad (width : nat) (z : Z) : string :=
  JS.padStart width "0" (JS.toString z).

(** [d.toISOString()]: four-digit years from 0 to 9999, signed six-digit
    years otherwise. *)
Definition isoYear (y : Z) : string :=
  if (0 <=? y) && (y <=? 9999) then pad 4 y
  else (if y <? 0 then "-" else "+") ++ pad 6 (Z.abs y).

Definition toISOString (d : Z) : string :=
  isoYear (YearFromTime d) ++ "-" ++ pad 2 (MonthFromTime d + 1)
   ++ "-" ++ pad 2 (DateFromTime d)
   ++ "T" ++ pad 2 (HourFromTime d) ++ ":" ++ pad 2 (MinFromTime d)
   ++ ":" ++ pad 2 (SecFromTime d) ++ "." ++ pad 3 (msFromTime d) ++ "Z".

End Date.

(** ** The tables the module reads (prisma/migrations) *)

Inductive LessonStatus : Type :=
| PENDING | CONFIRMED | COMPLETED | CANCELLED | EXPIRED.

Module Lesson.
Record t : Type := make {
  teacherId : string;
  status : LessonStatus;
  scheduledAt : Z;
  duration : Z
}.

(** The instant a lesson ends; the table stores only start and length. *)
Definition endsAt (l : t) : Z := scheduledAt l + duration l * Date.msPerMinute.
End Lesson.

Module BlockedTime.
Record t : Type := make {
  userId : string;
  startTime : Z;
  endTime : Z;
  reason : option string
}.
End BlockedTime.

Module Availability.
Record t : Type := make {
  userId : string;
  dayOfWeek : Z;
  startTime : string;
  endTime : string;
  isAvailable : bool
}.
End Availability.

Module BookingSettings.
Record t : Type := make {
  userId : string;
  bufferMinutes : Z;
  minAdvanceHours : Z;
  maxAdvanceDays : Z;
  allowedDurations : list Z
}.
End BookingSettings.

Record Database : Type := {
  lessons : list Lesson.t;
  blockedTimes : list BlockedTime.t;
  availabilities : list Availability.t;
  bookingSettings : list BookingSettings.t
}.

(** What a call can observe besides its arguments. *)
Record World : Type := {
  tz : Z;
  now : Z;
  prisma : Database
}.

(** [a || b] on an optional string: [null], [undefined] and the empty string
    are falsy. *)
Definition orElse (a : option string) (b : string) : string :=
  match a with
  | Some (String c s) => String c s
  | _ => b
  end.

(** ** Availability checking *)

Record Verdict : Type := {
  available : bool;
  reason : option string
}.

Definition activeStatus (s : LessonStatus) : bool :=
  match s with
  | PENDING | CONFIRMED => true
  | _ => false
  end.

(** The [where] clauses of the four queries of [isTeacherAvailable]. *)
Definition conflictingLessonWhere (teacherId : string) (startTime endTime : Z)
    (l : Lesson.t) : bool :=
  String.eqb (Lesson.teacherId l) teacherId
  && activeStatus (Lesson.status l)
  && (startTime <=? Lesson.scheduledAt l)
  && (Lesson.scheduledAt l <? endTime).

Definition blockedTimeWhere (teacherId : string) (startTime endTime : Z)
    (b : BlockedTime.t) : bool :=
  String.eqb (BlockedTime.userId b) teacherId
  && (BlockedTime.startTime b <=? startTime)
  && (endTime <=? BlockedTime.endTime b).

Definition availabilityWhere (teacherId : string) (dayOfWeek : Z)
    (startTimeStr endTimeStr : string) (a : Availability.t) : bool :=
  String.eqb (Availability.userId a) teacherId
  && (Availability.dayOfWeek a =? dayOfWeek)
  && Availability.isAvailable a
  && String.leb (Availability.startTime a) startTimeStr
  && String.leb endTimeStr (Availability.endTime a).

Definition findSettings (db : Database) (teacherId : string)
    : option BookingSettings.t :=
  find (fun s => String.eqb (BookingSettings.userId s) teacherId)
       (bookingSettings db).

(** [`${d.getHours()...padStart(2,'0')}:${d.getMinutes()...padStart(2,'0')}`] *)
Definition clockString (tz d : Z) : string :=
  pad2 (Date.getHours tz d) ++ ":" ++ pad2 (Date.getMinutes tz d).

(** [isTeacherAvailable].  [hoursUntilLesson < minAdvanceHours] compares the
    quotient [(startTime - now) / 3600000] with an integer, and
    [daysUntilLesson > maxAdvanceDays] the quotient by [24 * 3600000]; both
    are written here on the milliseconds, which decides the same for the
    hours and days a settings row can hold (rounding of the double
    quotient never reaches the next integer at these magnitudes).  The
    database compares the "HH:MM" texts of a rule as strings. *)
Definition isTeacherAvailable (w : World) (teacherId : string)
    (startTime endTime : Z) : Verdict :=
  let db := prisma w in
  match find (conflictingLessonWhere teacherId startTime endTime) (lessons db) with
  | Some _ =>
      {| available := false;
         reason := Some "Teacher has another lesson at this time" |}
  | None =>
  match find (blockedTimeWhere teacherId startTime endTime) (blockedTimes db) with
  | Some blockedTime =>
      {| available := false;
         reason := Some (orElse (BlockedTime.reason blockedTime)
                                "Teacher is unavailable at this time") |}
  | None =>
  let dayOfWeek := Date.getDay (tz w) startTime in
  let startTimeStr := clockString (tz w) startTime in
  let endTimeStr := clockString (tz w) endTime in
  match find (availabilityWhere teacherId dayOfWeek startTimeStr endTimeStr)
             (availabilities db) with
  | None =>
      {| available := false;
         reason := Some "Outside teacher's regular availability" |}
  | Some _ =>
  match findSettings db teacherId with
  | Some settings =>
      let msUntilLesson := startTime - now w in
      if msUntilLesson <? BookingSettings.minAdvanceHours settings * Date.msPerHour
      then {| available := false;
              reason := Some ("Need at least "
                              ++ JS.toString (BookingSettings.minAdvanceHours settings)
                              ++ " hours advance notice") |}
      else if msUntilLesson >? BookingSettings.maxAdvanceDays settings * Date.msPerDay
      then {| available := false;
              reason := Some ("Can only book up to "
                              ++ JS.toString (BookingSettings.maxAdvanceDays settings)
                              ++ " days in advance") |}
      else {| available := true; reason := None |}
  | None => {| available := true; reason := None |}
  end end end end.

(** ** Time slot generation *)

Module Slot.
Record t : Type := make {
  startTime : Z;
  endTime : Z;
  available : bool
}.
End Slot.

(** How a call that loops can end: with a value, in a loop that never exits,
    or depending on a number whose value is not tracked. *)
Inductive outcome (A : Type) : Type :=
| Returns (a : A)
| Hangs
| Untracked.
Arguments Returns {A} a.
Arguments Hangs {A}.
Arguments Untracked {A}.

Definition andThen {A : Type} (first : outcome (list A))
    (next : outcome (list A)) : outcome (list A) :=
  match first with
  | Returns xs =>
      match next with
      | Returns ys => Returns (xs ++ ys)%list
      | other => other
      end
  | other => other
  end.

(** [settings?.bufferMinutes || 15]: a missing record and a buffer of 0 are
    both falsy. *)
Definition bufferOf (settings : option BookingSettings.t) : Z :=
  match settings with
  | Some s => if BookingSettings.bufferMinutes s =? 0 then 15
              else BookingSettings.bufferMinutes s
  | None => 15
  end.

Section SlotsOfOneDay.
Variables (w : World) (teacherId : string).
Variables (duration slotInterval currentDate endMinutes : Z).

(** The body of the [for] loop at [minutes]: nothing for a slot in the
    past, the slot with the checker's verdict otherwise. *)
Definition slotAt (minutes : Z) : list Slot.t :=
  let slotStart :=
    Date.setHours (tz w) currentDate (minutes / 60) (Z.rem minutes 60) 0 0 in
  let slotEnd :=
    Date.setMinutes (tz w) slotStart
      (Date.getMinutes (tz w) slotStart + duration) in
  if slotStart <? now w then []
  else [Slot.make slotStart slotEnd
          (available (isTeacherAvailable w teacherId slotStart slotEnd))].

(** [for (minutes = ...; minutes + duration <= endMinutes;
          minutes += slotInterval)], at most [fuel] rounds. *)
Fixpoint slotLoop (fuel : nat) (minutes : Z) : list Slot.t :=
  match fuel with
  | O => []
  | S fuel' =>
      if minutes + duration <=? endMinutes
      then (slotAt minutes ++ slotLoop fuel' (minutes + slotInterval))%list
      else []
  end.

(** The same loop, telling whether it was left: [Some] of the slots when the
    test fails within [fuel] rounds, [None] when the loop is still running
    after them. *)
Fixpoint slotLoopWithin (fuel : nat) (minutes : Z) : option (list Slot.t) :=
  match fuel with
  | O => None
  | S fuel' =>
      if minutes + duration <=? endMinutes
      then match slotLoopWithin fuel' (minutes + slotInterval) with
           | Some later => Some (slotAt minutes ++ later)%list
           | None => None
           end
      else Some []
  end.
End SlotsOfOneDay.

(** The number of rounds of the [for] loop when the interval is positive. *)
Definition slotRounds (duration slotInterval startMinutes endMinutes : Z) : nat :=
  Z.to_nat ((endMinutes - duration - startMinutes) / slotInterval + 1).

(** The slots of one day under the rule [rule].  A comparison with [NaN] is
    false, so a time that is not a number yields no slot.  With a positive
    interval the loop is left after [slotRounds] rounds.  With an interval of
    0 every round is at the same minute, so the loop, once entered, is not
    left after any number of rounds ([slotLoopWithin] has no result for any
    fuel).  With a negative interval [minutes] counts down and the test never
    fails either, but the dates of the slots run back until they leave the
    range of [Date], and what the queries make of an invalid date is not
    tracked. *)
Definition daySlots (w : World) (teacherId : string)
    (duration slotInterval currentDate : Z) (rule : Availability.t)
    : outcome (list Slot.t) :=
  match timeToMinutes (Availability.startTime rule),
        timeToMinutes (Availability.endTime rule) with
  | JS.Int startMinutes, JS.Int endMinutes =>
      if startMinutes + duration <=? endMinutes then
        if slotInterval <? 0 then Untracked
        else if slotInterval =? 0 then Hangs
        else Returns
               (slotLoop w teacherId duration slotInterval currentDate endMinutes
                  (slotRounds duration slotInterval startMinutes endMinutes)
                  startMinutes)
      else Returns []
  | JS.NaN, _ | _, JS.NaN => Returns []
  | _, _ => Untracked
  end.

Section DayLoop.
Variables (w : World) (teacherId : string).
Variables (rules : list Availability.t).
Variables (duration slotInterval endDate : Z).

Definition slotsOn (currentDate : Z) : outcome (list Slot.t) :=
  let dayOfWeek := Date.getDay (tz w) currentDate in
  match find (fun a => Availability.dayOfWeek a =? dayOfWeek) rules with
  | Some dayAvailability =>
      daySlots w teacherId duration slotInterval currentDate dayAvailability
  | None => Returns []
  end.

(** [while (currentDate <= endDate)], at most [fuel] days. *)
Fixpoint dayLoop (fuel : nat) (currentDate : Z) : outcome (list Slot.t) :=
  match fuel with
  | O => Returns []
  | S fuel' =>
      if currentDate <=? endDate
      then andThen (slotsOn currentDate)
             (dayLoop fuel'
                (Date.setDate (tz w) currentDate
                   (Date.getDate (tz w) currentDate + 1)))
      else Returns []
  end.
End DayLoop.

(** The number of days the [while] loop visits. *)
Definition dayRounds (firstDay endDate : Z) : nat :=
  Z.to_nat ((endDate - firstDay) / Date.msPerDay + 1).

Definition generateTimeSlots (w : World) (teacherId : string)
    (startDate endDate duration : Z) : outcome (list Slot.t) :=
  let rules :=
    filter (fun a => String.eqb (Availability.userId a) teacherId
                     && Availability.isAvailable a)
           (availabilities (prisma w)) in
  match rules with
  | [] => Returns []
  | _ =>
      let settings := findSettings (prisma w) teacherId in
      let bufferMinutes := bufferOf settings in
      let slotInterval := duration + bufferMinutes in
      let firstDay := Date.setHours (tz w) startDate 0 0 0 0 in
      dayLoop w teacherId rules duration slotInterval endDate
        (dayRounds firstDay endDate) firstDay
  end.

(** ** Booking validation *)

Record Validation : Type := {
  valid : bool;
  errors : list string
}.

Definition pastErrors (w : World) (startTime : Z) : list string :=
  if startTime <? now w then ["Cannot book lessons in the past"] else [].

Definition availabilityErrors (w : World) (teacherId : string)
    (startTime endTime : Z) : list string :=
  let v := isTeacherAvailable w teacherId startTime endTime in
  if available v then [] else [orElse (reason v) "Teacher not available"].

Definition durationErrors (w : World) (teacherId : string) (duration : Z)
    : list string :=
  match findSettings (prisma w) teacherId with
  | Some settings =>
      if JS.includes (BookingSettings.allowedDurations settings) duration then []
      else ["Duration must be one of: "
            ++ JS.join ", " (map JS.toString (BookingSettings.allowedDurations settings))
            ++ " minutes"]
  | None => []
  end.

Definition hourErrors (w : World) (startTime : Z) : list string :=
  let hour := Date.getHours (tz w) startTime in
  if (hour <? 6) || (hour >? 23)
  then ["Please select a time between 6 AM and 11 PM"]
  else [].

(** [validateBooking]: the four checks push onto [errors] in turn. *)
Definition validateBooking (w : World) (teacherId : string)
    (startTime duration : Z) : Validation :=
  let endTime := startTime + duration * 60000 in
  let errors :=
    (pastErrors w startTime
     ++ availabilityErrors w teacherId startTime endTime
     ++ durationErrors w teacherId duration
     ++ hourErrors w startTime)%list in
  {| valid := (List.length errors =? 0)%nat; errors := errors |}.

(** ** Calendar export *)

Module CalendarLesson.
Record person : Type := { name : string; email : string }.
Record t : Type := make {
  id : string;
  title : string;
  scheduledAt : Z;
  duration : Z;
  teacher : person;
  student : person
}.
End CalendarLesson.

Definition CRLF : string := String "013" (String "010" EmptyString).

(** [s.replace(/[-:]/g, '')] for a class of characters [cs]. *)
Fixpoint stripChars (cs : string) (s : string) : string :=
  match s with
  | EmptyString => EmptyString
  | String c rest =>
      if charIn cs c then stripChars cs rest else String c (stripChars cs rest)
  end.

Definition formatDate (date : Z) : string :=
  nth 0 (JS.split "." (stripChars "-:" (Date.toISOString date))) EmptyString
  ++ "Z".

Definition eventLines (now : Z) (lesson : CalendarLesson.t) : list string :=
  let start := CalendarLesson.scheduledAt lesson in
  let end_ := start + CalendarLesson.duration lesson * 60000 in
  [ "BEGIN:VEVENT";
    "UID:" ++ CalendarLesson.id lesson ++ "@skillexchange.com";
    "DTSTAMP:" ++ formatDate now;
    "DTSTART:" ++ formatDate start;
    "DTEND:" ++ formatDate end_;
    "SUMMARY:" ++ CalendarLesson.title lesson;
    "DESCRIPTION:Lesson with "
      ++ CalendarLesson.name (CalendarLesson.teacher lesson);
    "ORGANIZER;CN=" ++ CalendarLesson.name (CalendarLesson.teacher lesson)
      ++ ":mailto:" ++ CalendarLesson.email (CalendarLesson.teacher lesson);
    "ATTENDEE;CN=" ++ CalendarLesson.name (CalendarLesson.student lesson)
      ++ ":mailto:" ++ CalendarLesson.email (CalendarLesson.student lesson);
    "STATUS:CONFIRMED";
    "END:VEVENT" ].

Definition icalLines (now : Z) (lessons : list CalendarLesson.t) : list string :=
  ([ "BEGIN:VCALENDAR";
     "VERSION:2.0";
     "PRODID:-//Skill Exchange Platform//EN";
     "CALSCALE:GREGORIAN" ]
   ++ flat_map (eventLines now) lessons
   ++ ["END:VCALENDAR"])%list.

Definition generateICalendar (now : Z) (lessons : list CalendarLesson.t) : string :=
  JS.join CRLF (icalLines now lessons).

(** ** The remaining utilities of the module *)

(** [roundToInterval]: [Math.round (t / ms) * ms] with
    [ms = 1000 * 60 * intervalMinutes].  [Math.round x] is the floor of
    [x + 1/2], so the quotient is rounded on the integers as the floor of
    [(2 t + ms) / (2 ms)].  The quotient is a double: it rounds as the exact
    one for instants within 2^52 ms of the epoch (beyond the year 140000 on
    either side), which is the range the definition stands for.  An interval
    of 0 divides by zero and gives an invalid date ([None]). *)
Definition roundToInterval (date intervalMinutes : Z) : option Z :=
  let ms := 1000 * 60 * intervalMinutes in
  if ms =? 0 then None else Some ((2 * date + ms) / (2 * ms) * ms).

(** [getDayName]: an index outside the array gives [undefined]. *)
Definition days : list string :=
  ["Sunday"; "Monday"; "Tuesday"; "Wednesday"; "Thursday"; "Friday"; "Saturday"].

Definition getDayName (dayIndex : Z) : option string :=
  if dayIndex <? 0 then None else nth_error days (Z.to_nat dayIndex).

(** ** The time slots route (app/api/timeslots/route.ts)

    What [GET] makes of the slots [generateTimeSlots] returned: the groups
    of its step 4 and the summary of its step 5.  [slotsByDate] is an object
    used as a map from date keys to arrays.  A date key holds a "-", so it
    is no name of the object's prototype and no array index, and the object
    lists its keys in the order they were first written: the association
    list keeps that order. *)

Module SlotEntry.
Record t (Price : Type) : Type := make {
  startTime : string;
  endTime : string;
  available : bool;
  price : option Price;
  duration : Z
}.
Arguments make {Price} _ _ _ _ _.
Arguments startTime {Price} _.
Arguments endTime {Price} _.
Arguments available {Price} _.
Arguments price {Price} _.
Arguments duration {Price} _.
End SlotEntry.

Module TimeslotsRoute.

(** [d.toISOString().split('T')[0]] *)
Definition dateKey (d : Z) : string :=
  nth 0 (JS.split "T" (Date.toISOString d)) EmptyString.

Section Groups.

(** [teacher.hourlyRate ? (teacher.hourlyRate * duration) / 60 : null]: one
    double for the whole response, which the route hands on and does not
    compute with. *)
Variable Price : Type.
Variable price : option Price.
Variable duration : Z.

Definition entryOf (slot : Slot.t) : SlotEntry.t Price :=
  SlotEntry.make (Date.toISOString (Slot.startTime slot))
                 (Date.toISOString (Slot.endTime slot))
                 (Slot.available slot) price duration.

(** [if (!slotsByDate[dateKey]) slotsByDate[dateKey] = []] followed by
    [slotsByDate[dateKey].push(entry)]. *)
Fixpoint pushUnder (dateKey : string) (entry : SlotEntry.t Price)
    (slotsByDate : list (string * list (SlotEntry.t Price)))
    : list (string * list (SlotEntry.t Price)) :=
  match slotsByDate with
  | [] => [(dateKey, [entry])]
  | (key, entries) :: rest =>
      if String.eqb key dateKey then (key, (entries ++ [entry])%list) :: rest
      else (key, entries) :: pushUnder dateKey entry rest
  end.

Definition slotsByDate (slots : list Slot.t)
    : list (string * list (SlotEntry.t Price)) :=
  fold_left (fun groups slot =>
               pushUnder (dateKey (Slot.startTime slot)) (entryOf slot) groups)
            slots [].

End Groups.

Arguments entryOf {Price} price duration slot.
Arguments pushUnder {Price} dateKey entry slotsByDate.
Arguments slotsByDate {Price} price duration slots.

Definition totalSlots (slots : list Slot.t) : Z := Z.of_nat (List.length slots).

Definition availableSlots (slots : list Slot.t) : Z :=
  Z.of_nat (List.length (filter Slot.available slots)).

Definition bookedSlots (slots : list Slot.t) : Z :=
  totalSlots slots - availableSlots slots.

Definition nextAvailable (slots : list Slot.t) : option Slot.t :=
  find Slot.available slots.

(** The [date] and the [dayOfWeek] of the summary's [nextAvailable].  Its
    [time] comes from [toLocaleTimeString] and has no model here. *)
Definition nextAvailableDate (slots : list Slot.t) : option string :=
  option_map (fun s => dateKey (Slot.startTime s)) (nextAvailable slots).

Definition nextAvailableDayOfWeek (tz : Z) (slots : list Slot.t)
    : option (option string) :=
  option_map (fun s => getDayName (Date.getDay tz (Slot.startTime s)))
             (nextAvailable slots).

End TimeslotsRoute.

(** ** The booking settings route (app/api/booking-settings/route.ts) *)

(** A row of the BookingSettings table: the columns the availability module
    reads, and the two it does not read.  The generated columns (id,
    createdAt, updatedAt) are left out. *)
Module SettingsRow.
Record t : Type := make {
  columns : BookingSettings.t;
  autoAccept : bool;
  cancellationHours : Z
}.
Definition userId (row : t) : string := BookingSettings.userId (columns row).
End SettingsRow.

(** The body of a POST whose fields, where present, have the type the
    schema asks for: an integer, an array of integers, a boolean. *)
Module SettingsBody.
Record t : Type := make {
  bufferMinutes : option Z;
  minAdvanceHours : option Z;
  maxAdvanceDays : option Z;
  allowedDurations : option (list Z);
  autoAccept : option bool;
  cancellationHours : option Z
}.
End SettingsBody.

Module BookingSettingsRoute.

Inductive Response : Type :=
| Json (settings : SettingsRow.t)
| Failure (status : Z) (error : string).

(** [z.number().int().min(lo).max(hi).optional()] *)
Definition between (lo hi : Z) (field : option Z) : bool :=
  match field with
  | Some v => (lo <=? v) && (v <=? hi)
  | None => true
  end.

Definition bookingSettingsSchema (body : SettingsBody.t) : bool :=
  between 0 60 (SettingsBody.bufferMinutes body)
  && between 1 168 (SettingsBody.minAdvanceHours body)
  && between 1 365 (SettingsBody.maxAdvanceDays body)
  && match SettingsBody.allowedDurations body with
     | Some durations => forallb (fun d => 0 <? d) durations
     | None => true
     end
  && between 1 168 (SettingsBody.cancellationHours body).

(** [GET] for the user the request names, or else is made by: the row of
    the user, or the defaults written in the route. *)
Definition GET (table : list SettingsRow.t) (targetUserId : string)
    : SettingsRow.t :=
  match find (fun row => String.eqb (SettingsRow.userId row) targetUserId)
             table with
  | Some settings => settings
  | None =>
      SettingsRow.make
        (BookingSettings.make targetUserId 15 24 90 [30; 60; 90; 120])
        false 24
  end.

(** The defaults of the table's columns (migration.sql), which a created
    row gets for the fields the data leave out. *)
Definition columnDefaults (userId : string) : SettingsRow.t :=
  {| SettingsRow.columns :=
       {| BookingSettings.userId := userId;
          BookingSettings.bufferMinutes := 15;
          BookingSettings.minAdvanceHours := 24;
          BookingSettings.maxAdvanceDays := 90;
          BookingSettings.allowedDurations := [30; 60; 90; 120] |};
     SettingsRow.autoAccept := false;
     SettingsRow.cancellationHours := 24 |}.

Definition orStored {A : Type} (field : option A) (stored : A) : A :=
  match field with
  | Some v => v
  | None => stored
  end.

(** Writing the data over a row: a field the data leave out is kept. *)
Definition update (data : SettingsBody.t) (row : SettingsRow.t)
    : SettingsRow.t :=
  let stored := SettingsRow.columns row in
  {| SettingsRow.columns :=
       {| BookingSettings.userId := BookingSettings.userId stored;
          BookingSettings.bufferMinutes :=
            orStored (SettingsBody.bufferMinutes data)
                     (BookingSettings.bufferMinutes stored);
          BookingSettings.minAdvanceHours :=
            orStored (SettingsBody.minAdvanceHours data)
                     (BookingSettings.minAdvanceHours stored);
          BookingSettings.maxAdvanceDays :=
            orStored (SettingsBody.maxAdvanceDays data)
                     (BookingSettings.maxAdvanceDays stored);
          BookingSettings.allowedDurations :=
            orStored (SettingsBody.allowedDurations data)
                     (BookingSettings.allowedDurations stored) |};
     SettingsRow.autoAccept :=
       orStored (SettingsBody.autoAccept data) (SettingsRow.autoAccept row);
     SettingsRow.cancellationHours :=
       orStored (SettingsBody.cancellationHours data)
                (SettingsRow.cancellationHours row) |}.

(** [prisma.bookingSettings.upsert]: the row of the user is updated, or one
    is created. *)
Fixpoint upsert (table : list SettingsRow.t) (userId : string)
    (data : SettingsBody.t) : SettingsRow.t * list SettingsRow.t :=
  match table with
  | [] =>
      let created := update data (columnDefaults userId) in
      (created, [created])
  | row :: rest =>
      if String.eqb (SettingsRow.userId row) userId
      then let updated := update data row in (updated, updated :: rest)
      else let (settings, rest') := upsert rest userId data in
           (settings, row :: rest')
  end.

Definition durationsError (allowedDurations : option (list Z))
    : option string :=
  match allowedDurations with
  | None => None
  | Some [] => Some "Must allow at least one lesson duration"
  | Some durations =>
      if existsb (fun duration => (duration <? 15) || (duration >? 240))
                 durations
      then Some "Durations must be between 15 and 240 minutes"
      else None
  end.

(** [POST] by the signed-in user [userId]: the answer and the table after
    it. *)
Definition POST (table : list SettingsRow.t) (userId : string)
    (body : SettingsBody.t) : Response * list SettingsRow.t :=
  if bookingSettingsSchema body then
    match durationsError (SettingsBody.allowedDurations body) with
    | Some error => (Failure 400 error, table)
    | None =>
        let (settings, table') := upsert table userId body in
        (Json settings, table')
    end
  else (Failure 400 "Validation failed", table).

End BookingSettingsRoute.

(** ** Vocabulary of the statements *)

Fixpoint hasChar (c : ascii) (s : string) : bool :=
  match s with
  | EmptyString => false
  | String x rest => Ascii.eqb x c || hasChar c rest
  end.

(** A string is a run of decimal digits (possibly empty) of value [v]. *)
Definition digitsOf (s : string) (v : Z) : Prop := JS.decimalValue 0 s = Some v.

(** The three checks of [isTeacherAvailable] that read the lesson, blocked
    time and availability tables all let the interval through. *)
Definition passesTableChecks (w : World) (teacherId : string)
    (startTime endTime : Z) : Prop :=
  find (conflictingLessonWhere teacherId startTime endTime)
       (lessons (prisma w)) = None
  /\ find (blockedTimeWhere teacherId startTime endTime)
          (blockedTimes (prisma w)) = None
  /\ find (availabilityWhere teacherId (Date.getDay (tz w) startTime)
             (clockString (tz w) startTime) (clockString (tz w) endTime))
          (availabilities (prisma w)) <> None.

Definition unavailable (message : string) : Verdict :=
  {| available := false; reason := Some message |}.

(** Local midnight of the day of [d], and the instant [minutes] minutes
    after it. *)
Definition dayStart (tz d : Z) : Z :=
  Date.UTC tz (Date.Day (Date.LocalTime tz d) * Date.msPerDay).

Definition minuteOfDay (tz d minutes : Z) : Z :=
  dayStart tz d + minutes * Date.msPerMinute.

(** Each element of [xs] is [gap] after the one before it. *)
Fixpoint evenlySpaced (gap : Z) (xs : list Z) : Prop :=
  match xs with
  | a :: rest =>
      match rest with
      | b :: _ => b - a = gap /\ evenlySpaced gap rest
      | [] => True
      end
  | [] => True
  end.

(** The slot that starts [minutes] minutes after local midnight of the day
    of [currentDate], with the checker's answer for it. *)
Definition slotOf (w : World) (teacherId : string) (duration currentDate : Z)
    (minutes : Z) : Slot.t :=
  let slotStart := minuteOfDay (tz w) currentDate minutes in
  let slotEnd := slotStart + duration * Date.msPerMinute in
  Slot.make slotStart slotEnd
    (available (isTeacherAvailable w teacherId slotStart slotEnd)).

(** What a slot says about itself: its length, and the checker's answer. *)
Definition lastsFor (duration : Z) (s : Slot.t) : Prop :=
  Slot.endTime s - Slot.startTime s = duration * Date.msPerMinute.

Definition carriesAvailability (w : World) (teacherId : string) (s : Slot.t)
    : Prop :=
  Slot.available s
  = available (isTeacherAvailable w teacherId (Slot.startTime s) (Slot.endTime s)).

(** The rule's times have the format the API stores. *)
Definition wellFormedRule (rule : Availability.t) : Prop :=
  validHHMM (Availability.startTime rule) = true
  /\ validHHMM (Availability.endTime rule) = true.

(** The lines of a text: its pieces between CRLF terminators. *)
Definition prepend (c : ascii) (pieces : list string) : list string :=
  match pieces with
  | [] => [String c EmptyString]
  | piece :: rest => String c piece :: rest
  end.

Fixpoint splitLines (text : string) : list string :=
  match text with
  | EmptyString => [EmptyString]
  | String c rest =>
      match rest with
      | String d rest' =>
          if Ascii.eqb c "013" && Ascii.eqb d "010"
          then EmptyString :: splitLines rest'
          else prepend c (splitLines rest)
      | EmptyString => [String c EmptyString]
      end
  end.

(** A text without a carriage return, and a lesson whose texts are such. *)
Definition plainText (s : string) : Prop := hasChar "013" s = false.

Definition plainFields (lesson : CalendarLesson.t) : Prop :=
  plainText (CalendarLesson.id lesson)
  /\ plainText (CalendarLesson.title lesson)
  /\ plainText (CalendarLesson.name (CalendarLesson.teacher lesson))
  /\ plainText (CalendarLesson.email (CalendarLesson.teacher lesson))
  /\ plainText (CalendarLesson.name (CalendarLesson.student lesson))
  /\ plainText (CalendarLesson.email (CalendarLesson.student lesson)).

(** The number of lines equal to [line]. *)
Definition countOf (line : string) (lines : list string) : nat :=
  List.length (filter (String.eqb line) lines).

(** Reading a stamp "YYYYMMDDTHHMMSSZ" back: the number of seconds since the
    epoch it denotes. *)
Definition twoDigits (s : string) : option (Z * string) :=
  match s with
  | String a (String b rest) =>
      if JS.isDigit a && JS.isDigit b
      then Some (10 * JS.digitValue a + JS.digitValue b, rest)
      else None
  | _ => None
  end.

Definition stampSeconds (stamp : string) : option Z :=
  match twoDigits stamp with
  | Some (century, s0) =>
  match twoDigits s0 with
  | Some (year, s1) =>
  match twoDigits s1 with
  | Some (month, s2) =>
  match twoDigits s2 with
  | Some (day, String "T" s3) =>
  match twoDigits s3 with
  | Some (hours, s4) =>
  match twoDigits s4 with
  | Some (minutes, s5) =>
  match twoDigits s5 with
  | Some (seconds, String "Z" EmptyString) =>
      Some (Date.MakeDay (100 * century + year) (month - 1) day * 86400
            + hours * 3600 + minutes * 60 + seconds)
  | _ => None end
  | None => None end
  | None => None end
  | _ => None end
  | None => None end
  | None => None end
  | None => None end.

(** The years an iCalendar stamp can show. *)
Definition fourDigitYear (t : Z) : Prop := 0 <= Date.YearFromTime t <= 9999.

(** Both characters of [pad 2 z] (all four of [pad 4 z]) are digits, and
    they read as [z]. *)
Definition twoDigitShape (z : Z) : bool :=
  match Date.pad 2 z with
  | String a (String b EmptyString) =>
      JS.isDigit a && JS.isDigit b
      && (10 * JS.digitValue a + JS.digitValue b =? z)
  | _ => false
  end.

Definition fourDigitShape (z : Z) : bool :=
  match Date.pad 4 z with
  | String a (String b (String c (String d EmptyString))) =>
      JS.isDigit a && JS.isDigit b && JS.isDigit c && JS.isDigit d
      && (100 * (10 * JS.digitValue a + JS.digitValue b)
          + (10 * JS.digitValue c + JS.digitValue d) =? z)
  | _ => false
  end.

(** ** Scenarios

    One teacher with the weekly rule Monday 09:00 to 17:00, seen from a
    server on UTC.  Monday is 5 January 2026. *)

Definition monday : Z := 1767571200000.
Definition at_ (day hours minutes : Z) : Z :=
  day + hours * Date.msPerHour + minutes * Date.msPerMinute.

Definition mondayRule : Availability.t :=
  Availability.make "teacher-1" 1 "09:00" "17:00" true.

Definition defaultSettings : BookingSettings.t :=
  BookingSettings.make "teacher-1" 15 24 90 [30; 60; 90; 120].

(** A confirmed lesson on Monday from 09:00 to 10:00; no settings record;
    the clock is a week before. *)
Definition bookedWorld : World :=
  {| tz := 0;
     now := monday - 7 * Date.msPerDay;
     prisma := {| lessons := [Lesson.make "teacher-1" CONFIRMED (at_ monday 9 0) 60];
                  blockedTimes := [];
                  availabilities := [mondayRule];
                  bookingSettings := [] |} |}.

(** The same teacher with a confirmed lesson on Monday from 09:00 to
    11:00. *)
Definition longLessonWorld : World :=
  {| tz := 0;
     now := monday - 7 * Date.msPerDay;
     prisma := {| lessons := [Lesson.make "teacher-1" CONFIRMED (at_ monday 9 0) 120];
                  blockedTimes := [];
                  availabilities := [mondayRule];
                  bookingSettings := [] |} |}.

(** No lesson and no settings record; the clock is Monday 08:00. *)
Definition unsetWorld : World :=
  {| tz := 0;
     now := at_ monday 8 0;
     prisma := {| lessons := [];
                  blockedTimes := [];
                  availabilities := [mondayRule];
                  bookingSettings := [] |} |}.

(** The default settings on record; the clock is Monday 12:00. *)
Definition settledWorld : World :=
  {| tz := 0;
     now := at_ monday 12 0;
     prisma := {| lessons := [];
                  blockedTimes := [];
                  availabilities := [mondayRule];
                  bookingSettings := [defaultSettings] |} |}.

(** The same teacher with a block from 09:00 to 10:00 instead of a lesson. *)
Definition blockedWorld : World :=
  {| tz := 0;
     now := monday - 7 * Date.msPerDay;
     prisma := {| lessons := [];
                  blockedTimes := [BlockedTime.make "teacher-1" (at_ monday 9 0)
                                     (at_ monday 10 0) (Some "Dentist")];
                  availabilities := [mondayRule];
                  bookingSettings := [] |} |}.

(** Settings that ask for no break between lessons. *)
Definition zeroBufferSettings : BookingSettings.t :=
  BookingSettings.make "teacher-1" 0 24 90 [30; 60; 90; 120].

Definition zeroBufferWorld : World :=
  {| tz := 0;
     now := monday - 7 * Date.msPerDay;
     prisma := {| lessons := [];
                  blockedTimes := [];
                  availabilities := [mondayRule];
                  bookingSettings := [zeroBufferSettings] |} |}.

Definition hourSlot (hours minutes : Z) (free : bool) : Slot.t :=
  Slot.make (at_ monday hours minutes) (at_ monday (hours + 1) minutes) free.

(** A lesson of one hour on Monday at 09:00. *)
Definition mathLesson : CalendarLesson.t :=
  CalendarLesson.make "lesson-1" "Algebra: first steps" (at_ monday 9 0) 60
    {| CalendarLesson.name := "Asha"; CalendarLesson.email := "asha@example.org" |}
    {| CalendarLesson.name := "Ravi"; CalendarLesson.email := "ravi@example.org" |}.

(** The same lesson with a title that holds a line break. *)
Definition brokenTitleLesson : CalendarLesson.t :=
  CalendarLesson.make "lesson-1" ("Algebra" ++ CRLF ++ "BEGIN:VEVENT")
    (at_ monday 9 0) 60
    {| CalendarLesson.name := "Asha"; CalendarLesson.email := "asha@example.org" |}
    {| CalendarLesson.name := "Ravi"; CalendarLesson.email := "ravi@example.org" |}.

(** ** Vocabulary of the further statements *)

(** The slots of Monday for lessons of one hour, the first one taken. *)
Definition bookedWorldSlots : list Slot.t :=
  [hourSlot 9 0 false; hourSlot 10 15 true; hourSlot 11 30 true;
   hourSlot 12 45 true; hourSlot 14 0 true; hourSlot 15 15 true].

(** The minute of the local day an instant falls on, and the clock text of
    a minute. *)
Definition minuteInDay (tz d : Z) : Z :=
  Date.TimeWithinDay (Date.LocalTime tz d) / Date.msPerMinute.

Definition clockOf (m : Z) : string :=
  match minutesToTime (JS.Int m) with
  | Some s => s
  | None => EmptyString
  end.

Definition minuteRange : list Z := map Z.of_nat (seq 0 1440).

(** Printing minute [m] gives an accepted time that reads as [m]. *)
Definition clockRoundTrips (m : Z) : bool :=
  validHHMM (clockOf m)
  && match timeToMinutes (clockOf m) with
     | JS.Int k => k =? m
     | _ => false
     end.

(** The order of the clock texts is the order of the minutes. *)
Definition clockTable : list (Z * string) :=
  map (fun m => (m, clockOf m)) minuteRange.

Definition pairAgrees (a b : Z * string) : bool :=
  Bool.eqb (String.leb (snd a) (snd b)) (fst a <=? fst b).

(** What the four queries of [isTeacherAvailable] look for. *)
Definition lessonStartsIn (teacherId : string) (startTime endTime : Z)
    (l : Lesson.t) : Prop :=
  Lesson.teacherId l = teacherId
  /\ activeStatus (Lesson.status l) = true
  /\ startTime <= Lesson.scheduledAt l < endTime.

Definition blockCovers (teacherId : string) (startTime endTime : Z)
    (b : BlockedTime.t) : Prop :=
  BlockedTime.userId b = teacherId
  /\ BlockedTime.startTime b <= startTime
  /\ endTime <= BlockedTime.endTime b.

Definition ruleCovers (w : World) (teacherId : string) (startTime endTime : Z)
    (a : Availability.t) : Prop :=
  Availability.userId a = teacherId
  /\ Availability.dayOfWeek a = Date.getDay (tz w) startTime
  /\ Availability.isAvailable a = true
  /\ String.leb (Availability.startTime a) (clockString (tz w) startTime) = true
  /\ String.leb (clockString (tz w) endTime) (Availability.endTime a) = true.

Definition withinPolicy (w : World) (startTime : Z)
    (settings : BookingSettings.t) : Prop :=
  BookingSettings.minAdvanceHours settings * Date.msPerHour
  <= startTime - now w
  <= BookingSettings.maxAdvanceDays settings * Date.msPerDay.

(** The rules [generateTimeSlots] works from. *)
Definition activeRules (w : World) (teacherId : string) : list Availability.t :=
  filter (fun a => String.eqb (Availability.userId a) teacherId
                   && Availability.isAvailable a)
         (availabilities (prisma w)).

(** Where a generated slot comes from: a rule for the day of the week of
    one of the days visited, and a minute of that day inside the rule's
    hours. *)
Definition slotFromRule (w : World) (teacherId : string)
    (rules : list Availability.t) (duration firstDay endDate : Z)
    (s : Slot.t) : Prop :=
  exists rule day ruleStart ruleEnd minute,
    In rule rules
    /\ Availability.dayOfWeek rule = Date.getDay (tz w) day
    /\ (exists n : nat, day = firstDay + Z.of_nat n * Date.msPerDay)
    /\ day <= endDate
    /\ timeToMinutes (Availability.startTime rule) = JS.Int ruleStart
    /\ timeToMinutes (Availability.endTime rule) = JS.Int ruleEnd
    /\ 0 <= ruleStart /\ ruleEnd < 1440
    /\ ruleStart <= minute /\ minute + duration <= ruleEnd
    /\ now w <= minuteOfDay (tz w) day minute
    /\ s = slotOf w teacherId duration day minute.

(** Neighbours in a list are related by [R]. *)
Fixpoint chain {A : Type} (R : A -> A -> Prop) (xs : list A) : Prop :=
  match xs with
  | a :: rest =>
      match rest with
      | b :: _ => R a b /\ chain R rest
      | [] => True
      end
  | [] => True
  end.

(** The local calendar day of an instant, as a day number. *)
Definition localDay (tz t : Z) : Z := Date.Day (Date.LocalTime tz t).

(** Two neighbouring slots: [gap] apart, or on different days. *)
Definition gapOrNextDay (tz gap : Z) (s1 s2 : Slot.t) : Prop :=
  Slot.startTime s2 - Slot.startTime s1 = gap
  \/ localDay tz (Slot.startTime s1) < localDay tz (Slot.startTime s2).

(** The group the response lists under a date key, if any. *)
Definition groupOf {E : Type} (key : string)
    (groups : list (string * list E)) : option (list E) :=
  option_map snd (find (fun group => String.eqb (fst group) key) groups).

(** The slots whose start has a given date key, in their order. *)
Definition slotsOfDate (key : string) (slots : list Slot.t) : list Slot.t :=
  filter (fun s => String.eqb (TimeslotsRoute.dateKey (Slot.startTime s)) key)
         slots.

(** The bounds the booking settings route asks of what it stores. *)
Definition withinLimits (row : SettingsRow.t) : Prop :=
  let stored := SettingsRow.columns row in
  0 <= BookingSettings.bufferMinutes stored <= 60
  /\ 1 <= BookingSettings.minAdvanceHours stored <= 168
  /\ 1 <= BookingSettings.maxAdvanceDays stored <= 365
  /\ BookingSettings.allowedDurations stored <> []
  /\ Forall (fun d => 15 <= d <= 240)
            (BookingSettings.allowedDurations stored)
  /\ 1 <= SettingsRow.cancellationHours row <= 168.

(** The world in which the settings table holds the given rows. *)
Definition withSettingsTable (w : World) (table : list SettingsRow.t)
    : World :=
  {| tz := tz w;
     now := now w;
     prisma := {| lessons := lessons (prisma w);
                  blockedTimes := blockedTimes (prisma w);
                  availabilities := availabilities (prisma w);
                  bookingSettings := map SettingsRow.columns table |} |}.

(** Bodies of a POST: nothing to change, and a stricter policy. *)
Definition emptyBody : SettingsBody.t :=
  SettingsBody.make None None None None None None.

Definition strictBody : SettingsBody.t :=
  SettingsBody.make (Some 30) (Some 48) (Some 60) (Some [60; 90]) (Some true)
                    (Some 48).

(** * Properties *)

(** ** Strings and numbers *)

Lemma charIn_In cs c : charIn cs c = true -> In c (list_ascii_of_string cs).
Proof.
  unfold charIn. intros H. apply existsb_exists in H.
  destruct H as [x [Hin Heq]]. apply Ascii.eqb_eq in Heq. now subst.
Qed.

Lemma isDigit_In c :
  JS.isDigit c = true -> In c (list_ascii_of_string "0123456789").
Proof.
  destruct c as [[] [] [] [] [] [] [] []]; intros H;
    try discriminate H; vm_compute; tauto.
Qed.

Lemma isDigit_not_colon c : JS.isDigit c = true -> Ascii.eqb c ":" = false.
Proof.
  intros H. apply isDigit_In in H. simpl in H.
  repeat (destruct H as [H | H]; [subst c; reflexivity | ]). contradiction.
Qed.

Lemma decimalValue_no_colon s : forall acc v,
  JS.decimalValue acc s = Some v -> hasChar ":" s = false.
Proof.
  induction s as [| c s IH]; intros acc v H; simpl in *.
  - reflexivity.
  - destruct (JS.isDigit c) eqn:Hd; [| discriminate].
    rewrite (isDigit_not_colon _ Hd). simpl. eauto.
Qed.

Lemma digitValue_range c : JS.isDigit c = true -> 0 <= JS.digitValue c <= 9.
Proof.
  intros H. apply isDigit_In in H. simpl in H.
  repeat (destruct H as [H | H]; [subst c; vm_compute; split; discriminate | ]).
  contradiction.
Qed.

Lemma decimalValue_lower s : forall acc v,
  0 <= acc -> JS.decimalValue acc s = Some v -> acc <= v.
Proof.
  induction s as [| c s IH]; intros acc v Hacc H; cbn [JS.decimalValue] in H.
  - injection H as <-. lia.
  - destruct (JS.isDigit c) eqn:Hd; [| discriminate].
    pose proof (digitValue_range _ Hd).
    apply IH in H; lia.
Qed.

Lemma split_without sep s : hasChar sep s = false -> JS.split sep s = [s].
Proof.
  induction s as [| c s IH]; simpl; intros H.
  - reflexivity.
  - apply orb_false_iff in H. destruct H as [Hc Hs].
    rewrite Hc, (IH Hs). reflexivity.
Qed.

Lemma split_at_first sep a b :
  hasChar sep a = false ->
  JS.split sep (a ++ String sep b) = a :: JS.split sep b.
Proof.
  induction a as [| c a IH]; simpl; intros H.
  - rewrite Ascii.eqb_refl. reflexivity.
  - apply orb_false_iff in H. destruct H as [Hc Ha].
    rewrite Hc, (IH Ha). reflexivity.
Qed.

Lemma Number_digits s v :
  digitsOf s v -> JS.Number s = JS.ofZ v.
Proof.
  unfold digitsOf. destruct s as [| c s]; intros H.
  - simpl in H. injection H as <-. reflexivity.
  - unfold JS.Number. now rewrite H.
Qed.

Lemma ofZ_safe z :
  - JS.MAX_SAFE_INTEGER <= z <= JS.MAX_SAFE_INTEGER -> JS.ofZ z = JS.Int z.
Proof.
  intros H. unfold JS.ofZ, JS.isSafe.
  destruct (Z.leb_spec (- JS.MAX_SAFE_INTEGER) z); [| lia].
  destruct (Z.leb_spec z JS.MAX_SAFE_INTEGER); [| lia]. reflexivity.
Qed.

(** The value of two digit groups around a colon, whatever their width. *)
Lemma timeToMinutes_digit_groups h m hv mv :
  digitsOf h hv -> digitsOf m mv ->
  hv * 60 + mv <= JS.MAX_SAFE_INTEGER ->
  timeToMinutes (h ++ String ":" m) = JS.Int (hv * 60 + mv).
Proof.
  intros Hh Hm Hsafe.
  pose proof (decimalValue_lower _ _ _ (Z.le_refl 0) Hh) as Hh0.
  pose proof (decimalValue_lower _ _ _ (Z.le_refl 0) Hm) as Hm0.
  unfold timeToMinutes.
  rewrite (split_at_first _ _ _ (decimalValue_no_colon _ _ _ Hh)).
  rewrite (split_without _ _ (decimalValue_no_colon _ _ _ Hm)).
  cbn [map nth].
  rewrite (Number_digits _ _ Hh), (Number_digits _ _ Hm).
  assert (Hmax : JS.MAX_SAFE_INTEGER = 9007199254740991) by reflexivity.
  rewrite (ofZ_safe hv), (ofZ_safe mv) by lia.
  cbn [JS.mul]. rewrite ofZ_safe by lia.
  cbn [JS.add]. rewrite ofZ_safe by lia. reflexivity.
Qed.

Lemma timeToMinutes_without_colon s :
  hasChar ":" s = false -> timeToMinutes s = JS.NaN.
Proof.
  intros H. unfold timeToMinutes. rewrite (split_without _ _ H).
  cbn [map nth]. destruct (JS.mul (JS.Number s) (JS.Int 60)); reflexivity.
Qed.

Ltac each_member H :=
  simpl in H;
  repeat (destruct H as [H | H]; [symmetry in H; subst | ]);
  try contradiction.

Lemma validHHMM_shape s :
  validHHMM s = true ->
  exists h1 h2 m1 m2,
    s = String h1 (String h2 (String ":" (String m1 (String m2 EmptyString))))
    /\ In (h1, h2)
         (list_prod (list_ascii_of_string "01") (list_ascii_of_string "0123456789")
          ++ list_prod (list_ascii_of_string "2") (list_ascii_of_string "0123"))%list
    /\ In m1 (list_ascii_of_string "012345")
    /\ In m2 (list_ascii_of_string "0123456789").
Proof.
  destruct s as [| h1 [| h2 [| c [| m1 [| m2 [| x r]]]]]]; try discriminate.
  unfold validHHMM. intros H.
  repeat (apply andb_true_iff in H; destruct H as [H ?]).
  exists h1, h2, m1, m2.
  match goal with Hc : Ascii.eqb c _ = true |- _ => apply Ascii.eqb_eq in Hc; subst c end.
  repeat split; auto using charIn_In, isDigit_In.
  apply in_or_app. apply orb_true_iff in H. destruct H as [H | H];
    apply andb_true_iff in H; destruct H as [Ha Hb]; [left | right];
    apply in_prod; auto using charIn_In, isDigit_In.
  apply Ascii.eqb_eq in Ha. subst. now left.
Qed.

(** Every accepted time is a number of minutes within one day, and printing
    that number gives the time back. *)
Lemma validHHMM_minutes s :
  validHHMM s = true ->
  exists m, timeToMinutes s = JS.Int m /\ 0 <= m < 1440
            /\ minutesToTime (JS.Int m) = Some s.
Proof.
  intros H. apply validHHMM_shape in H.
  destruct H as (h1 & h2 & m1 & m2 & -> & Hh & Hm1 & Hm2).
  each_member Hm1; each_member Hm2;
    simpl in Hh;
    repeat (destruct Hh as [Hh | Hh]; [injection Hh as <- <- | ]);
    try contradiction;
    eexists; (split; [vm_compute; reflexivity | split; [lia | reflexivity]]).
Qed.

(** C6: for every valid time string "HH:MM" (two digits each, HH from 00
    to 23, MM from 00 to 59), [minutesToTime (timeToMinutes s)] is [s]. *)
Theorem C6_minutesToTime_timeToMinutes_roundtrip (s : string) :
  validHHMM s = true -> minutesToTime (timeToMinutes s) = Some s.
Proof.
  intros H. destruct (validHHMM_minutes s H) as (m & -> & _ & Hs). exact Hs.
Qed.

Lemma C6_roundtrip_witness :
  validHHMM "14:30" = true /\ minutesToTime (timeToMinutes "14:30") = Some "14:30".
Proof.
  split; [reflexivity | apply (C6_minutesToTime_timeToMinutes_roundtrip "14:30")].
  reflexivity.
Defined.

(** C7: [timeRangesOverlap s1 e1 s2 e2] is true exactly when [s1 < e2] and
    [s2 < e1]; hence it is symmetric in its two intervals, and the touching
    half-open intervals [0,60) and [60,120) do not overlap. *)
Theorem C7_timeRangesOverlap_half_open :
  (forall s1 e1 s2 e2,
      timeRangesOverlap s1 e1 s2 e2 = true <-> s1 < e2 /\ s2 < e1)
  /\ (forall a b c d, timeRangesOverlap a b c d = timeRangesOverlap c d a b)
  /\ timeRangesOverlap 0 60 60 120 = false.
Proof.
  repeat split.
  - unfold timeRangesOverlap in H. apply andb_true_iff in H. lia.
  - unfold timeRangesOverlap in H. apply andb_true_iff in H. lia.
  - intros [H1 H2]. unfold timeRangesOverlap.
    apply andb_true_iff. split; now apply Z.ltb_lt.
  - intros a b c d. unfold timeRangesOverlap. apply andb_comm.
Qed.

(** Beyond the safe range the product or the sum is a double that is not
    tracked: a number still. *)
Lemma timeToMinutes_wide_digit_groups h m hv mv :
  digitsOf h hv -> digitsOf m mv ->
  JS.MAX_SAFE_INTEGER < hv * 60 + mv ->
  timeToMinutes (h ++ String ":" m) = JS.Other.
Proof.
  intros Hh Hm Hwide.
  pose proof (decimalValue_lower _ _ _ (Z.le_refl 0) Hh) as Hh0.
  pose proof (decimalValue_lower _ _ _ (Z.le_refl 0) Hm) as Hm0.
  unfold timeToMinutes.
  rewrite (split_at_first _ _ _ (decimalValue_no_colon _ _ _ Hh)).
  rewrite (split_without _ _ (decimalValue_no_colon _ _ _ Hm)).
  cbn [map nth].
  rewrite (Number_digits _ _ Hh), (Number_digits _ _ Hm).
  assert (Hmax : JS.MAX_SAFE_INTEGER = 9007199254740991) by reflexivity.
  unfold JS.ofZ, JS.isSafe.
  destruct (Z.leb_spec (- JS.MAX_SAFE_INTEGER) hv); [| lia].
  destruct (Z.leb_spec (- JS.MAX_SAFE_INTEGER) mv); [| lia].
  destruct (Z.leb_spec hv JS.MAX_SAFE_INTEGER);
    destruct (Z.leb_spec mv JS.MAX_SAFE_INTEGER);
    cbn [andb JS.mul JS.add]; try reflexivity;
    unfold JS.ofZ, JS.isSafe;
    destruct (Z.leb_spec (- JS.MAX_SAFE_INTEGER) (hv * 60)); try lia;
    destruct (Z.leb_spec (hv * 60) JS.MAX_SAFE_INTEGER);
    cbn [andb JS.add]; try reflexivity;
    unfold JS.ofZ, JS.isSafe;
    destruct (Z.leb_spec (- JS.MAX_SAFE_INTEGER) (hv * 60 + mv)); try lia;
    destruct (Z.leb_spec (hv * 60 + mv) JS.MAX_SAFE_INTEGER); try lia;
    reflexivity.
Qed.

(** C8 (as the code has it): [timeToMinutes] has no failure path and never
    checks the format.  Two runs of decimal digits around a colon, of any
    width, give a number: exactly hours * 60 + minutes as long as that value
    is a safe integer, and a double that is not tracked beyond; a string
    without a colon gives [NaN].  A number in every case, never an error. *)
Theorem C8_timeToMinutes_never_rejects :
  (forall h m hv mv,
      digitsOf h hv -> digitsOf m mv ->
      timeToMinutes (h ++ String ":" m)
      = if hv * 60 + mv <=? JS.MAX_SAFE_INTEGER
        then JS.Int (hv * 60 + mv)
        else JS.Other)
  /\ (forall s, hasChar ":" s = false -> timeToMinutes s = JS.NaN).
Proof.
  split.
  - intros h m hv mv Hh Hm.
    destruct (hv * 60 + mv <=? JS.MAX_SAFE_INTEGER) eqn:E.
    + apply Z.leb_le in E.
      exact (timeToMinutes_digit_groups h m hv mv Hh Hm E).
    + apply Z.leb_gt in E.
      exact (timeToMinutes_wide_digit_groups h m hv mv Hh Hm E).
  - exact timeToMinutes_without_colon.
Qed.

Lemma C8_never_rejects_witness :
  timeToMinutes ("9" ++ String ":" "75") = JS.Int (9 * 60 + 75)
  /\ timeToMinutes "0930" = JS.NaN.
Proof.
  split.
  - apply (proj1 C8_timeToMinutes_never_rejects "9" "75" 9 75);
      reflexivity.
  - apply (proj2 C8_timeToMinutes_never_rejects "0930"). reflexivity.
Defined.

(** C8 as stated fails: "25:99" does not conform to "HH:MM", and
    [timeToMinutes] returns the number 1599 for it. *)
Lemma C8_nonconforming_input_gets_a_number :
  validHHMM "25:99" = false /\ timeToMinutes "25:99" = JS.Int 1599.
Proof. split; reflexivity. Qed.

(** ** The conflict checker *)

Lemma find_finds {A : Type} (f : A -> bool) (xs : list A) (x : A) :
  In x xs -> f x = true -> exists y, find f xs = Some y.
Proof.
  intros Hin Hf. destruct (find f xs) as [y |] eqn:E.
  - now exists y.
  - rewrite (find_none f xs E x Hin) in Hf. discriminate.
Qed.

(** What the lesson query does catch: a PENDING or CONFIRMED lesson of the
    teacher whose start instant lies in [startTime, endTime) makes
    [isTeacherAvailable] answer unavailable with the "another lesson" reason,
    whatever the blocked times, weekly rules and settings are: the lesson
    query is the first check. *)
Theorem C1_lesson_starting_in_window_wins (w : World) (teacherId : string)
    (startTime endTime : Z) (l : Lesson.t) :
  In l (lessons (prisma w)) ->
  Lesson.teacherId l = teacherId ->
  activeStatus (Lesson.status l) = true ->
  startTime <= Lesson.scheduledAt l < endTime ->
  isTeacherAvailable w teacherId startTime endTime
  = unavailable "Teacher has another lesson at this time".
Proof.
  intros Hin Hid Hst [Hlo Hhi].
  assert (Hl : conflictingLessonWhere teacherId startTime endTime l = true).
  { unfold conflictingLessonWhere. rewrite Hst.
    apply String.eqb_eq in Hid. rewrite Hid.
    apply Z.leb_le in Hlo. apply Z.ltb_lt in Hhi. now rewrite Hlo, Hhi. }
  destruct (find_finds _ _ _ Hin Hl) as [y Hy].
  unfold isTeacherAvailable. now rewrite Hy.
Qed.


(** A past instant never passes the checker of a teacher whose settings ask
    for a non-negative notice. *)
Lemma past_is_unavailable (w : World) (teacherId : string)
    (startTime endTime : Z) (settings : BookingSettings.t) :
  findSettings (prisma w) teacherId = Some settings ->
  0 <= BookingSettings.minAdvanceHours settings ->
  startTime < now w ->
  exists message,
    isTeacherAvailable w teacherId startTime endTime = unavailable message.
Proof.
  intros Hs Hmin Hpast. unfold isTeacherAvailable, unavailable.
  destruct (find (conflictingLessonWhere _ _ _) _); [eauto |].
  destruct (find (blockedTimeWhere _ _ _) _); [eauto |].
  destruct (find (availabilityWhere _ _ _ _) _); [| eauto].
  rewrite Hs.
  assert (H : (startTime - now w
               <? BookingSettings.minAdvanceHours settings * Date.msPerHour)
              = true).
  { apply Z.ltb_lt. unfold Date.msPerHour. nia. }
  rewrite H. eauto.
Qed.

(** ** The booking validator *)

Lemma getHours_range (tz d : Z) : 0 <= Date.getHours tz d <= 23.
Proof.
  unfold Date.getHours, Date.HourFromTime.
  pose proof (Z.mod_pos_bound (Date.LocalTime tz d / Date.msPerHour) 24).
  lia.
Qed.

(** C10: the hour of day is always between 0 and 23, so the test
    [hour > 23] of the business-hours check is never true; the check reports
    its error exactly when the hour is below 6, and every start at hour 6 or
    later passes it, the last minute of hour 23 included. *)
Theorem C10_hour_upper_bound_unreachable (w : World) (startTime : Z) :
  let hour := Date.getHours (tz w) startTime in
  0 <= hour <= 23
  /\ (hour >? 23) = false
  /\ (hourErrors w startTime = ["Please select a time between 6 AM and 11 PM"]
      <-> hour < 6)
  /\ (6 <= hour <-> hourErrors w startTime = [])
  /\ hourErrors {| tz := 0; now := 0; prisma := prisma w |}
       (23 * Date.msPerHour + 59 * Date.msPerMinute) = [].
Proof.
  cbv zeta. pose proof (getHours_range (tz w) startTime) as Hr.
  assert (Hgt : (Date.getHours (tz w) startTime >? 23) = false).
  { destruct (Z.gtb_spec (Date.getHours (tz w) startTime) 23); [lia | reflexivity]. }
  unfold hourErrors. rewrite Hgt, orb_false_r.
  repeat split; try lia; try reflexivity;
    destruct (Z.ltb_spec (Date.getHours (tz w) startTime) 6);
    intros; try lia; try reflexivity; try discriminate.
Qed.

Lemma length_zero_nil {A : Type} (xs : list A) :
  (List.length xs =? 0)%nat = true <-> xs = [].
Proof.
  destruct xs; simpl; split; intros H; try reflexivity; discriminate.
Qed.

(** C4 (as the code has it): [validateBooking] collects the errors of its
    four checks in order instead of stopping at the first, and [valid] holds
    exactly when no error was collected.  A booking in the past, of 45
    minutes, with a teacher who allows 30, 60, 90 and 120 minutes and asks
    for a non-negative notice, collects three errors and possibly the
    business-hours one: the past error, the checker's reason (the checker
    refuses every past instant), and the allowed-durations error. *)
Theorem C4_validateBooking_accumulates (w : World) (teacherId : string)
    (startTime duration : Z) :
  let r := validateBooking w teacherId startTime duration in
  errors r
  = (pastErrors w startTime
     ++ availabilityErrors w teacherId startTime (startTime + duration * 60000)
     ++ durationErrors w teacherId duration
     ++ hourErrors w startTime)%list
  /\ (valid r = true <-> errors r = [])
  /\ (forall settings,
         findSettings (prisma w) teacherId = Some settings ->
         BookingSettings.allowedDurations settings = [30; 60; 90; 120] ->
         0 <= BookingSettings.minAdvanceHours settings ->
         startTime < now w -> duration = 45 ->
         exists checkerReason,
           errors r
           = (["Cannot book lessons in the past";
               checkerReason;
               "Duration must be one of: 30, 60, 90, 120 minutes"]
              ++ hourErrors w startTime)%list).
Proof.
  cbv zeta. split; [reflexivity |]. split.
  - unfold validateBooking. cbn [valid errors]. apply length_zero_nil.
  - intros settings Hs Hallowed Hmin Hpast ->.
    unfold validateBooking. cbn [errors].
    unfold pastErrors. apply Z.ltb_lt in Hpast as Hpast'. rewrite Hpast'.
    unfold availabilityErrors.
    destruct (past_is_unavailable w teacherId startTime
                (startTime + 45 * 60000) settings Hs Hmin Hpast) as [m Hm].
    rewrite Hm. cbn [available reason unavailable].
    unfold durationErrors. rewrite Hs, Hallowed.
    exists (orElse (Some m) "Teacher not available"). reflexivity.
Qed.

(** ** Dates *)

Ltac div_lia := Z.div_mod_to_equations; lia.

Ltac unfold_time :=
  unfold Date.setHours, Date.setMinutes, Date.getMinutes, Date.getHours,
    Date.MakeDate, Date.MakeTime, Date.UTC, Date.LocalTime, Date.Day,
    Date.TimeWithinDay, Date.HourFromTime, Date.MinFromTime, Date.SecFromTime,
    Date.msFromTime, Date.msPerDay, Date.msPerHour, Date.msPerMinute,
    Date.msPerSecond in *.

Lemma DayFromYear_next (y : Z) :
  Date.DayFromYear (y + 1) = Date.DayFromYear y + Date.DaysInYear y.
Proof.
  unfold Date.DayFromYear, Date.DaysInYear, Date.isLeap.
  destruct (Z.eqb_spec (y mod 4) 0), (Z.eqb_spec (y mod 100) 0),
    (Z.eqb_spec (y mod 400) 0); cbn [andb orb negb]; div_lia.
Qed.

(** [YearFromDay] finds the year the day falls in. *)
Lemma YearFromDay_bounds (day : Z) :
  Date.DayFromYear (Date.YearFromDay day) <= day
  < Date.DayFromYear (Date.YearFromDay day + 1).
Proof.
  unfold Date.YearFromDay.
  set (y := 1970 + day * 400 / 146097).
  assert (Hlo : Date.DayFromYear (y - 1) <= day)
    by (unfold Date.DayFromYear, y; div_lia).
  assert (Hhi : day < Date.DayFromYear (y + 2))
    by (unfold Date.DayFromYear, y; div_lia).
  destruct (Z.leb_spec (Date.DayFromYear (y + 1)) day).
  - replace (y + 1 + 1) with (y + 2) by lia. lia.
  - destruct (Z.leb_spec (Date.DayFromYear y) day).
    + lia.
    + replace (y - 1 + 1) with y by lia. lia.
Qed.

Lemma DayWithinYear_range (t : Z) :
  0 <= Date.DayWithinYear t < 365 + Date.leapDays (Date.YearFromTime t).
Proof.
  unfold Date.DayWithinYear, Date.YearFromTime.
  pose proof (YearFromDay_bounds (Date.Day t)) as H.
  rewrite DayFromYear_next in H.
  unfold Date.DaysInYear, Date.leapDays in *.
  destruct (Date.isLeap _); lia.
Qed.

Lemma leapDays_range (y : Z) : 0 <= Date.leapDays y <= 1.
Proof. unfold Date.leapDays. destruct (Date.isLeap y); lia. Qed.

Lemma MonthFromTime_range (t : Z) : 0 <= Date.MonthFromTime t <= 11.
Proof.
  unfold Date.MonthFromTime, Date.monthOfYearDay.
  repeat match goal with
         | |- context [if ?c then _ else _] => destruct c
         end; lia.
Qed.

Lemma DateFromTime_range (t : Z) : 1 <= Date.DateFromTime t <= 31.
Proof.
  unfold Date.DateFromTime, Date.MonthFromTime.
  pose proof (DayWithinYear_range t) as Hd.
  pose proof (leapDays_range (Date.YearFromTime t)) as Hl.
  set (d := Date.DayWithinYear t) in *.
  set (leap := Date.leapDays (Date.YearFromTime t)) in *.
  unfold Date.monthOfYearDay.
  repeat match goal with
         | |- context [if ?a <? ?b then _ else _] =>
             destruct (Z.ltb_spec a b)
         end; cbn [Date.monthStart]; lia.
Qed.

(** Year, month and day of the month give the day number back. *)
Lemma MakeDay_of_parts (t k : Z) :
  Date.MakeDay (Date.YearFromTime t) (Date.MonthFromTime t)
    (Date.DateFromTime t + k)
  = Date.Day t + k.
Proof.
  pose proof (MonthFromTime_range t) as Hm.
  unfold Date.MakeDay.
  replace (Date.MonthFromTime t / 12) with 0 by div_lia.
  replace (Date.MonthFromTime t mod 12) with (Date.MonthFromTime t) by div_lia.
  rewrite Z.add_0_r.
  unfold Date.DateFromTime, Date.DayWithinYear. lia.
Qed.

(** [d.setDate(d.getDate() + 1)] is the same local time one day later. *)
Lemma setDate_next_day (tz d : Z) :
  Date.setDate tz d (Date.getDate tz d + 1) = d + Date.msPerDay.
Proof.
  unfold Date.setDate, Date.getDate. rewrite MakeDay_of_parts.
  unfold_time. div_lia.
Qed.

(** [d.setMinutes(d.getMinutes() + k)] is [k] minutes later. *)
Lemma setMinutes_later (tz d k : Z) :
  Date.setMinutes tz d (Date.getMinutes tz d + k) = d + k * Date.msPerMinute.
Proof. unfold_time. div_lia. Qed.

(** [d.setHours(Math.floor(m / 60), m % 60, 0, 0)] for a minute of the day. *)
Lemma setHours_minuteOfDay (tz d m : Z) :
  0 <= m ->
  Date.setHours tz d (m / 60) (Z.rem m 60) 0 0 = minuteOfDay tz d m.
Proof.
  intros Hm. rewrite Z.rem_mod_nonneg by lia.
  unfold minuteOfDay, dayStart. unfold_time. div_lia.
Qed.

Lemma setHours_midnight (tz d : Z) :
  Date.setHours tz d 0 0 0 0 = dayStart tz d.
Proof. unfold dayStart. unfold_time. lia. Qed.

Lemma dayStart_next (tz d : Z) :
  dayStart tz (dayStart tz d + Date.msPerDay) = dayStart tz d + Date.msPerDay.
Proof. unfold dayStart. unfold_time. div_lia. Qed.

Lemma dayStart_idempotent (tz d : Z) : dayStart tz (dayStart tz d) = dayStart tz d.
Proof. unfold dayStart. unfold_time. div_lia. Qed.

(** ** The slot generator *)

Section SlotLoopFacts.
Variables (w : World) (teacherId : string).
Variables (duration slotInterval currentDate endMinutes : Z).
Hypothesis interval_positive : 0 < slotInterval.

Lemma slotAt_nonneg (m : Z) :
  0 <= m ->
  slotAt w teacherId duration currentDate m
  = if minuteOfDay (tz w) currentDate m <? now w then []
    else [slotOf w teacherId duration currentDate m].
Proof.
  intros Hm. unfold slotAt, slotOf.
  rewrite setMinutes_later, setHours_minuteOfDay by exact Hm. reflexivity.
Qed.

Lemma slotAt_lastsFor (m : Z) :
  Forall (lastsFor duration) (slotAt w teacherId duration currentDate m).
Proof.
  unfold slotAt. rewrite setMinutes_later.
  destruct (_ <? now w); constructor; [| constructor].
  unfold lastsFor. cbn [Slot.startTime Slot.endTime]. lia.
Qed.

Lemma slotAt_carriesAvailability (m : Z) :
  Forall (carriesAvailability w teacherId)
    (slotAt w teacherId duration currentDate m).
Proof.
  unfold slotAt. destruct (_ <? now w); constructor; [| constructor].
  reflexivity.
Qed.

Lemma slotLoop_Forall (P : Slot.t -> Prop) :
  (forall m, Forall P (slotAt w teacherId duration currentDate m)) ->
  forall fuel m,
    Forall P (slotLoop w teacherId duration slotInterval currentDate endMinutes
                fuel m).
Proof.
  intros HP. induction fuel as [| fuel IH]; intros m; cbn [slotLoop].
  - constructor.
  - destruct (m + duration <=? endMinutes); [| constructor].
    apply Forall_app. split; [apply HP | apply IH].
Qed.

(** Once a slot is not in the past, no later one of the day is: the slots
    kept are consecutive rounds of the loop. *)
Lemma slotLoop_spacing (fuel : nat) : forall m,
  0 <= m ->
  let slots := slotLoop w teacherId duration slotInterval currentDate endMinutes
                 fuel m in
  evenlySpaced (slotInterval * Date.msPerMinute) (map Slot.startTime slots)
  /\ (now w <= minuteOfDay (tz w) currentDate m ->
      forall s rest, slots = s :: rest ->
                     Slot.startTime s = minuteOfDay (tz w) currentDate m).
Proof.
  induction fuel as [| fuel IH]; intros m Hm; cbn [slotLoop].
  - split; [exact I | discriminate].
  - destruct (m + duration <=? endMinutes); [| split; [exact I | discriminate]].
    destruct (IH (m + slotInterval) ltac:(lia)) as [Hspaced Hhead].
    rewrite slotAt_nonneg by exact Hm.
    destruct (Z.ltb_spec (minuteOfDay (tz w) currentDate m) (now w)) as [Hpast | Hnow].
    + cbn [app]. split; [exact Hspaced | lia].
    + cbn [app map]. split.
      * destruct (slotLoop _ _ _ _ _ _ fuel (m + slotInterval)) as [| s' rest] eqn:E.
        -- exact I.
        -- cbn [map]. split; [| exact Hspaced].
           rewrite (Hhead ltac:(unfold minuteOfDay, Date.msPerMinute in *; nia)
                      s' rest eq_refl).
           cbn [slotOf Slot.startTime]. unfold minuteOfDay. lia.
      * intros _ s rest [= <- _]. reflexivity.
Qed.

(** The fuel [slotRounds] gives the loop is enough: more changes nothing. *)
Lemma slotLoop_fuel_enough (fuel : nat) : forall m extra,
  (endMinutes - duration - m) / slotInterval + 1 <= Z.of_nat fuel ->
  slotLoop w teacherId duration slotInterval currentDate endMinutes
    (fuel + extra) m
  = slotLoop w teacherId duration slotInterval currentDate endMinutes fuel m.
Proof.
  induction fuel as [| fuel IH]; intros m extra Hfuel.
  - cbn [Nat.add slotLoop]. destruct extra as [| extra]; [reflexivity |].
    cbn [slotLoop].
    destruct (Z.leb_spec (m + duration) endMinutes) as [Hle | Hgt]; [| reflexivity].
    exfalso.
    assert (0 <= (endMinutes - duration - m) / slotInterval)
      by (apply Z.div_pos; lia).
    lia.
  - cbn [Nat.add slotLoop].
    destruct (m + duration <=? endMinutes); [| reflexivity].
    f_equal. apply IH.
    replace (endMinutes - duration - (m + slotInterval))
      with (endMinutes - duration - m + (-1) * slotInterval) by lia.
    rewrite Z.div_add by lia. lia.
Qed.
End SlotLoopFacts.

Lemma daySlots_returns (w : World) (teacherId : string)
    (duration slotInterval currentDate : Z) (rule : Availability.t) :
  wellFormedRule rule -> 0 < slotInterval ->
  exists startMinutes endMinutes fuel,
    timeToMinutes (Availability.startTime rule) = JS.Int startMinutes
    /\ 0 <= startMinutes < 1440
    /\ timeToMinutes (Availability.endTime rule) = JS.Int endMinutes
    /\ daySlots w teacherId duration slotInterval currentDate rule
       = Returns (slotLoop w teacherId duration slotInterval currentDate
                    endMinutes fuel startMinutes).
Proof.
  intros [Hstart Hend] Hpos.
  destruct (validHHMM_minutes _ Hstart) as (a & Ha & Hrange & _).
  destruct (validHHMM_minutes _ Hend) as (b & Hb & _ & _).
  unfold daySlots. rewrite Ha, Hb.
  destruct (Z.leb_spec (a + duration) b) as [Hle | Hgt].
  - destruct (Z.ltb_spec slotInterval 0); [lia |].
    destruct (Z.eqb_spec slotInterval 0); [lia |].
    exists a, b, (slotRounds duration slotInterval a b). auto.
  - exists a, b, O. repeat split; auto; lia.
Qed.

Section DayLoopFacts.
Variables (w : World) (teacherId : string) (rules : list Availability.t).
Variables (duration slotInterval endDate : Z).
Hypothesis interval_positive : 0 < slotInterval.
Hypothesis rules_well_formed : Forall wellFormedRule rules.

Lemma slotsOn_returns (P : Slot.t -> Prop) (currentDate : Z) :
  (forall day m, Forall P (slotAt w teacherId duration day m)) ->
  exists slots,
    slotsOn w teacherId rules duration slotInterval currentDate = Returns slots
    /\ Forall P slots.
Proof.
  intros HP. unfold slotsOn.
  destruct (find _ rules) as [rule |] eqn:E.
  - apply find_some in E. destruct E as [Hin _].
    pose proof (proj1 (Forall_forall _ _) rules_well_formed rule Hin) as Hwf.
    destruct (daySlots_returns w teacherId duration slotInterval currentDate
                rule Hwf interval_positive)
      as (a & b & fuel & _ & _ & _ & ->).
    eexists. split; [reflexivity |]. apply slotLoop_Forall. apply HP.
  - exists []. split; [reflexivity | constructor].
Qed.

(** The day loop returns, and what holds of every slot of every day holds
    of every slot returned. *)
Lemma dayLoop_returns (P : Slot.t -> Prop) :
  (forall day m, Forall P (slotAt w teacherId duration day m)) ->
  forall fuel currentDate,
  exists slots,
    dayLoop w teacherId rules duration slotInterval endDate fuel currentDate
    = Returns slots
    /\ Forall P slots.
Proof.
  intros HP. induction fuel as [| fuel IH]; intros currentDate; cbn [dayLoop].
  - exists []. split; [reflexivity | constructor].
  - destruct (currentDate <=? endDate).
    + destruct (slotsOn_returns P currentDate HP) as (today & -> & Htoday).
      destruct (IH (Date.setDate (tz w) currentDate
                      (Date.getDate (tz w) currentDate + 1)))
        as (rest & -> & Hrest).
      exists (today ++ rest)%list. split; [reflexivity |].
      apply Forall_app. now split.
    + exists []. split; [reflexivity | constructor].
Qed.

(** The fuel [dayRounds] gives the loop is enough: more changes nothing. *)
Lemma dayLoop_fuel_enough (fuel : nat) : forall currentDate extra,
  (endDate - currentDate) / Date.msPerDay + 1 <= Z.of_nat fuel ->
  dayLoop w teacherId rules duration slotInterval endDate (fuel + extra)
    currentDate
  = dayLoop w teacherId rules duration slotInterval endDate fuel currentDate.
Proof.
  induction fuel as [| fuel IH]; intros currentDate extra Hfuel.
  - cbn [Nat.add dayLoop]. destruct extra as [| extra]; [reflexivity |].
    cbn [dayLoop].
    destruct (Z.leb_spec currentDate endDate) as [Hle | Hgt]; [| reflexivity].
    exfalso. unfold Date.msPerDay in Hfuel. div_lia.
  - cbn [Nat.add dayLoop].
    destruct (currentDate <=? endDate); [| reflexivity].
    f_equal. apply IH. rewrite setDate_next_day.
    unfold Date.msPerDay in *. div_lia.
Qed.
End DayLoopFacts.

(** The rounds both loops are given are never the reason they stop. *)
Lemma slotRounds_enough (w : World) (teacherId : string)
    (duration slotInterval currentDate startMinutes endMinutes : Z)
    (extra : nat) :
  0 < slotInterval ->
  slotLoop w teacherId duration slotInterval currentDate endMinutes
    (slotRounds duration slotInterval startMinutes endMinutes + extra)
    startMinutes
  = slotLoop w teacherId duration slotInterval currentDate endMinutes
      (slotRounds duration slotInterval startMinutes endMinutes) startMinutes.
Proof.
  intros Hpos. apply slotLoop_fuel_enough; [exact Hpos |].
  unfold slotRounds. lia.
Qed.

Lemma dayRounds_enough (w : World) (teacherId : string)
    (rules : list Availability.t) (duration slotInterval endDate firstDay : Z)
    (extra : nat) :
  dayLoop w teacherId rules duration slotInterval endDate
    (dayRounds firstDay endDate + extra) firstDay
  = dayLoop w teacherId rules duration slotInterval endDate
      (dayRounds firstDay endDate) firstDay.
Proof.
  apply dayLoop_fuel_enough. unfold dayRounds. lia.
Qed.

Lemma daySlots_shape (w : World) (teacherId : string)
    (duration slotInterval currentDate : Z) (rule : Availability.t) :
  wellFormedRule rule -> 0 < slotInterval ->
  exists slots,
    daySlots w teacherId duration slotInterval currentDate rule = Returns slots
    /\ Forall (lastsFor duration) slots
    /\ evenlySpaced (slotInterval * Date.msPerMinute) (map Slot.startTime slots).
Proof.
  intros Hwf Hpos.
  destruct (daySlots_returns w teacherId duration slotInterval currentDate
              rule Hwf Hpos) as (a & b & fuel & _ & Ha & _ & ->).
  eexists. split; [reflexivity |]. split.
  - apply slotLoop_Forall. apply slotAt_lastsFor.
  - apply slotLoop_spacing; lia.
Qed.

(** With well-formed rules and a positive interval [generateTimeSlots]
    returns, and what holds of every slot of every day holds of every slot
    returned. *)
Lemma generateTimeSlots_returns (P : Slot.t -> Prop) (w : World)
    (teacherId : string) (startDate endDate duration : Z) :
  (forall day m, Forall P (slotAt w teacherId duration day m)) ->
  (forall rule, In rule (availabilities (prisma w)) ->
                Availability.userId rule = teacherId ->
                Availability.isAvailable rule = true ->
                wellFormedRule rule) ->
  0 < duration + bufferOf (findSettings (prisma w) teacherId) ->
  exists slots,
    generateTimeSlots w teacherId startDate endDate duration = Returns slots
    /\ Forall P slots.
Proof.
  intros HP Hwf Hpos. unfold generateTimeSlots.
  set (rules := filter _ (availabilities (prisma w))).
  assert (Hrules : Forall wellFormedRule rules).
  { apply Forall_forall. intros rule Hin. apply filter_In in Hin.
    destruct Hin as [Hin Hkeep]. apply andb_true_iff in Hkeep.
    destruct Hkeep as [Hid Hav]. apply String.eqb_eq in Hid. now apply Hwf. }
  destruct rules as [| rule rules'] eqn:E.
  - exists []. split; [reflexivity | constructor].
  - rewrite <- E. apply dayLoop_returns; auto. now rewrite E.
Qed.

(** Whatever the tables hold: what holds of every slot of every day holds of
    every slot of a call that returns. *)
Lemma daySlots_Forall (P : Slot.t -> Prop) (w : World) (teacherId : string)
    (duration slotInterval currentDate : Z) (rule : Availability.t)
    (slots : list Slot.t) :
  (forall day m, Forall P (slotAt w teacherId duration day m)) ->
  daySlots w teacherId duration slotInterval currentDate rule = Returns slots ->
  Forall P slots.
Proof.
  intros HP. unfold daySlots.
  destruct (timeToMinutes (Availability.startTime rule)) as [| a |];
    destruct (timeToMinutes (Availability.endTime rule)) as [| b |];
    try discriminate; try (intros [= <-]; constructor).
  destruct (a + duration <=? b); [| intros [= <-]; constructor].
  destruct (slotInterval <? 0); [discriminate |].
  destruct (slotInterval =? 0); [discriminate |].
  intros [= <-]. apply slotLoop_Forall. apply HP.
Qed.

Lemma dayLoop_Forall (P : Slot.t -> Prop) (w : World) (teacherId : string)
    (rules : list Availability.t) (duration slotInterval endDate : Z) :
  (forall day m, Forall P (slotAt w teacherId duration day m)) ->
  forall fuel currentDate slots,
    dayLoop w teacherId rules duration slotInterval endDate fuel currentDate
    = Returns slots ->
    Forall P slots.
Proof.
  intros HP. induction fuel as [| fuel IH]; intros currentDate slots;
    cbn [dayLoop].
  - intros [= <-]. constructor.
  - destruct (currentDate <=? endDate); [| intros [= <-]; constructor].
    unfold andThen.
    destruct (slotsOn _ _ _ _ _ currentDate) as [today | |] eqn:Etoday;
      try discriminate.
    destruct (dayLoop _ _ _ _ _ _ fuel _) as [rest | |] eqn:Erest;
      try discriminate.
    intros [= <-]. apply Forall_app. split; [| now apply (IH _ _ Erest)].
    unfold slotsOn in Etoday.
    destruct (find _ rules) as [rule |].
    + now apply (daySlots_Forall P _ _ _ _ _ _ _ HP Etoday).
    + injection Etoday as <-. constructor.
Qed.

Lemma generateTimeSlots_Forall (P : Slot.t -> Prop) (w : World)
    (teacherId : string) (startDate endDate duration : Z)
    (slots : list Slot.t) :
  (forall day m, Forall P (slotAt w teacherId duration day m)) ->
  generateTimeSlots w teacherId startDate endDate duration = Returns slots ->
  Forall P slots.
Proof.
  intros HP. unfold generateTimeSlots.
  destruct (filter _ (availabilities (prisma w))) as [| rule rules].
  - intros [= <-]. constructor.
  - now apply dayLoop_Forall.
Qed.

(** C5 (as the code has it): every slot [generateTimeSlots] returns carries
    a start instant, an end instant and the checker's [available] answer for
    that interval, and nothing else: a slot has no field for the checker's
    reason.  With the teacher's rules in the stored format and a positive
    slot interval the call does return. *)
Theorem C5_slots_carry_the_available_flag (w : World) (teacherId : string)
    (startDate endDate duration : Z) :
  (forall slots,
      generateTimeSlots w teacherId startDate endDate duration = Returns slots ->
      Forall (carriesAvailability w teacherId) slots)
  /\ ((forall rule, In rule (availabilities (prisma w)) ->
                    Availability.userId rule = teacherId ->
                    Availability.isAvailable rule = true ->
                    wellFormedRule rule) ->
      0 < duration + bufferOf (findSettings (prisma w) teacherId) ->
      exists slots,
        generateTimeSlots w teacherId startDate endDate duration = Returns slots).
Proof.
  split.
  - intros slots. apply generateTimeSlots_Forall.
    intros day m. apply slotAt_carriesAvailability.
  - intros Hwf Hpos.
    destruct (generateTimeSlots_returns (fun _ => True) w teacherId startDate
                endDate duration) as (slots & Hslots & _); auto.
    + intros day m. apply Forall_forall. trivial.
    + now exists slots.
Qed.

(** Every slot returned is exactly [duration] minutes long. *)
Lemma generateTimeSlots_lastsFor (w : World) (teacherId : string)
    (startDate endDate duration : Z) (slots : list Slot.t) :
  generateTimeSlots w teacherId startDate endDate duration = Returns slots ->
  Forall (lastsFor duration) slots.
Proof.
  apply generateTimeSlots_Forall. intros day m. apply slotAt_lastsFor.
Qed.

(** ** The calendar exporter *)

Lemma twoDigitShape_all :
  forallb (fun n => twoDigitShape (Z.of_nat n)) (seq 0 100) = true.
Proof. vm_compute. reflexivity. Qed.

Lemma fourDigitShape_all :
  forallb (fun n => fourDigitShape (Z.of_nat n)) (seq 0 (100 * 100)) = true.
Proof. vm_compute. reflexivity. Qed.

Lemma pad2_digits (z : Z) :
  0 <= z <= 99 ->
  exists a b,
    Date.pad 2 z = String a (String b EmptyString)
    /\ JS.isDigit a = true /\ JS.isDigit b = true
    /\ 10 * JS.digitValue a + JS.digitValue b = z.
Proof.
  intros Hz.
  pose proof (proj1 (forallb_forall _ _) twoDigitShape_all (Z.to_nat z)) as H.
  cbv beta in H. rewrite Z2Nat.id in H by lia.
  specialize (H ltac:(apply in_seq; lia)).
  unfold twoDigitShape in H.
  destruct (Date.pad 2 z) as [| a [| b [| c r]]]; try discriminate H.
  do 2 (apply andb_true_iff in H; destruct H as [H ?]).
  exists a, b. repeat split; auto. now apply Z.eqb_eq.
Qed.

Lemma pad4_digits (z : Z) :
  0 <= z <= 9999 ->
  exists a b c d,
    Date.pad 4 z = String a (String b (String c (String d EmptyString)))
    /\ JS.isDigit a = true /\ JS.isDigit b = true
    /\ JS.isDigit c = true /\ JS.isDigit d = true
    /\ 100 * (10 * JS.digitValue a + JS.digitValue b)
       + (10 * JS.digitValue c + JS.digitValue d) = z.
Proof.
  intros Hz.
  pose proof (proj1 (forallb_forall _ _) fourDigitShape_all (Z.to_nat z)) as H.
  cbv beta in H. rewrite Z2Nat.id in H by lia.
  specialize (H ltac:(apply in_seq; lia)).
  unfold fourDigitShape in H.
  destruct (Date.pad 4 z) as [| a [| b [| c [| d [| e r]]]]]; try discriminate H.
  do 4 (apply andb_true_iff in H; destruct H as [H ?]).
  exists a, b, c, d. repeat split; auto. now apply Z.eqb_eq.
Qed.

Lemma digit_survives_strip (c : ascii) :
  JS.isDigit c = true -> charIn "-:" c = false.
Proof.
  intros H. apply isDigit_In in H. simpl in H.
  repeat (destruct H as [H | H]; [subst c; reflexivity | ]). contradiction.
Qed.

Lemma digit_not_dot (c : ascii) : JS.isDigit c = true -> Ascii.eqb c "." = false.
Proof.
  intros H. apply isDigit_In in H. simpl in H.
  repeat (destruct H as [H | H]; [subst c; reflexivity | ]). contradiction.
Qed.

Lemma time_fields_range (t : Z) :
  0 <= Date.HourFromTime t <= 23 /\ 0 <= Date.MinFromTime t <= 59
  /\ 0 <= Date.SecFromTime t <= 59.
Proof. unfold_time. repeat split; div_lia. Qed.

Lemma seconds_of_fields (t : Z) :
  Date.Day t * 86400 + Date.HourFromTime t * 3600 + Date.MinFromTime t * 60
  + Date.SecFromTime t
  = t / 1000.
Proof. unfold_time. div_lia. Qed.

Lemma split_nonempty (sep : ascii) (s : string) : JS.split sep s <> [].
Proof.
  destruct s as [| c s]; cbn [JS.split]; [discriminate |].
  destruct (Ascii.eqb c sep); [discriminate |].
  destruct (JS.split sep s); discriminate.
Qed.

(** The part of a string before the first separator. *)
Lemma first_piece_cons (sep c : ascii) (rest : string) :
  nth 0 (JS.split sep (String c rest)) EmptyString
  = if Ascii.eqb c sep then EmptyString
    else String c (nth 0 (JS.split sep rest) EmptyString).
Proof.
  cbn [JS.split]. destruct (Ascii.eqb c sep); [reflexivity |].
  pose proof (split_nonempty sep rest).
  destruct (JS.split sep rest); [contradiction | reflexivity].
Qed.

Lemma first_piece_digit (c : ascii) (rest : string) :
  JS.isDigit c = true ->
  nth 0 (JS.split "." (String c rest)) EmptyString
  = String c (nth 0 (JS.split "." rest) EmptyString).
Proof. intros H. now rewrite first_piece_cons, (digit_not_dot c H). Qed.

Lemma strip_digit (c : ascii) (rest : string) :
  JS.isDigit c = true ->
  stripChars "-:" (String c rest) = String c (stripChars "-:" rest).
Proof. intros H. cbn [stripChars]. now rewrite (digit_survives_strip c H). Qed.

Lemma twoDigits_digits (a b : ascii) (rest : string) :
  JS.isDigit a = true -> JS.isDigit b = true ->
  twoDigits (String a (String b rest))
  = Some (10 * JS.digitValue a + JS.digitValue b, rest).
Proof. intros Ha Hb. unfold twoDigits. now rewrite Ha, Hb. Qed.

(** The stamp of an instant: its date and time fields side by side. *)
Lemma formatDate_fields (t : Z) :
  fourDigitYear t ->
  formatDate t
  = Date.pad 4 (Date.YearFromTime t) ++ Date.pad 2 (Date.MonthFromTime t + 1)
    ++ Date.pad 2 (Date.DateFromTime t) ++ "T"
    ++ Date.pad 2 (Date.HourFromTime t) ++ Date.pad 2 (Date.MinFromTime t)
    ++ Date.pad 2 (Date.SecFromTime t) ++ "Z".
Proof.
  intros Hy. unfold fourDigitYear in Hy.
  pose proof (MonthFromTime_range t) as Hmo.
  pose proof (DateFromTime_range t) as Hd.
  destruct (time_fields_range t) as (Hh & Hmi & Hs).
  destruct (pad4_digits _ Hy) as (y1 & y2 & y3 & y4 & Ey & ? & ? & ? & ? & _).
  destruct (pad2_digits (Date.MonthFromTime t + 1) ltac:(lia))
    as (m1 & m2 & Em & ? & ? & _).
  destruct (pad2_digits (Date.DateFromTime t) ltac:(lia))
    as (d1 & d2 & Ed & ? & ? & _).
  destruct (pad2_digits (Date.HourFromTime t) ltac:(lia))
    as (h1 & h2 & Eh & ? & ? & _).
  destruct (pad2_digits (Date.MinFromTime t) ltac:(lia))
    as (i1 & i2 & Ei & ? & ? & _).
  destruct (pad2_digits (Date.SecFromTime t) ltac:(lia))
    as (s1 & s2 & Es & ? & ? & _).
  unfold formatDate, Date.toISOString, Date.isoYear.
  destruct (Z.leb_spec 0 (Date.YearFromTime t)); [| lia].
  destruct (Z.leb_spec (Date.YearFromTime t) 9999); [| lia].
  cbn [andb]. rewrite Ey, Em, Ed, Eh, Ei, Es.
  cbn [append].
  repeat first
    [ rewrite strip_digit by assumption
    | progress change (stripChars "-:" (String "-" ?r)) with (stripChars "-:" r)
    | progress change (stripChars "-:" (String ":" ?r)) with (stripChars "-:" r)
    | progress change (stripChars "-:" (String "T" ?r))
        with (String "T" (stripChars "-:" r))
    | progress change (stripChars "-:" (String "." ?r))
        with (String "." (stripChars "-:" r)) ].
  repeat first
    [ rewrite first_piece_digit by assumption
    | rewrite (first_piece_cons "." "T")
    | rewrite (first_piece_cons "." ".") ].
  reflexivity.
Qed.

(** A stamp written by [formatDate] reads back as the instant it was made
    from, to the second. *)
Lemma stampSeconds_formatDate (t : Z) :
  fourDigitYear t -> stampSeconds (formatDate t) = Some (t / 1000).
Proof.
  intros Hy. rewrite (formatDate_fields t Hy). unfold fourDigitYear in Hy.
  pose proof (MonthFromTime_range t) as Hmo.
  pose proof (DateFromTime_range t) as Hd.
  destruct (time_fields_range t) as (Hh & Hmi & Hs).
  destruct (pad4_digits _ Hy) as (y1 & y2 & y3 & y4 & Ey & ? & ? & ? & ? & Vy).
  destruct (pad2_digits (Date.MonthFromTime t + 1) ltac:(lia))
    as (m1 & m2 & Em & ? & ? & Vm).
  destruct (pad2_digits (Date.DateFromTime t) ltac:(lia))
    as (d1 & d2 & Ed & ? & ? & Vd).
  destruct (pad2_digits (Date.HourFromTime t) ltac:(lia))
    as (h1 & h2 & Eh & ? & ? & Vh).
  destruct (pad2_digits (Date.MinFromTime t) ltac:(lia))
    as (i1 & i2 & Ei & ? & ? & Vi).
  destruct (pad2_digits (Date.SecFromTime t) ltac:(lia))
    as (s1 & s2 & Es & ? & ? & Vs).
  rewrite Ey, Em, Ed, Eh, Ei, Es. cbn [append].
  unfold stampSeconds.
  repeat (rewrite twoDigits_digits by assumption; cbv iota beta).
  rewrite Vy, Vm, Vd, Vh, Vi, Vs.
  replace (Date.MonthFromTime t + 1 - 1) with (Date.MonthFromTime t) by lia.
  pose proof (MakeDay_of_parts t 0) as Hday. rewrite !Z.add_0_r in Hday.
  rewrite Hday. f_equal. apply seconds_of_fields.
Qed.

(** *** Lines of the exported text *)

Lemma hasChar_app (c : ascii) (a b : string) :
  hasChar c (a ++ b) = hasChar c a || hasChar c b.
Proof.
  induction a as [| x a IH]; cbn [append hasChar]; [reflexivity |].
  now rewrite IH, orb_assoc.
Qed.

Lemma splitLines_cons (c d : ascii) (rest : string) :
  splitLines (String c (String d rest))
  = if Ascii.eqb c "013" && Ascii.eqb d "010"
    then EmptyString :: splitLines rest
    else prepend c (splitLines (String d rest)).
Proof. reflexivity. Qed.

Lemma splitLines_plain (x : string) : plainText x -> splitLines x = [x].
Proof.
  unfold plainText. induction x as [| c x IH]; intros H; [reflexivity |].
  cbn [hasChar] in H. apply orb_false_iff in H. destruct H as [Hc Hx].
  destruct x as [| d x']; [reflexivity |].
  rewrite splitLines_cons, Hc. cbn [andb]. now rewrite (IH Hx).
Qed.

Lemma splitLines_line (x rest : string) :
  plainText x -> splitLines (x ++ CRLF ++ rest) = x :: splitLines rest.
Proof.
  unfold plainText. induction x as [| c x IH]; intros H.
  - reflexivity.
  - cbn [hasChar] in H. apply orb_false_iff in H. destruct H as [Hc Hx].
    cbn [append]. specialize (IH Hx).
    destruct (x ++ CRLF ++ rest) as [| d tail] eqn:E.
    + destruct x; discriminate E.
    + rewrite splitLines_cons, Hc. cbn [andb]. now rewrite IH.
Qed.

Lemma splitLines_join (lines : list string) :
  lines <> [] -> Forall plainText lines ->
  splitLines (JS.join CRLF lines) = lines.
Proof.
  unfold JS.join. induction lines as [| x lines IH]; intros Hne Hplain.
  - contradiction.
  - inversion Hplain as [| ? ? Hx Hrest]; subst.
    destruct lines as [| y lines].
    + cbn [concat]. now apply splitLines_plain.
    + cbn [concat]. rewrite (splitLines_line _ _ Hx). f_equal.
      apply IH; [discriminate | exact Hrest].
Qed.

Lemma plain_string_of_uint (d : Decimal.uint) :
  plainText (NilEmpty.string_of_uint d).
Proof.
  unfold plainText. induction d; cbn [NilEmpty.string_of_uint hasChar];
    try reflexivity; now rewrite IHd.
Qed.

Lemma plain_toString (z : Z) : plainText (JS.toString z).
Proof.
  unfold JS.toString, NilZero.string_of_int, NilZero.string_of_uint.
  destruct (Z.to_int z) as [d | d]; destruct d;
    try reflexivity; try apply plain_string_of_uint;
    unfold plainText; cbn [hasChar]; apply plain_string_of_uint.
Qed.

Lemma plain_pad (width : nat) (z : Z) : plainText (Date.pad width z).
Proof.
  unfold plainText, Date.pad, JS.padStart. rewrite hasChar_app.
  rewrite (plain_toString z), orb_false_r.
  induction (width - String.length (JS.toString z))%nat as [| n IH];
    [reflexivity | exact IH].
Qed.

Lemma plain_stripChars (cs s : string) :
  plainText s -> plainText (stripChars cs s).
Proof.
  unfold plainText. induction s as [| c s IH]; intros H; [reflexivity |].
  cbn [hasChar] in H. apply orb_false_iff in H. destruct H as [Hc Hs].
  cbn [stripChars]. destruct (charIn cs c); [now apply IH |].
  cbn [hasChar]. now rewrite Hc, IH.
Qed.

Lemma plain_first_piece (sep : ascii) (s : string) :
  plainText s -> plainText (nth 0 (JS.split sep s) EmptyString).
Proof.
  unfold plainText. induction s as [| c s IH]; intros H; [reflexivity |].
  cbn [hasChar] in H. apply orb_false_iff in H. destruct H as [Hc Hs].
  rewrite first_piece_cons. destruct (Ascii.eqb c sep); [reflexivity |].
  cbn [hasChar]. now rewrite Hc, IH.
Qed.

Lemma plain_toISOString (t : Z) : plainText (Date.toISOString t).
Proof.
  unfold plainText, Date.toISOString, Date.isoYear.
  destruct (_ && _); [| destruct (_ <? 0)];
    rewrite ?hasChar_app;
    repeat match goal with
           | |- context [hasChar "013" (Date.pad ?w ?z)] =>
               rewrite (plain_pad w z)
           end; reflexivity.
Qed.

Lemma plain_formatDate (t : Z) : plainText (formatDate t).
Proof.
  unfold formatDate. unfold plainText. rewrite hasChar_app.
  rewrite (plain_first_piece "." _
             (plain_stripChars "-:" _ (plain_toISOString t))).
  reflexivity.
Qed.

Lemma plain_icalLines (now : Z) (lesson : CalendarLesson.t) :
  plainFields lesson -> Forall plainText (icalLines now [lesson]).
Proof.
  intros (Hid & Htitle & Htn & Hte & Hsn & Hse).
  unfold plainText in *. unfold icalLines.
  cbn [flat_map eventLines app].
  repeat constructor; unfold plainText; rewrite ?hasChar_app;
    rewrite ?plain_formatDate, ?Hid, ?Htitle, ?Htn, ?Hte, ?Hsn, ?Hse;
    reflexivity.
Qed.

(** What the export does for a single lesson whose texts hold no carriage
    return: the exported text is the CRLF-joined list of its lines and splits
    back into them; exactly one line is BEGIN:VEVENT and exactly one
    END:VEVENT, and the lines between the two hold DTSTART, the stamp of the
    lesson's start, and DTEND, the stamp of the start plus the duration.
    Read back, the two stamps are exactly the duration apart (for instants in
    the years 0 to 9999, the ones a stamp can show).  The text depends on
    nothing but the lesson and the export instant. *)
Theorem C9_single_lesson_calendar (now : Z) (lesson : CalendarLesson.t) :
  plainFields lesson ->
  let start := CalendarLesson.scheduledAt lesson in
  let finish := start + CalendarLesson.duration lesson * Date.msPerMinute in
  let text := generateICalendar now [lesson] in
  text = JS.join CRLF (icalLines now [lesson])
  /\ splitLines text = icalLines now [lesson]
  /\ countOf "BEGIN:VEVENT" (splitLines text) = 1%nat
  /\ countOf "END:VEVENT" (splitLines text) = 1%nat
  /\ (exists before inside after,
        splitLines text
        = (before ++ ["BEGIN:VEVENT"] ++ inside ++ ["END:VEVENT"] ++ after)%list
        /\ In ("DTSTART:" ++ formatDate start) inside
        /\ In ("DTEND:" ++ formatDate finish) inside)
  /\ (fourDigitYear start -> fourDigitYear finish ->
      exists startSeconds endSeconds,
        stampSeconds (formatDate start) = Some startSeconds
        /\ stampSeconds (formatDate finish) = Some endSeconds
        /\ endSeconds - startSeconds = CalendarLesson.duration lesson * 60)
  /\ (forall now' lesson',
        now' = now -> lesson' = lesson ->
        generateICalendar now' [lesson'] = text).
Proof.
  intros Hplain. cbv zeta.
  assert (Hlines : splitLines (generateICalendar now [lesson])
                   = icalLines now [lesson]).
  { unfold generateICalendar. apply splitLines_join.
    - discriminate.
    - now apply plain_icalLines. }
  rewrite Hlines.
  split; [reflexivity |]. split; [reflexivity |].
  split; [reflexivity |]. split; [reflexivity |]. split; [| split].
  - exists (firstn 4 (icalLines now [lesson])),
      (removelast (tl (eventLines now lesson))), ["END:VCALENDAR"].
    split; [reflexivity |].
    cbn [eventLines tl removelast In].
    split; [do 2 right; left | do 3 right; left]; reflexivity.
  - intros Hstart Hfinish. do 2 eexists.
    split; [apply stampSeconds_formatDate; exact Hstart |].
    split; [apply stampSeconds_formatDate; exact Hfinish |].
    unfold Date.msPerMinute. div_lia.
  - intros now' lesson' -> ->. reflexivity.
Qed.

(** On the lines the text is joined from, the count holds for every lesson,
    whatever its texts. *)
Lemma icalLines_one_event (now : Z) (lesson : CalendarLesson.t) :
  countOf "BEGIN:VEVENT" (icalLines now [lesson]) = 1%nat
  /\ countOf "END:VEVENT" (icalLines now [lesson]) = 1%nat.
Proof. split; reflexivity. Qed.

(** ** The scenarios *)

Lemma C1_start_in_window_witness :
  isTeacherAvailable bookedWorld "teacher-1" (at_ monday 8 30) (at_ monday 9 30)
  = unavailable "Teacher has another lesson at this time".
Proof.
  apply (C1_lesson_starting_in_window_wins bookedWorld "teacher-1"
           (at_ monday 8 30) (at_ monday 9 30)
           (Lesson.make "teacher-1" CONFIRMED (at_ monday 9 0) 60)).
  - simpl. left. reflexivity.
  - reflexivity.
  - reflexivity.
  - split; [apply Z.leb_le | apply Z.ltb_lt]; reflexivity.
Defined.

(** C1 at its failing input: the confirmed lesson from 09:00 to 10:00
    overlaps the candidate interval from 09:30 to 10:30 under the half-open
    test, yet [isTeacherAvailable] reports the interval available and
    [validateBooking] accepts a booking of it: the lesson query looks only at
    lessons that start inside the interval and never at where a lesson ends.
    In the same way a confirmed lesson from 09:00 to 11:00 leaves the
    generated slot from 10:15 to 11:15 marked as available. *)
Theorem C1_overlap_from_earlier_lesson_is_missed :
  let l := Lesson.make "teacher-1" CONFIRMED (at_ monday 9 0) 60 in
  let startTime := at_ monday 9 30 in
  let endTime := at_ monday 10 30 in
  let long := Lesson.make "teacher-1" CONFIRMED (at_ monday 9 0) 120 in
  (startTime < endTime
   /\ In l (lessons (prisma bookedWorld))
   /\ Lesson.teacherId l = "teacher-1"
   /\ activeStatus (Lesson.status l) = true
   /\ timeRangesOverlap (Lesson.scheduledAt l) (Lesson.endsAt l)
        startTime endTime = true
   /\ isTeacherAvailable bookedWorld "teacher-1" startTime endTime
      = {| available := true; reason := None |}
   /\ validateBooking bookedWorld "teacher-1" startTime 60
      = {| valid := true; errors := [] |})
  /\ (lessons (prisma longLessonWorld) = [long]
      /\ timeRangesOverlap (Lesson.scheduledAt long) (Lesson.endsAt long)
           (at_ monday 10 15) (at_ monday 11 15) = true
      /\ generateTimeSlots longLessonWorld "teacher-1" monday monday 60
         = Returns [hourSlot 9 0 false; hourSlot 10 15 true;
                    hourSlot 11 30 true; hourSlot 12 45 true;
                    hourSlot 14 0 true; hourSlot 15 15 true]).
Proof.
  cbv zeta. split.
  - split; [vm_compute; reflexivity |].
    split; [simpl; left; reflexivity |].
    repeat split; vm_compute; reflexivity.
  - repeat split; vm_compute; reflexivity.
Qed.

Lemma unsetWorld_passes :
  passesTableChecks unsetWorld "teacher-1" (at_ monday 9 0) (at_ monday 10 0).
Proof. repeat split. vm_compute. discriminate. Qed.



Lemma C4_accumulates_witness :
  exists checkerReason,
    errors (validateBooking settledWorld "teacher-1" (at_ monday 10 0) 45)
    = (["Cannot book lessons in the past";
        checkerReason;
        "Duration must be one of: 30, 60, 90, 120 minutes"]
       ++ hourErrors settledWorld (at_ monday 10 0))%list.
Proof.
  apply (proj2 (proj2 (C4_validateBooking_accumulates settledWorld "teacher-1"
                         (at_ monday 10 0) 45)) defaultSettings).
  - reflexivity.
  - reflexivity.
  - apply Z.leb_le. reflexivity.
  - apply Z.ltb_lt. reflexivity.
  - reflexivity.
Defined.

(** C4 as stated fails: a booking two hours in the past, of 45 minutes, with
    allowed durations 30, 60, 90 and 120, collects three errors, not two:
    the checker's reason stands between the other two. *)
Lemma C4_past_booking_collects_three_errors :
  at_ monday 10 0 < now settledWorld
  /\ BookingSettings.allowedDurations defaultSettings = [30; 60; 90; 120]
  /\ findSettings (prisma settledWorld) "teacher-1" = Some defaultSettings
  /\ errors (validateBooking settledWorld "teacher-1" (at_ monday 10 0) 45)
     = ["Cannot book lessons in the past";
        "Need at least 24 hours advance notice";
        "Duration must be one of: 30, 60, 90, 120 minutes"].
Proof.
  split; [vm_compute; reflexivity |]. repeat split.
Qed.

Lemma mondayRule_only (w : World) :
  availabilities (prisma w) = [mondayRule] ->
  forall rule, In rule (availabilities (prisma w)) ->
               Availability.userId rule = "teacher-1" ->
               Availability.isAvailable rule = true ->
               wellFormedRule rule.
Proof.
  intros -> rule [<- | []] _ _. split; reflexivity.
Qed.

Lemma C5_available_flag_witness :
  exists slots,
    generateTimeSlots bookedWorld "teacher-1" monday monday 60 = Returns slots.
Proof.
  apply (proj2 (C5_slots_carry_the_available_flag bookedWorld "teacher-1"
                  monday monday 60)).
  - exact (mondayRule_only bookedWorld eq_refl).
  - reflexivity.
Defined.

(** The lesson and the block make the same slots, and the checker gives a
    different reason in each world. *)
Lemma same_slots_different_reasons :
  let slots := [hourSlot 9 0 false; hourSlot 10 15 true; hourSlot 11 30 true;
                hourSlot 12 45 true; hourSlot 14 0 true; hourSlot 15 15 true] in
  generateTimeSlots bookedWorld "teacher-1" monday monday 60 = Returns slots
  /\ generateTimeSlots blockedWorld "teacher-1" monday monday 60 = Returns slots
  /\ reason (isTeacherAvailable bookedWorld "teacher-1"
               (at_ monday 9 0) (at_ monday 10 0))
     = Some "Teacher has another lesson at this time"
  /\ reason (isTeacherAvailable blockedWorld "teacher-1"
               (at_ monday 9 0) (at_ monday 10 0))
     = Some "Dentist".
Proof. cbv zeta. repeat split; vm_compute; reflexivity. Qed.

(** C5 as stated fails: no reading of a slot gives the checker's reason for
    it, since two calls return the same unavailable slot while the checker's
    reasons differ. *)
Lemma C5_reason_is_not_carried :
  ~ exists unavailableReason : Slot.t -> option string,
      forall w teacherId startDate endDate duration slots s,
        generateTimeSlots w teacherId startDate endDate duration = Returns slots ->
        In s slots ->
        Slot.available s = false ->
        unavailableReason s
        = reason (isTeacherAvailable w teacherId
                    (Slot.startTime s) (Slot.endTime s)).
Proof.
  intros [unavailableReason H].
  destruct same_slots_different_reasons as (Hbooked & Hblocked & Hr1 & Hr2).
  pose proof (H _ _ _ _ _ _ (hourSlot 9 0 false) Hbooked
                (or_introl eq_refl) eq_refl) as H1.
  pose proof (H _ _ _ _ _ _ (hourSlot 9 0 false) Hblocked
                (or_introl eq_refl) eq_refl) as H2.
  change (Slot.startTime (hourSlot 9 0 false)) with (at_ monday 9 0) in H1, H2.
  change (Slot.endTime (hourSlot 9 0 false)) with (at_ monday 10 0) in H1, H2.
  rewrite Hr1 in H1. rewrite Hr2 in H2. rewrite H1 in H2. discriminate H2.
Qed.

(** C3 at its failing input: the teacher's settings ask for a buffer of 0
    minutes, and the slots of 60 minutes still start 75 minutes apart (09:00,
    10:15, 11:30, ...): the buffer of 0 is replaced by 15. *)
Theorem C3_zero_buffer_is_spaced_as_fifteen :
  findSettings (prisma zeroBufferWorld) "teacher-1" = Some zeroBufferSettings
  /\ BookingSettings.bufferMinutes zeroBufferSettings = 0
  /\ generateTimeSlots zeroBufferWorld "teacher-1" monday monday 60
     = Returns [hourSlot 9 0 true; hourSlot 10 15 true; hourSlot 11 30 true;
                hourSlot 12 45 true; hourSlot 14 0 true; hourSlot 15 15 true]
  /\ bufferOf (Some zeroBufferSettings) = 15.
Proof. repeat split; vm_compute; reflexivity. Qed.

Lemma C9_single_lesson_witness :
  countOf "BEGIN:VEVENT" (splitLines (generateICalendar 0 [mathLesson])) = 1%nat.
Proof.
  apply (C9_single_lesson_calendar 0 mathLesson).
  repeat split.
Defined.

(** C9 at its failing input: a title is free text, and the export writes
    it into the SUMMARY line as it is.  For the one lesson whose title of 21
    characters holds a line break followed by BEGIN:VEVENT, the exported text
    has two BEGIN:VEVENT lines and one END:VEVENT line, and one line more
    than the sixteen of a calendar of one lesson. *)
Theorem C9_line_break_in_title_adds_an_event_line :
  CalendarLesson.title brokenTitleLesson
  = "Algebra" ++ CRLF ++ "BEGIN:VEVENT"
  /\ String.length (CalendarLesson.title brokenTitleLesson) = 21%nat
  /\ countOf "BEGIN:VEVENT" (splitLines (generateICalendar 0 [brokenTitleLesson]))
     = 2%nat
  /\ countOf "END:VEVENT" (splitLines (generateICalendar 0 [brokenTitleLesson]))
     = 1%nat
  /\ List.length (icalLines 0 [brokenTitleLesson]) = 16%nat
  /\ List.length (splitLines (generateICalendar 0 [brokenTitleLesson]))
     = 17%nat.
Proof. repeat split; vm_compute; reflexivity. Qed.

(** * Further properties of the module and of its callers *)

(** ** Time utilities *)

Lemma roundToInterval_quotient (date ms : Z) :
  0 < ms ->
  let r := (2 * date + ms) / (2 * ms) * ms in
  2 * r <= 2 * date + ms < 2 * r + 2 * ms.
Proof.
  intros Hms. cbv zeta.
  pose proof (Z.mul_div_le (2 * date + ms) (2 * ms) ltac:(lia)).
  pose proof (Z.mul_succ_div_gt (2 * date + ms) (2 * ms) ltac:(lia)).
  nia.
Qed.

(** X1: for a positive interval [roundToInterval] returns a multiple of the
    interval that is nearest to the instant: at most half an interval away,
    and the later one of the two when the instant is exactly half way. *)
Theorem X1_roundToInterval_nearest_multiple (date intervalMinutes : Z) :
  0 < intervalMinutes ->
  let ms := 60000 * intervalMinutes in
  exists rounded,
    roundToInterval date intervalMinutes = Some rounded
    /\ rounded mod ms = 0
    /\ 2 * rounded - ms <= 2 * date < 2 * rounded + ms.
Proof.
  intros Hpos. cbv zeta. unfold roundToInterval.
  replace (1000 * 60 * intervalMinutes) with (60000 * intervalMinutes) by lia.
  destruct (Z.eqb_spec (60000 * intervalMinutes) 0); [lia |].
  eexists. split; [reflexivity |]. split.
  - apply Z.mod_mul. lia.
  - pose proof (roundToInterval_quotient date (60000 * intervalMinutes)
                  ltac:(lia)) as H. cbv zeta in H. lia.
Qed.

Lemma X1_roundToInterval_witness :
  exists rounded,
    roundToInterval (at_ monday 9 7 + 30000) 15 = Some rounded
    /\ rounded mod (60000 * 15) = 0
    /\ 2 * rounded - 60000 * 15 <= 2 * (at_ monday 9 7 + 30000)
       < 2 * rounded + 60000 * 15.
Proof.
  apply (X1_roundToInterval_nearest_multiple (at_ monday 9 7 + 30000) 15).
  reflexivity.
Defined.

Lemma roundToInterval_positive (date intervalMinutes : Z) :
  0 < intervalMinutes ->
  roundToInterval date intervalMinutes
  = Some ((2 * date + 60000 * intervalMinutes)
          / (2 * (60000 * intervalMinutes)) * (60000 * intervalMinutes)).
Proof.
  intros Hpos. unfold roundToInterval.
  replace (1000 * 60 * intervalMinutes) with (60000 * intervalMinutes) by lia.
  destruct (Z.eqb_spec (60000 * intervalMinutes) 0); [lia | reflexivity].
Qed.

(** X2: rounding is idempotent and monotone: a rounded instant rounds to
    itself, and a later instant never rounds to an earlier one. *)
Theorem X2_roundToInterval_idempotent_monotone (intervalMinutes : Z) :
  0 < intervalMinutes ->
  (forall date rounded,
      roundToInterval date intervalMinutes = Some rounded ->
      roundToInterval rounded intervalMinutes = Some rounded)
  /\ (forall d1 d2 r1 r2,
        d1 <= d2 ->
        roundToInterval d1 intervalMinutes = Some r1 ->
        roundToInterval d2 intervalMinutes = Some r2 ->
        r1 <= r2).
Proof.
  intros Hpos.
  assert (Hms : 0 < 60000 * intervalMinutes) by lia.
  set (ms := 60000 * intervalMinutes) in *.
  split.
  - intros date rounded H.
    rewrite (roundToInterval_positive date _ Hpos) in H.
    rewrite (roundToInterval_positive rounded _ Hpos). fold ms in H |- *.
    apply (f_equal (fun o => match o with Some z => z | None => 0 end)) in H.
    subst rounded. f_equal. f_equal.
    set (q := (2 * date + ms) / (2 * ms)).
    symmetry. apply (Z.div_unique_pos _ _ q ms); [lia | ring].
  - intros d1 d2 r1 r2 Hle H1 H2.
    rewrite (roundToInterval_positive d1 _ Hpos) in H1.
    rewrite (roundToInterval_positive d2 _ Hpos) in H2. fold ms in H1, H2.
    apply (f_equal (fun o => match o with Some z => z | None => 0 end)) in H1, H2.
    subst r1 r2.
    apply Z.mul_le_mono_nonneg_r; [lia |].
    apply Z.div_le_mono; lia.
Qed.

Lemma X2_roundToInterval_witness :
  roundToInterval (at_ monday 9 15) 15 = Some (at_ monday 9 15).
Proof.
  apply (proj1 (X2_roundToInterval_idempotent_monotone 15 eq_refl)
           (at_ monday 9 7 + 30000)).
  reflexivity.
Defined.

Lemma minuteRange_In (m : Z) : 0 <= m < 1440 -> In m minuteRange.
Proof.
  intros Hm. unfold minuteRange. rewrite <- (Z2Nat.id m) by lia.
  apply in_map. apply in_seq. lia.
Qed.

Lemma clockRoundTrips_all : forallb clockRoundTrips minuteRange = true.
Proof. vm_compute. reflexivity. Qed.

Lemma clockOrderAgrees_all :
  forallb (fun a => forallb (pairAgrees a) clockTable) clockTable = true.
Proof. vm_compute. reflexivity. Qed.

Lemma clockOf_minutes (m : Z) :
  0 <= m < 1440 ->
  minutesToTime (JS.Int m) = Some (clockOf m)
  /\ validHHMM (clockOf m) = true
  /\ timeToMinutes (clockOf m) = JS.Int m.
Proof.
  intros Hm.
  pose proof (proj1 (forallb_forall _ _) clockRoundTrips_all m
                (minuteRange_In m Hm)) as H.
  unfold clockRoundTrips in H. apply andb_true_iff in H. destruct H as [Hv Ht].
  split; [| split; [exact Hv |]].
  - reflexivity.
  - destruct (timeToMinutes (clockOf m)) as [| k |]; try discriminate.
    apply Z.eqb_eq in Ht. now subst.
Qed.

Lemma validHHMM_clockOf (s : string) (m : Z) :
  validHHMM s = true -> timeToMinutes s = JS.Int m ->
  0 <= m < 1440 /\ s = clockOf m.
Proof.
  intros Hv Ht. destruct (validHHMM_minutes s Hv) as (k & Hk & Hrange & Hs).
  rewrite Ht in Hk. injection Hk as <-. split; [exact Hrange |].
  unfold clockOf. now rewrite Hs.
Qed.

Lemma forallb_pairs {A : Type} (f : A -> A -> bool) (l : list A) :
  forallb (fun a => forallb (f a) l) l = true ->
  forall a b, In a l -> In b l -> f a b = true.
Proof.
  intros H a b Ha Hb.
  pose proof (proj1 (forallb_forall _ _) H a Ha) as H1. cbv beta in H1.
  exact (proj1 (forallb_forall _ _) H1 b Hb).
Qed.

Lemma clockTable_In (m : Z) : 0 <= m < 1440 -> In (m, clockOf m) clockTable.
Proof.
  intros Hm. unfold clockTable.
  apply (in_map (fun k => (k, clockOf k))). now apply minuteRange_In.
Qed.

Lemma clockOf_order (a b : Z) :
  0 <= a < 1440 -> 0 <= b < 1440 ->
  String.leb (clockOf a) (clockOf b) = (a <=? b).
Proof.
  intros Ha Hb.
  pose proof (forallb_pairs pairAgrees clockTable clockOrderAgrees_all
                (a, clockOf a) (b, clockOf b)
                (clockTable_In a Ha) (clockTable_In b Hb)) as H.
  unfold pairAgrees in H. cbn [fst snd] in H. now apply Bool.eqb_prop in H.
Qed.

(** X3: [minutesToTime] and [timeToMinutes] are inverse the other way round
    too: every minute of the day from 0 to 1439 prints as an accepted "HH:MM"
    text, and that text reads as the same minute. *)
Theorem X3_timeToMinutes_minutesToTime_roundtrip (m : Z) :
  0 <= m < 1440 ->
  exists s,
    minutesToTime (JS.Int m) = Some s
    /\ validHHMM s = true
    /\ timeToMinutes s = JS.Int m.
Proof.
  intros Hm. exists (clockOf m). now apply clockOf_minutes.
Qed.

Lemma X3_roundtrip_witness :
  exists s,
    minutesToTime (JS.Int 870) = Some s
    /\ validHHMM s = true
    /\ timeToMinutes s = JS.Int 870.
Proof.
  apply (X3_timeToMinutes_minutesToTime_roundtrip 870). lia.
Defined.

(** X4: on accepted "HH:MM" texts the order of the strings, which the
    queries on the availability table compare, is the order of the minutes
    [timeToMinutes] gives. *)
Theorem X4_clock_text_order_is_minute_order (a b : string) (ma mb : Z) :
  validHHMM a = true -> validHHMM b = true ->
  timeToMinutes a = JS.Int ma -> timeToMinutes b = JS.Int mb ->
  (String.leb a b = true <-> ma <= mb).
Proof.
  intros Hva Hvb Hta Htb.
  destruct (validHHMM_clockOf a ma Hva Hta) as [Ha ->].
  destruct (validHHMM_clockOf b mb Hvb Htb) as [Hb ->].
  rewrite (clockOf_order ma mb Ha Hb). apply Z.leb_le.
Qed.

Lemma X4_clock_order_witness :
  String.leb "09:05" "17:00" = true <-> 545 <= 1020.
Proof.
  apply (X4_clock_text_order_is_minute_order "09:05" "17:00" 545 1020);
    reflexivity.
Defined.

(** X5: for two intervals that are not empty, [timeRangesOverlap] is true
    exactly when some instant lies in both of them (start included, end
    excluded). *)
Theorem X5_timeRangesOverlap_shared_instant (start1 end1 start2 end2 : Z) :
  start1 < end1 -> start2 < end2 ->
  (timeRangesOverlap start1 end1 start2 end2 = true
   <-> exists t, start1 <= t < end1 /\ start2 <= t < end2).
Proof.
  intros H1 H2. unfold timeRangesOverlap. rewrite andb_true_iff, !Z.ltb_lt.
  split.
  - intros [Ha Hb]. exists (Z.max start1 start2). lia.
  - intros [t Ht]. lia.
Qed.

Lemma X5_shared_instant_witness :
  timeRangesOverlap 0 60 30 90 = true
  <-> exists t, 0 <= t < 60 /\ 30 <= t < 90.
Proof.
  apply (X5_timeRangesOverlap_shared_instant 0 60 30 90); lia.
Defined.

Lemma getDay_range (tz d : Z) : 0 <= Date.getDay tz d <= 6.
Proof.
  unfold Date.getDay, Date.WeekDay.
  pose proof (Z.mod_pos_bound (Date.Day (Date.LocalTime tz d) + 4) 7). lia.
Qed.

(** X6: [getDayName] answers with a name exactly for the indices 0 to 6, so
    it always has a name for the day of the week of a date; for any other
    index the result is undefined. *)
Theorem X6_getDayName_defined_on_weekdays :
  (forall dayIndex,
      getDayName dayIndex = None <-> dayIndex < 0 \/ 6 < dayIndex)
  /\ (forall tz d, exists name, getDayName (Date.getDay tz d) = Some name).
Proof.
  assert (Hnone : forall dayIndex,
             getDayName dayIndex = None <-> dayIndex < 0 \/ 6 < dayIndex).
  { intros i. unfold getDayName.
    destruct (Z.ltb_spec i 0) as [Hneg | Hnonneg].
    - split; [intros _; now left | reflexivity].
    - rewrite nth_error_None. cbn [List.length days]. lia. }
  split; [exact Hnone |].
  intros tz d. pose proof (getDay_range tz d) as Hr.
  destruct (getDayName (Date.getDay tz d)) as [name |] eqn:E.
  - now exists name.
  - apply Hnone in E. lia.
Qed.

(** ** The conflict checker *)

Lemma find_None_iff {A : Type} (f : A -> bool) (xs : list A) :
  find f xs = None <-> forall x, In x xs -> f x = false.
Proof.
  split.
  - intros H x Hin. exact (find_none f xs H x Hin).
  - induction xs as [| y xs IH]; intros H; [reflexivity |].
    cbn [find]. rewrite (H y (or_introl eq_refl)).
    apply IH. intros x Hin. apply H. now right.
Qed.

Lemma find_Some_iff {A : Type} (f : A -> bool) (xs : list A) :
  find f xs <> None <-> exists x, In x xs /\ f x = true.
Proof.
  split.
  - destruct (find f xs) as [y |] eqn:E; [| congruence].
    intros _. exists y. exact (find_some f xs E).
  - intros [x [Hin Hf]] Hnone.
    rewrite (find_none f xs Hnone x Hin) in Hf. discriminate.
Qed.

Lemma conflictingLessonWhere_spec teacherId startTime endTime l :
  conflictingLessonWhere teacherId startTime endTime l = true
  <-> lessonStartsIn teacherId startTime endTime l.
Proof.
  unfold conflictingLessonWhere, lessonStartsIn.
  rewrite !andb_true_iff, String.eqb_eq, Z.leb_le, Z.ltb_lt. tauto.
Qed.

Lemma blockedTimeWhere_spec teacherId startTime endTime b :
  blockedTimeWhere teacherId startTime endTime b = true
  <-> blockCovers teacherId startTime endTime b.
Proof.
  unfold blockedTimeWhere, blockCovers.
  rewrite !andb_true_iff, String.eqb_eq, !Z.leb_le. tauto.
Qed.

Lemma availabilityWhere_spec w teacherId startTime endTime a :
  availabilityWhere teacherId (Date.getDay (tz w) startTime)
    (clockString (tz w) startTime) (clockString (tz w) endTime) a = true
  <-> ruleCovers w teacherId startTime endTime a.
Proof.
  unfold availabilityWhere, ruleCovers.
  rewrite !andb_true_iff, String.eqb_eq, Z.eqb_eq. tauto.
Qed.

Lemma not_true_false (b : bool) : b = false <-> ~ b = true.
Proof. destruct b; split; congruence. Qed.

(** X7: [isTeacherAvailable] answers available exactly when all four hold:
    no PENDING or CONFIRMED lesson of the teacher starts inside the interval,
    no blocked time of the teacher covers the whole interval, some active
    weekly rule of the teacher for the start's day of the week covers the
    clock times of start and end, and, if the teacher has a settings record,
    the start lies within its notice and horizon. *)
Theorem X7_available_exactly_when (w : World) (teacherId : string)
    (startTime endTime : Z) :
  available (isTeacherAvailable w teacherId startTime endTime) = true
  <-> (forall l, In l (lessons (prisma w)) ->
                 ~ lessonStartsIn teacherId startTime endTime l)
      /\ (forall b, In b (blockedTimes (prisma w)) ->
                    ~ blockCovers teacherId startTime endTime b)
      /\ (exists a, In a (availabilities (prisma w))
                    /\ ruleCovers w teacherId startTime endTime a)
      /\ (forall settings,
             findSettings (prisma w) teacherId = Some settings ->
             withinPolicy w startTime settings).
Proof.
  unfold isTeacherAvailable.
  destruct (find (conflictingLessonWhere _ _ _) _) as [l |] eqn:El.
  { cbn [available]. split; [discriminate |]. intros (H & _).
    apply find_some in El. destruct El as [Hin Hl].
    apply conflictingLessonWhere_spec in Hl. exfalso. exact (H l Hin Hl). }
  assert (Hl : forall l, In l (lessons (prisma w)) ->
                         ~ lessonStartsIn teacherId startTime endTime l).
  { intros l Hin Hs. apply conflictingLessonWhere_spec in Hs.
    rewrite (find_none _ _ El l Hin) in Hs. discriminate. }
  destruct (find (blockedTimeWhere _ _ _) _) as [b |] eqn:Eb.
  { cbn [available]. split; [discriminate |]. intros (_ & H & _).
    apply find_some in Eb. destruct Eb as [Hin Hb].
    apply blockedTimeWhere_spec in Hb. exfalso. exact (H b Hin Hb). }
  assert (Hb : forall b, In b (blockedTimes (prisma w)) ->
                         ~ blockCovers teacherId startTime endTime b).
  { intros b Hin Hc. apply blockedTimeWhere_spec in Hc.
    rewrite (find_none _ _ Eb b Hin) in Hc. discriminate. }
  destruct (find (availabilityWhere _ _ _ _) _) as [a |] eqn:Ea.
  2:{ cbn [available]. split; [discriminate |].
      intros (_ & _ & [a [Hin Ha]] & _).
      apply availabilityWhere_spec in Ha.
      rewrite (find_none _ _ Ea a Hin) in Ha. discriminate. }
  assert (Ha : exists a, In a (availabilities (prisma w))
                         /\ ruleCovers w teacherId startTime endTime a).
  { apply find_some in Ea. destruct Ea as [Hin Hw].
    exists a. split; [exact Hin |]. now apply availabilityWhere_spec. }
  destruct (findSettings (prisma w) teacherId) as [settings |].
  2:{ cbn [available]. split; [| reflexivity].
      intros _. split; [exact Hl |]. split; [exact Hb |].
      split; [exact Ha | intros settings; discriminate]. }
  unfold withinPolicy.
  destruct (Z.ltb_spec (startTime - now w)
              (BookingSettings.minAdvanceHours settings * Date.msPerHour))
    as [Hearly | Hnotice].
  { cbn [available]. split; [discriminate |]. intros (_ & _ & _ & H).
    specialize (H settings eq_refl). lia. }
  destruct (Z.gtb_spec (startTime - now w)
              (BookingSettings.maxAdvanceDays settings * Date.msPerDay))
    as [Hfar | Hhorizon].
  { cbn [available]. split; [discriminate |]. intros (_ & _ & _ & H).
    specialize (H settings eq_refl). lia. }
  cbn [available]. split; [| reflexivity].
  intros _. split; [exact Hl |]. split; [exact Hb |]. split; [exact Ha |].
  intros settings' [= <-]. lia.
Qed.

Lemma orElse_nonempty (a : option string) (b : string) :
  b <> EmptyString -> orElse a b <> EmptyString.
Proof. intros Hb. destruct a as [[| c s] |]; cbn [orElse]; congruence. Qed.

(** X8: the verdict of [isTeacherAvailable] has a reason exactly when it is
    unavailable, and the reason is never the empty text; so the error
    [validateBooking] records for the checker is that reason, and its
    fallback text "Teacher not available" is never used. *)
Theorem X8_reason_exactly_when_unavailable (w : World) (teacherId : string)
    (startTime endTime : Z) :
  let v := isTeacherAvailable w teacherId startTime endTime in
  (available v = true <-> reason v = None)
  /\ (forall message,
        reason v = Some message ->
        message <> EmptyString
        /\ availabilityErrors w teacherId startTime endTime = [message]).
Proof.
  cbv zeta. unfold availabilityErrors.
  assert (Hshape :
    (available (isTeacherAvailable w teacherId startTime endTime) = true
     /\ reason (isTeacherAvailable w teacherId startTime endTime) = None)
    \/ exists message,
         message <> EmptyString
         /\ isTeacherAvailable w teacherId startTime endTime
            = unavailable message).
  { unfold isTeacherAvailable, unavailable.
    destruct (find (conflictingLessonWhere _ _ _) _);
      [right; eexists; split; [| reflexivity]; discriminate |].
    destruct (find (blockedTimeWhere _ _ _) _);
      [right; eexists; split; [| reflexivity];
       apply orElse_nonempty; discriminate |].
    destruct (find (availabilityWhere _ _ _ _) _);
      [| right; eexists; split; [| reflexivity]; discriminate].
    destruct (findSettings _ _); [| left; split; reflexivity].
    destruct (_ <? _);
      [right; eexists; split; [| reflexivity]; discriminate |].
    destruct (_ >? _);
      [right; eexists; split; [| reflexivity]; discriminate |].
    left; split; reflexivity. }
  destruct Hshape as [[Hav Hre] | (m & Hm & Hv)].
  - rewrite Hav, Hre. split; [tauto | discriminate].
  - rewrite Hv. cbn [available reason unavailable]. split.
    + split; discriminate.
    + intros message [= <-]. split; [exact Hm |].
      destruct m; [congruence | reflexivity].
Qed.

(** X9: when no lesson of the teacher starts inside the interval and a
    blocked time of the teacher covers it, the interval is unavailable, and
    the reason is the one stored with a covering blocked time, or "Teacher
    is unavailable at this time" when that one has none or an empty one. *)
Theorem X9_covering_block_refuses (w : World) (teacherId : string)
    (startTime endTime : Z) (b : BlockedTime.t) :
  (forall l, In l (lessons (prisma w)) ->
             ~ lessonStartsIn teacherId startTime endTime l) ->
  In b (blockedTimes (prisma w)) ->
  blockCovers teacherId startTime endTime b ->
  exists b',
    In b' (blockedTimes (prisma w))
    /\ blockCovers teacherId startTime endTime b'
    /\ isTeacherAvailable w teacherId startTime endTime
       = unavailable (orElse (BlockedTime.reason b')
                        "Teacher is unavailable at this time").
Proof.
  intros Hl Hin Hb. unfold isTeacherAvailable.
  assert (El : find (conflictingLessonWhere teacherId startTime endTime)
                 (lessons (prisma w)) = None).
  { apply find_None_iff. intros l Hlin. apply not_true_false.
    intros H. apply conflictingLessonWhere_spec in H. exact (Hl l Hlin H). }
  rewrite El.
  destruct (find (blockedTimeWhere _ _ _) _) as [b' |] eqn:Eb.
  - apply find_some in Eb. destruct Eb as [Hin' Hb'].
    exists b'. split; [exact Hin' |].
    split; [now apply blockedTimeWhere_spec | reflexivity].
  - apply blockedTimeWhere_spec in Hb.
    rewrite (find_none _ _ Eb b Hin) in Hb. discriminate.
Qed.

Lemma X9_covering_block_witness :
  exists b',
    In b' (blockedTimes (prisma blockedWorld))
    /\ blockCovers "teacher-1" (at_ monday 9 15) (at_ monday 9 45) b'
    /\ isTeacherAvailable blockedWorld "teacher-1"
         (at_ monday 9 15) (at_ monday 9 45)
       = unavailable (orElse (BlockedTime.reason b')
                        "Teacher is unavailable at this time").
Proof.
  apply (X9_covering_block_refuses blockedWorld "teacher-1"
           (at_ monday 9 15) (at_ monday 9 45)
           (BlockedTime.make "teacher-1" (at_ monday 9 0) (at_ monday 10 0)
              (Some "Dentist"))).
  - intros l [].
  - left. reflexivity.
  - unfold blockCovers. cbn. repeat split; vm_compute; discriminate.
Defined.

(** *** The weekly rule, in minutes *)

Lemma minuteInDay_range (tz d : Z) : 0 <= minuteInDay tz d < 1440.
Proof. unfold minuteInDay. unfold_time. div_lia. Qed.

Lemma clockString_clockOf (tz d : Z) :
  clockString tz d = clockOf (minuteInDay tz d).
Proof.
  pose proof (minuteInDay_range tz d) as Hr.
  unfold clockString, clockOf, minutesToTime.
  rewrite Z.rem_mod_nonneg by lia.
  replace (minuteInDay tz d / 60) with (Date.getHours tz d)
    by (unfold minuteInDay; unfold_time; div_lia).
  replace (minuteInDay tz d mod 60) with (Date.getMinutes tz d)
    by (unfold minuteInDay; unfold_time; div_lia).
  reflexivity.
Qed.

Lemma availabilityWhere_minutes (w : World) (teacherId : string)
    (startTime endTime : Z) (a : Availability.t) (ruleStart ruleEnd : Z) :
  wellFormedRule a ->
  timeToMinutes (Availability.startTime a) = JS.Int ruleStart ->
  timeToMinutes (Availability.endTime a) = JS.Int ruleEnd ->
  (availabilityWhere teacherId (Date.getDay (tz w) startTime)
     (clockString (tz w) startTime) (clockString (tz w) endTime) a = true
   <-> Availability.userId a = teacherId
       /\ Availability.dayOfWeek a = Date.getDay (tz w) startTime
       /\ Availability.isAvailable a = true
       /\ ruleStart <= minuteInDay (tz w) startTime
       /\ minuteInDay (tz w) endTime <= ruleEnd).
Proof.
  intros [Hvs Hve] Hs He.
  destruct (validHHMM_clockOf _ _ Hvs Hs) as [Hrs Es].
  destruct (validHHMM_clockOf _ _ Hve He) as [Hre Ee].
  pose proof (minuteInDay_range (tz w) startTime) as Hms.
  pose proof (minuteInDay_range (tz w) endTime) as Hme.
  rewrite availabilityWhere_spec. unfold ruleCovers.
  rewrite !clockString_clockOf, Es, Ee.
  rewrite (clockOf_order _ _ Hrs Hms), (clockOf_order _ _ Hme Hre).
  rewrite !Z.leb_le. tauto.
Qed.

(** X10: for a weekly rule whose times are accepted "HH:MM" texts, the rule
    query of [isTeacherAvailable] matches exactly when the rule belongs to the
    teacher, is active, is for the start's day of the week, begins no later
    than the minute of the day of the start and ends no earlier than the
    minute of the day of the end. *)
Theorem X10_weekly_rule_matches_on_minutes (w : World) (teacherId : string)
    (startTime endTime : Z) (a : Availability.t) (ruleStart ruleEnd : Z) :
  wellFormedRule a ->
  timeToMinutes (Availability.startTime a) = JS.Int ruleStart ->
  timeToMinutes (Availability.endTime a) = JS.Int ruleEnd ->
  (availabilityWhere teacherId (Date.getDay (tz w) startTime)
     (clockString (tz w) startTime) (clockString (tz w) endTime) a = true
   <-> Availability.userId a = teacherId
       /\ Availability.dayOfWeek a = Date.getDay (tz w) startTime
       /\ Availability.isAvailable a = true
       /\ ruleStart <= minuteInDay (tz w) startTime
       /\ minuteInDay (tz w) endTime <= ruleEnd).
Proof.
  exact (availabilityWhere_minutes w teacherId startTime endTime a
           ruleStart ruleEnd).
Qed.

Lemma X10_weekly_rule_witness :
  availabilityWhere "teacher-1" (Date.getDay (tz unsetWorld) (at_ monday 9 30))
    (clockString (tz unsetWorld) (at_ monday 9 30))
    (clockString (tz unsetWorld) (at_ monday 10 30)) mondayRule = true
  <-> Availability.userId mondayRule = "teacher-1"
      /\ Availability.dayOfWeek mondayRule
         = Date.getDay (tz unsetWorld) (at_ monday 9 30)
      /\ Availability.isAvailable mondayRule = true
      /\ 540 <= minuteInDay (tz unsetWorld) (at_ monday 9 30)
      /\ minuteInDay (tz unsetWorld) (at_ monday 10 30) <= 1020.
Proof.
  apply (X10_weekly_rule_matches_on_minutes unsetWorld "teacher-1"
           (at_ monday 9 30) (at_ monday 10 30) mondayRule 540 1020).
  - split; reflexivity.
  - reflexivity.
  - reflexivity.
Defined.

Lemma clockString_days_later (tz d k : Z) :
  clockString tz (d + k * Date.msPerDay) = clockString tz d.
Proof.
  unfold clockString.
  replace (Date.getHours tz (d + k * Date.msPerDay)) with (Date.getHours tz d)
    by (unfold_time; div_lia).
  replace (Date.getMinutes tz (d + k * Date.msPerDay))
    with (Date.getMinutes tz d) by (unfold_time; div_lia).
  reflexivity.
Qed.

Lemma getDay_weeks_later (tz d k : Z) :
  Date.getDay tz (d + 7 * k * Date.msPerDay) = Date.getDay tz d.
Proof. unfold Date.getDay, Date.WeekDay. unfold_time. div_lia. Qed.

(** X11: the rule query looks at the day of the week of the start and at the
    two clock times only, not at the dates: moving the start by whole weeks
    and the end by whole days, in either direction, does not change which
    rules match. *)
Theorem X11_weekly_rule_ignores_dates (w : World) (teacherId : string)
    (startTime endTime weeks days : Z) (a : Availability.t) :
  let startTime' := startTime + 7 * weeks * Date.msPerDay in
  let endTime' := endTime + days * Date.msPerDay in
  availabilityWhere teacherId (Date.getDay (tz w) startTime')
    (clockString (tz w) startTime') (clockString (tz w) endTime') a
  = availabilityWhere teacherId (Date.getDay (tz w) startTime)
      (clockString (tz w) startTime) (clockString (tz w) endTime) a.
Proof.
  cbv zeta. rewrite getDay_weeks_later.
  replace (7 * weeks * Date.msPerDay) with ((7 * weeks) * Date.msPerDay) by lia.
  now rewrite !clockString_days_later.
Qed.

(** ** The slot generator *)

Section GeneratedSlots.
Variables (w : World) (teacherId : string).
Variables (duration slotInterval endDate : Z).
Hypothesis interval_positive : 0 < slotInterval.

Lemma slotLoop_In (currentDate endMinutes : Z) (fuel : nat) :
  forall m s,
    0 <= m ->
    In s (slotLoop w teacherId duration slotInterval currentDate endMinutes
            fuel m) ->
    exists k,
      m <= k /\ k + duration <= endMinutes
      /\ now w <= minuteOfDay (tz w) currentDate k
      /\ s = slotOf w teacherId duration currentDate k.
Proof.
  induction fuel as [| fuel IH]; intros m s Hm Hin; cbn [slotLoop] in Hin.
  - contradiction.
  - destruct (Z.leb_spec (m + duration) endMinutes) as [Hle | Hgt];
      [| contradiction].
    apply in_app_or in Hin. destruct Hin as [Hin | Hin].
    + rewrite slotAt_nonneg in Hin by exact Hm.
      destruct (Z.ltb_spec (minuteOfDay (tz w) currentDate m) (now w));
        [contradiction |].
      destruct Hin as [<- | []]. exists m. repeat split; auto; lia.
    + destruct (IH (m + slotInterval) s ltac:(lia) Hin) as (k & Hk & Hrest).
      exists k. split; [lia | exact Hrest].
Qed.

Variable rules : list Availability.t.
Hypothesis rules_well_formed : Forall wellFormedRule rules.

Lemma slotsOn_In (currentDate : Z) (slots : list Slot.t) (s : Slot.t) :
  slotsOn w teacherId rules duration slotInterval currentDate = Returns slots ->
  In s slots ->
  exists rule ruleStart ruleEnd minute,
    In rule rules
    /\ Availability.dayOfWeek rule = Date.getDay (tz w) currentDate
    /\ timeToMinutes (Availability.startTime rule) = JS.Int ruleStart
    /\ timeToMinutes (Availability.endTime rule) = JS.Int ruleEnd
    /\ 0 <= ruleStart /\ ruleEnd < 1440
    /\ ruleStart <= minute /\ minute + duration <= ruleEnd
    /\ now w <= minuteOfDay (tz w) currentDate minute
    /\ s = slotOf w teacherId duration currentDate minute.
Proof.
  unfold slotsOn. intros Hslots Hin.
  destruct (find _ rules) as [rule |] eqn:E.
  2:{ injection Hslots as <-. contradiction. }
  apply find_some in E. destruct E as [Hrule Hday]. apply Z.eqb_eq in Hday.
  pose proof (proj1 (Forall_forall _ _) rules_well_formed rule Hrule) as Hwf.
  destruct (daySlots_returns w teacherId duration slotInterval currentDate
              rule Hwf interval_positive)
    as (a & b & fuel & Ha & Hra & Hb & Hday').
  rewrite Hday' in Hslots. injection Hslots as <-.
  destruct Hwf as [_ Hwe].
  destruct (validHHMM_clockOf _ _ Hwe Hb) as [Hrb _].
  destruct (slotLoop_In currentDate b fuel a s ltac:(lia) Hin)
    as (k & Hk1 & Hk2 & Hk3 & Hk4).
  exists rule, a, b, k. repeat split; auto; lia.
Qed.

Lemma dayLoop_In (fuel : nat) : forall firstDay slots s,
  dayLoop w teacherId rules duration slotInterval endDate fuel firstDay
  = Returns slots ->
  In s slots ->
  slotFromRule w teacherId rules duration firstDay endDate s.
Proof.
  induction fuel as [| fuel IH]; intros firstDay slots s; cbn [dayLoop].
  - intros [= <-] [].
  - destruct (Z.leb_spec firstDay endDate) as [Hle | Hgt];
      [| intros [= <-] []].
    unfold andThen.
    destruct (slotsOn _ _ _ _ _ firstDay) as [today | |] eqn:Etoday;
      try discriminate.
    destruct (dayLoop _ _ _ _ _ _ fuel _) as [rest | |] eqn:Erest;
      try discriminate.
    intros [= <-] Hin. apply in_app_or in Hin. destruct Hin as [Hin | Hin].
    + destruct (slotsOn_In firstDay today s Etoday Hin)
        as (rule & a & b & k & H1 & H2 & H3 & H4 & H5 & H6 & H7 & H8 & H9 & H10).
      exists rule, firstDay, a, b, k. repeat split; auto.
      exists O. lia.
    + rewrite setDate_next_day in Erest.
      destruct (IH _ _ _ Erest Hin)
        as (rule & day & a & b & k & H1 & H2 & [n Hn] & Hrest).
      exists rule, day, a, b, k. split; [exact H1 |]. split; [exact H2 |].
      split; [| exact Hrest]. exists (S n). lia.
Qed.
End GeneratedSlots.

Lemma activeRules_In (w : World) (teacherId : string) (rule : Availability.t) :
  In rule (activeRules w teacherId)
  <-> In rule (availabilities (prisma w))
      /\ Availability.userId rule = teacherId
      /\ Availability.isAvailable rule = true.
Proof.
  unfold activeRules. rewrite filter_In, andb_true_iff, String.eqb_eq. tauto.
Qed.

Lemma dayStart_days_later (tz d : Z) (n : Z) :
  dayStart tz (dayStart tz d + n * Date.msPerDay)
  = dayStart tz d + n * Date.msPerDay.
Proof. unfold dayStart. unfold_time. div_lia. Qed.

(** A call that returns, seen from its slots: each comes from an active
    rule of the teacher. *)
Lemma generateTimeSlots_In (w : World) (teacherId : string)
    (startDate endDate duration : Z) (slots : list Slot.t) (s : Slot.t) :
  Forall wellFormedRule (activeRules w teacherId) ->
  0 < duration + bufferOf (findSettings (prisma w) teacherId) ->
  generateTimeSlots w teacherId startDate endDate duration = Returns slots ->
  In s slots ->
  slotFromRule w teacherId (activeRules w teacherId) duration
    (dayStart (tz w) startDate) endDate s.
Proof.
  intros Hwf Hpos. unfold generateTimeSlots. fold (activeRules w teacherId).
  destruct (activeRules w teacherId) as [| rule rules] eqn:E.
  - intros [= <-] [].
  - rewrite setHours_midnight. rewrite <- E in *.
    intros Hslots Hin.
    exact (dayLoop_In w teacherId duration _ endDate Hpos
             (activeRules w teacherId) Hwf _ _ _ _ Hslots Hin).
Qed.

Lemma chain_app {A : Type} (R : A -> A -> Prop) (l1 l2 : list A) :
  chain R l1 -> chain R l2 ->
  (forall a b, In a l1 -> In b l2 -> R a b) ->
  chain R (l1 ++ l2).
Proof.
  induction l1 as [| a l1 IH]; intros H1 H2 Hcross; [exact H2 |].
  destruct l1 as [| b l1].
  - cbn [app]. destruct l2 as [| c l2]; [exact I |].
    split; [| exact H2]. apply Hcross; now left.
  - destruct H1 as [Hab H1]. cbn [app chain]. split; [exact Hab |].
    apply IH; [exact H1 | exact H2 |].
    intros x y Hx Hy. apply Hcross; [now right | exact Hy].
Qed.

Lemma StronglySorted_app (l1 l2 : list Z) :
  StronglySorted Z.lt l1 -> StronglySorted Z.lt l2 ->
  (forall a b, In a l1 -> In b l2 -> a < b) ->
  StronglySorted Z.lt (l1 ++ l2).
Proof.
  induction l1 as [| a l1 IH]; intros H1 H2 Hcross; [exact H2 |].
  apply StronglySorted_inv in H1. destruct H1 as [H1 Ha].
  cbn [app]. constructor.
  - apply IH; auto. intros x y Hx Hy. apply Hcross; [now right | exact Hy].
  - apply Forall_app. split; [exact Ha |].
    apply Forall_forall. intros y Hy. apply Hcross; [now left | exact Hy].
Qed.

Lemma evenlySpaced_above (gap : Z) (xs : list Z) : forall a,
  0 < gap -> evenlySpaced gap (a :: xs) -> Forall (fun b => a < b) xs.
Proof.
  induction xs as [| b xs IH]; intros a Hgap H; [constructor |].
  destruct H as [Hab H]. constructor; [lia |].
  apply (Forall_impl _ (P := fun c => b < c)); [intros c; lia |].
  now apply IH.
Qed.

Lemma evenlySpaced_sorted (gap : Z) (xs : list Z) :
  0 < gap -> evenlySpaced gap xs -> StronglySorted Z.lt xs.
Proof.
  intros Hgap. induction xs as [| a xs IH]; intros H; [constructor |].
  constructor.
  - apply IH. destruct xs as [| b xs]; [exact I | exact (proj2 H)].
  - now apply (evenlySpaced_above gap).
Qed.

Lemma evenlySpaced_chain (tz gap : Z) (slots : list Slot.t) :
  evenlySpaced gap (map Slot.startTime slots) ->
  chain (gapOrNextDay tz gap) slots.
Proof.
  induction slots as [| a slots IH]; intros H; [exact I |].
  destruct slots as [| b slots]; [exact I |].
  cbn [map evenlySpaced] in H. destruct H as [Hab H].
  split; [now left | now apply IH].
Qed.

Section OrderedSlots.
Variables (w : World) (teacherId : string) (rules : list Availability.t).
Variables (duration slotInterval endDate : Z).
Hypothesis interval_positive : 0 < slotInterval.
Hypothesis duration_nonnegative : 0 <= duration.
Hypothesis rules_well_formed : Forall wellFormedRule rules.

Lemma slotsOn_within_day (day : Z) (today : list Slot.t) :
  dayStart (tz w) day = day ->
  slotsOn w teacherId rules duration slotInterval day = Returns today ->
  evenlySpaced (slotInterval * Date.msPerMinute) (map Slot.startTime today)
  /\ Forall (fun s => day <= Slot.startTime s < day + Date.msPerDay) today.
Proof.
  intros Hmid Htoday. split.
  - unfold slotsOn in Htoday.
    destruct (find _ rules) as [rule |] eqn:E.
    2:{ injection Htoday as <-. exact I. }
    apply find_some in E. destruct E as [Hrule _].
    pose proof (proj1 (Forall_forall _ _) rules_well_formed rule Hrule) as Hwf.
    destruct (daySlots_shape w teacherId duration slotInterval day rule Hwf
                interval_positive) as (slots & Hs & _ & Hspaced).
    rewrite Hs in Htoday. now injection Htoday as <-.
  - apply Forall_forall. intros s Hin.
    destruct (slotsOn_In w teacherId duration slotInterval interval_positive
                rules rules_well_formed day today s Htoday Hin)
      as (rule & a & b & k & _ & _ & _ & _ & Ha & Hb & Hk1 & Hk2 & _ & ->).
    cbn [slotOf Slot.startTime]. unfold minuteOfDay. rewrite Hmid.
    unfold Date.msPerMinute, Date.msPerDay. lia.
Qed.

Lemma localDay_within_day (day t : Z) :
  dayStart (tz w) day = day -> day <= t < day + Date.msPerDay ->
  localDay (tz w) t = localDay (tz w) day.
Proof.
  unfold dayStart, localDay. intros Hmid Ht. unfold_time. div_lia.
Qed.

Lemma localDay_later (day t : Z) :
  dayStart (tz w) day = day -> day + Date.msPerDay <= t ->
  localDay (tz w) day < localDay (tz w) t.
Proof.
  unfold dayStart, localDay. intros Hmid Ht. unfold_time. div_lia.
Qed.

Lemma dayLoop_ordered (fuel : nat) : forall day slots,
  dayStart (tz w) day = day ->
  dayLoop w teacherId rules duration slotInterval endDate fuel day
  = Returns slots ->
  StronglySorted Z.lt (map Slot.startTime slots)
  /\ chain (gapOrNextDay (tz w) (slotInterval * Date.msPerMinute)) slots
  /\ Forall (fun s => day <= Slot.startTime s) slots.
Proof.
  induction fuel as [| fuel IH]; intros day slots Hmid; cbn [dayLoop].
  - intros [= <-]. repeat split; constructor.
  - destruct (day <=? endDate); [| intros [= <-]; repeat split; constructor].
    unfold andThen.
    destruct (slotsOn _ _ _ _ _ day) as [today | |] eqn:Etoday;
      try discriminate.
    destruct (dayLoop _ _ _ _ _ _ fuel _) as [rest | |] eqn:Erest;
      try discriminate.
    intros [= <-]. rewrite setDate_next_day in Erest.
    assert (Hnext : dayStart (tz w) (day + Date.msPerDay)
                    = day + Date.msPerDay).
    { rewrite <- Hmid at 1. rewrite dayStart_next. now rewrite Hmid. }
    destruct (IH _ _ Hnext Erest) as (Hsorted & Hchain & Hlow).
    destruct (slotsOn_within_day day today Hmid Etoday) as [Hspaced Hin].
    assert (Hgap : 0 < slotInterval * Date.msPerMinute)
      by (unfold Date.msPerMinute; lia).
    rewrite Forall_forall in Hin, Hlow.
    split; [| split].
    + rewrite map_app. apply StronglySorted_app.
      * now apply (evenlySpaced_sorted _ _ Hgap).
      * exact Hsorted.
      * intros a b Ha Hb. apply in_map_iff in Ha, Hb.
        destruct Ha as (sa & <- & Ha). destruct Hb as (sb & <- & Hb).
        specialize (Hin sa Ha). specialize (Hlow sb Hb). lia.
    + apply chain_app.
      * now apply evenlySpaced_chain.
      * exact Hchain.
      * intros a b Ha Hb. right.
        rewrite (localDay_within_day day _ Hmid (Hin a Ha)).
        apply (localDay_later day _ Hmid (Hlow b Hb)).
    + apply Forall_forall. intros s Hs. apply in_app_or in Hs.
      destruct Hs as [Hs | Hs].
      * specialize (Hin s Hs). lia.
      * specialize (Hlow s Hs). unfold Date.msPerDay in *. lia.
Qed.
End OrderedSlots.

Lemma slotAt_not_past (w : World) (teacherId : string)
    (duration currentDate m : Z) :
  Forall (fun s => now w <= Slot.startTime s)
    (slotAt w teacherId duration currentDate m).
Proof.
  unfold slotAt.
  destruct (Z.ltb_spec
              (Date.setHours (tz w) currentDate (m / 60) (Z.rem m 60) 0 0)
              (now w)); constructor; [exact H | constructor].
Qed.

(** X12: [generateTimeSlots] never returns a slot that starts before the
    instant of the call, whatever the tables hold. *)
Theorem X12_no_slot_in_the_past (w : World) (teacherId : string)
    (startDate endDate duration : Z) (slots : list Slot.t) :
  generateTimeSlots w teacherId startDate endDate duration = Returns slots ->
  Forall (fun s => now w <= Slot.startTime s) slots.
Proof.
  apply generateTimeSlots_Forall. intros day m. apply slotAt_not_past.
Qed.

Lemma bookedWorld_slots :
  generateTimeSlots bookedWorld "teacher-1" monday monday 60
  = Returns bookedWorldSlots.
Proof. vm_compute. reflexivity. Qed.

Lemma X12_no_past_slot_witness :
  Forall (fun s => now bookedWorld <= Slot.startTime s)
    bookedWorldSlots.
Proof.
  apply (X12_no_slot_in_the_past bookedWorld "teacher-1" monday monday 60).
  exact bookedWorld_slots.
Defined.

(** X13: every slot [generateTimeSlots] returns ends exactly [duration]
    minutes after it starts, whatever the tables hold. *)
Theorem X13_slots_last_the_duration (w : World) (teacherId : string)
    (startDate endDate duration : Z) (slots : list Slot.t) :
  generateTimeSlots w teacherId startDate endDate duration = Returns slots ->
  Forall (fun s => Slot.endTime s - Slot.startTime s
                   = duration * Date.msPerMinute) slots.
Proof.
  apply generateTimeSlots_Forall. intros day m.
  exact (slotAt_lastsFor w teacherId duration day m).
Qed.

Lemma X13_duration_witness :
  Forall (fun s => Slot.endTime s - Slot.startTime s = 60 * Date.msPerMinute)
    bookedWorldSlots.
Proof.
  apply (X13_slots_last_the_duration bookedWorld "teacher-1" monday monday 60).
  exact bookedWorld_slots.
Defined.

Lemma minuteOfDay_midnight (tz day k : Z) :
  dayStart tz day = day ->
  minuteOfDay tz day k = day + k * Date.msPerMinute.
Proof. intros H. unfold minuteOfDay. now rewrite H. Qed.


Lemma mondayRule_active (w : World) :
  availabilities (prisma w) = [mondayRule] ->
  Forall wellFormedRule (activeRules w "teacher-1").
Proof.
  intros H. apply Forall_forall. intros rule Hin.
  apply activeRules_In in Hin. destruct Hin as [Hin _].
  rewrite H in Hin. destruct Hin as [<- | []]. split; reflexivity.
Qed.


Lemma minuteInDay_of_minute (tz day k : Z) :
  dayStart tz day = day -> 0 <= k < 1440 ->
  minuteInDay tz (day + k * Date.msPerMinute) = k.
Proof.
  unfold dayStart, minuteInDay. intros Hmid Hk. unfold_time. div_lia.
Qed.

Lemma getDay_of_minute (tz day k : Z) :
  dayStart tz day = day -> 0 <= k < 1440 ->
  Date.getDay tz (day + k * Date.msPerMinute) = Date.getDay tz day.
Proof.
  unfold dayStart, Date.getDay, Date.WeekDay. intros Hmid Hk.
  unfold_time. div_lia.
Qed.

(** X15: with the teacher's active rules in the stored format, a positive
    slot interval and a duration that is not negative, the rule query of
    [isTeacherAvailable] finds a rule for every slot [generateTimeSlots]
    returns: a generated slot is never refused for lying outside the weekly
    rules. *)
Theorem X15_generated_slots_pass_the_rule_query (w : World)
    (teacherId : string) (startDate endDate duration : Z)
    (slots : list Slot.t) (s : Slot.t) :
  Forall wellFormedRule (activeRules w teacherId) ->
  0 < duration + bufferOf (findSettings (prisma w) teacherId) ->
  0 <= duration ->
  generateTimeSlots w teacherId startDate endDate duration = Returns slots ->
  In s slots ->
  find (availabilityWhere teacherId (Date.getDay (tz w) (Slot.startTime s))
          (clockString (tz w) (Slot.startTime s))
          (clockString (tz w) (Slot.endTime s)))
       (availabilities (prisma w)) <> None.
Proof.
  intros Hwf Hpos Hdur Hslots Hin.
  destruct (generateTimeSlots_In w teacherId startDate endDate duration slots s
              Hwf Hpos Hslots Hin)
    as (rule & day & a & b & k & Hrule & Hdow & [n Hn] & Hend & Ha & Hb
        & Ha0 & Hb0 & Hk1 & Hk2 & Hnow & ->).
  pose proof (proj1 (Forall_forall _ _) Hwf rule Hrule) as Hrwf.
  apply activeRules_In in Hrule. destruct Hrule as (Hr1 & Hr2 & Hr3).
  assert (Hmid : dayStart (tz w) day = day).
  { rewrite Hn. apply dayStart_days_later. }
  apply find_Some_iff. exists rule. split; [exact Hr1 |].
  cbn [slotOf Slot.startTime Slot.endTime].
  rewrite (minuteOfDay_midnight _ _ _ Hmid).
  apply (availabilityWhere_minutes w teacherId _ _ rule a b Hrwf Ha Hb).
  replace (day + k * Date.msPerMinute + duration * Date.msPerMinute)
    with (day + (k + duration) * Date.msPerMinute) by lia.
  rewrite !(minuteInDay_of_minute _ _ _ Hmid) by lia.
  rewrite (getDay_of_minute _ _ _ Hmid) by lia.
  repeat split; auto; lia.
Qed.

Lemma X15_rule_query_witness :
  find (availabilityWhere "teacher-1"
          (Date.getDay (tz bookedWorld) (Slot.startTime (hourSlot 9 0 false)))
          (clockString (tz bookedWorld) (Slot.startTime (hourSlot 9 0 false)))
          (clockString (tz bookedWorld) (Slot.endTime (hourSlot 9 0 false))))
       (availabilities (prisma bookedWorld)) <> None.
Proof.
  apply (X15_generated_slots_pass_the_rule_query bookedWorld "teacher-1"
           monday monday 60 bookedWorldSlots (hourSlot 9 0 false)
           (mondayRule_active bookedWorld eq_refl) eq_refl).
  - lia.
  - exact bookedWorld_slots.
  - left. reflexivity.
Defined.

Lemma generateTimeSlots_ordered (w : World) (teacherId : string)
    (startDate endDate duration : Z) (slots : list Slot.t) :
  Forall wellFormedRule (activeRules w teacherId) ->
  0 < duration + bufferOf (findSettings (prisma w) teacherId) ->
  0 <= duration ->
  generateTimeSlots w teacherId startDate endDate duration = Returns slots ->
  StronglySorted Z.lt (map Slot.startTime slots)
  /\ chain (gapOrNextDay (tz w)
              ((duration + bufferOf (findSettings (prisma w) teacherId))
               * Date.msPerMinute)) slots.
Proof.
  intros Hwf Hpos Hdur. unfold generateTimeSlots.
  fold (activeRules w teacherId).
  destruct (activeRules w teacherId) as [| rule rules] eqn:E.
  - intros [= <-]. split; [constructor | exact I].
  - rewrite setHours_midnight. rewrite <- E in *. intros Hslots.
    destruct (dayLoop_ordered w teacherId (activeRules w teacherId) duration
                _ endDate Hpos Hdur Hwf _ _ slots
                (dayStart_idempotent (tz w) startDate) Hslots)
      as (Hsorted & Hchain & _).
    now split.
Qed.

(** X16: with the teacher's active rules in the stored format, a positive
    slot interval and a duration that is not negative, the slots are returned
    in strictly increasing order of their start: earlier slots first, and no
    start twice. *)
Theorem X16_slots_in_increasing_order (w : World) (teacherId : string)
    (startDate endDate duration : Z) (slots : list Slot.t) :
  Forall wellFormedRule (activeRules w teacherId) ->
  0 < duration + bufferOf (findSettings (prisma w) teacherId) ->
  0 <= duration ->
  generateTimeSlots w teacherId startDate endDate duration = Returns slots ->
  StronglySorted Z.lt (map Slot.startTime slots).
Proof.
  intros Hwf Hpos Hdur Hslots.
  exact (proj1 (generateTimeSlots_ordered w teacherId startDate endDate
                  duration slots Hwf Hpos Hdur Hslots)).
Qed.

Lemma X16_increasing_order_witness :
  StronglySorted Z.lt
    (map Slot.startTime bookedWorldSlots).
Proof.
  apply (X16_slots_in_increasing_order bookedWorld "teacher-1" monday monday 60
           bookedWorldSlots (mondayRule_active bookedWorld eq_refl) eq_refl).
  - lia.
  - exact bookedWorld_slots.
Defined.

(** X17: under the same conditions, two neighbouring slots of the result
    either lie on different local days or start exactly [duration] plus the
    buffer apart, where the buffer is the one of the teacher's settings, and
    15 minutes when there are no settings or the stored buffer is 0. *)
Theorem X17_neighbours_are_one_interval_apart (w : World) (teacherId : string)
    (startDate endDate duration : Z) (slots : list Slot.t) :
  Forall wellFormedRule (activeRules w teacherId) ->
  0 < duration + bufferOf (findSettings (prisma w) teacherId) ->
  0 <= duration ->
  generateTimeSlots w teacherId startDate endDate duration = Returns slots ->
  chain (gapOrNextDay (tz w)
           ((duration + bufferOf (findSettings (prisma w) teacherId))
            * Date.msPerMinute)) slots.
Proof.
  intros Hwf Hpos Hdur Hslots.
  exact (proj2 (generateTimeSlots_ordered w teacherId startDate endDate
                  duration slots Hwf Hpos Hdur Hslots)).
Qed.

Lemma X17_neighbours_witness :
  chain (gapOrNextDay (tz bookedWorld)
           ((60 + bufferOf (findSettings (prisma bookedWorld) "teacher-1"))
            * Date.msPerMinute))
    bookedWorldSlots.
Proof.
  apply (X17_neighbours_are_one_interval_apart bookedWorld "teacher-1"
           monday monday 60 bookedWorldSlots
           (mondayRule_active bookedWorld eq_refl) eq_refl).
  - lia.
  - exact bookedWorld_slots.
Defined.

(** With a positive interval the loop is left, with the slots [slotLoop]
    collects. *)
Lemma slotLoopWithin_left (w : World) (teacherId : string)
    (duration slotInterval currentDate endMinutes : Z) :
  0 < slotInterval ->
  forall fuel m,
    (endMinutes - duration - m) / slotInterval + 1 <= Z.of_nat fuel ->
    slotLoopWithin w teacherId duration slotInterval currentDate endMinutes
      (S fuel) m
    = Some (slotLoop w teacherId duration slotInterval currentDate endMinutes
              fuel m).
Proof.
  intros Hpos. induction fuel as [| fuel IH]; intros m Hfuel.
  - cbn [slotLoopWithin slotLoop].
    destruct (Z.leb_spec (m + duration) endMinutes) as [Hle | Hgt];
      [| reflexivity].
    exfalso.
    assert (0 <= (endMinutes - duration - m) / slotInterval)
      by (apply Z.div_pos; lia).
    lia.
  - change (slotLoopWithin w teacherId duration slotInterval currentDate
              endMinutes (S (S fuel)) m)
      with (if m + duration <=? endMinutes
            then match slotLoopWithin w teacherId duration slotInterval
                         currentDate endMinutes (S fuel) (m + slotInterval)
                 with
                 | Some later =>
                     Some (slotAt w teacherId duration currentDate m ++ later)%list
                 | None => None
                 end
            else Some []).
    cbn [slotLoop].
    destruct (m + duration <=? endMinutes); [| reflexivity].
    rewrite IH; [reflexivity |].
    replace (endMinutes - duration - (m + slotInterval))
      with (endMinutes - duration - m + (-1) * slotInterval) by lia.
    rewrite Z.div_add by lia. lia.
Qed.

(** With an interval of 0 the loop, once entered, is in the same state after
    every round. *)
Lemma slotLoopWithin_stuck (w : World) (teacherId : string)
    (duration currentDate endMinutes m : Z) :
  m + duration <= endMinutes ->
  forall fuel,
    slotLoopWithin w teacherId duration 0 currentDate endMinutes fuel m = None.
Proof.
  intros Hfits. induction fuel as [| fuel IH]; cbn [slotLoopWithin];
    [reflexivity |].
  destruct (Z.leb_spec (m + duration) endMinutes); [| lia].
  rewrite Z.add_0_r, IH. reflexivity.
Qed.

(** X18: when duration plus buffer is exactly 0 and the first day visited
    has a rule that the duration fits in, the slot loop of that day is never
    left: it is still running after any number of rounds, and the call does
    not return.  The route passes the duration of the query string on
    unchecked, so a duration of -15 with the default buffer is such a
    request. *)
Theorem X18_zero_interval_never_leaves_the_loop (w : World)
    (teacherId : string) (startDate endDate duration : Z)
    (rule : Availability.t) (ruleStart ruleEnd : Z) :
  find (fun a => Availability.dayOfWeek a
                 =? Date.getDay (tz w) (dayStart (tz w) startDate))
       (activeRules w teacherId) = Some rule ->
  timeToMinutes (Availability.startTime rule) = JS.Int ruleStart ->
  timeToMinutes (Availability.endTime rule) = JS.Int ruleEnd ->
  ruleStart + duration <= ruleEnd ->
  dayStart (tz w) startDate <= endDate ->
  duration + bufferOf (findSettings (prisma w) teacherId) = 0 ->
  (forall fuel,
      slotLoopWithin w teacherId duration
        (duration + bufferOf (findSettings (prisma w) teacherId))
        (dayStart (tz w) startDate) ruleEnd fuel ruleStart = None)
  /\ generateTimeSlots w teacherId startDate endDate duration = Hangs.
Proof.
  intros Hfind Hs He Hfits Hrange Hint. split.
  - rewrite Hint. now apply slotLoopWithin_stuck.
  - unfold generateTimeSlots. fold (activeRules w teacherId).
    destruct (activeRules w teacherId) as [| r rs] eqn:E; [discriminate |].
    rewrite <- E in *. rewrite setHours_midnight.
    unfold dayRounds.
    assert (Hrounds : exists n,
               Z.to_nat ((endDate - dayStart (tz w) startDate) / Date.msPerDay
                         + 1) = S n).
    { assert (0 <= (endDate - dayStart (tz w) startDate) / Date.msPerDay)
        by (apply Z.div_pos; unfold Date.msPerDay; lia).
      exists (Z.to_nat ((endDate - dayStart (tz w) startDate) / Date.msPerDay)).
      lia. }
    destruct Hrounds as [n ->]. cbn [dayLoop].
    destruct (Z.leb_spec (dayStart (tz w) startDate) endDate); [| lia].
    unfold slotsOn. rewrite Hfind. unfold daySlots. rewrite Hs, He, Hint.
    destruct (Z.leb_spec (ruleStart + duration) ruleEnd); [| lia].
    reflexivity.
Qed.

Lemma X18_zero_interval_witness :
  (forall fuel,
      slotLoopWithin unsetWorld "teacher-1" (-15)
        (-15 + bufferOf (findSettings (prisma unsetWorld) "teacher-1"))
        (dayStart (tz unsetWorld) monday) 1020 fuel 540 = None)
  /\ generateTimeSlots unsetWorld "teacher-1" monday monday (-15) = Hangs.
Proof.
  apply (X18_zero_interval_never_leaves_the_loop unsetWorld "teacher-1"
           monday monday (-15) mondayRule 540 1020).
  - reflexivity.
  - reflexivity.
  - reflexivity.
  - lia.
  - vm_compute. discriminate.
  - reflexivity.
Defined.

(** X19: for a teacher with no active weekly rule the result is the empty
    list, for every date range and every duration; rules of other teachers
    and rules switched off are not looked at. *)
Theorem X19_no_active_rule_no_slot (w : World) (teacherId : string)
    (startDate endDate duration : Z) :
  (forall a, In a (availabilities (prisma w)) ->
             Availability.userId a = teacherId ->
             Availability.isAvailable a = false) ->
  generateTimeSlots w teacherId startDate endDate duration = Returns [].
Proof.
  intros H. unfold generateTimeSlots. fold (activeRules w teacherId).
  destruct (activeRules w teacherId) as [| rule rules] eqn:E; [reflexivity |].
  assert (Hin : In rule (activeRules w teacherId)) by (rewrite E; now left).
  apply activeRules_In in Hin. destruct Hin as (Hin & Hid & Hav).
  rewrite (H rule Hin Hid) in Hav. discriminate.
Qed.

Lemma X19_no_active_rule_witness :
  generateTimeSlots unsetWorld "teacher-2" monday (monday + 7 * Date.msPerDay) 60
  = Returns [].
Proof.
  apply (X19_no_active_rule_no_slot unsetWorld "teacher-2").
  intros a [<- | []] Hid. discriminate Hid.
Defined.

(** ** The booking validator *)

Lemma includes_In (xs : list Z) (x : Z) : JS.includes xs x = true <-> In x xs.
Proof.
  unfold JS.includes. rewrite existsb_exists. split.
  - intros (y & Hin & Hy). apply Z.eqb_eq in Hy. now subst.
  - intros Hin. exists x. split; [exact Hin | apply Z.eqb_refl].
Qed.

(** X20: [validateBooking] answers valid exactly when the start is not
    before now, [isTeacherAvailable] accepts the interval from the start to
    [duration] minutes later, the duration is one of the allowed ones if the
    teacher has a settings record, and the local hour of the start is 6 or
    later. *)
Theorem X20_valid_exactly_when (w : World) (teacherId : string)
    (startTime duration : Z) :
  valid (validateBooking w teacherId startTime duration) = true
  <-> now w <= startTime
      /\ available (isTeacherAvailable w teacherId startTime
                      (startTime + duration * 60000)) = true
      /\ (forall settings,
             findSettings (prisma w) teacherId = Some settings ->
             In duration (BookingSettings.allowedDurations settings))
      /\ 6 <= Date.getHours (tz w) startTime.
Proof.
  unfold validateBooking. cbn [valid]. rewrite length_zero_nil.
  pose proof (getHours_range (tz w) startTime) as Hr.
  split.
  - intros H. apply app_eq_nil in H. destruct H as [Hpast H].
    apply app_eq_nil in H. destruct H as [Hav H].
    apply app_eq_nil in H. destruct H as [Hdur Hhour].
    split; [| split; [| split]].
    + unfold pastErrors in Hpast.
      destruct (Z.ltb_spec startTime (now w)); [discriminate | lia].
    + unfold availabilityErrors in Hav.
      destruct (available _); [reflexivity | discriminate].
    + intros settings Hs. unfold durationErrors in Hdur. rewrite Hs in Hdur.
      apply includes_In.
      destruct (JS.includes _ _); [reflexivity | discriminate].
    + unfold hourErrors in Hhour.
      destruct (Z.ltb_spec (Date.getHours (tz w) startTime) 6);
        [discriminate | lia].
  - intros (Hpast & Hav & Hdur & Hhour).
    unfold pastErrors, availabilityErrors, durationErrors, hourErrors.
    destruct (Z.ltb_spec startTime (now w)); [lia |].
    rewrite Hav.
    destruct (Z.ltb_spec (Date.getHours (tz w) startTime) 6); [lia |].
    destruct (Z.gtb_spec (Date.getHours (tz w) startTime) 23); [lia |].
    destruct (findSettings (prisma w) teacherId) as [settings |];
      [| reflexivity].
    rewrite (proj2 (includes_In _ _) (Hdur settings eq_refl)). reflexivity.
Qed.

(** ** The calendar exporter *)

Lemma countOf_app (line : string) (l1 l2 : list string) :
  countOf line (l1 ++ l2) = (countOf line l1 + countOf line l2)%nat.
Proof. unfold countOf. now rewrite filter_app, length_app. Qed.

Lemma plain_eventLines (now : Z) (lesson : CalendarLesson.t) :
  plainFields lesson -> Forall plainText (eventLines now lesson).
Proof.
  intros (Hid & Htitle & Htn & Hte & Hsn & Hse).
  unfold plainText in *. unfold eventLines.
  repeat constructor; unfold plainText; rewrite ?hasChar_app;
    rewrite ?plain_formatDate, ?Hid, ?Htitle, ?Htn, ?Hte, ?Hsn, ?Hse;
    reflexivity.
Qed.

Lemma events_counted (now : Z) (lessons : list CalendarLesson.t) :
  List.length (flat_map (eventLines now) lessons)
  = (11 * List.length lessons)%nat
  /\ countOf "BEGIN:VEVENT" (flat_map (eventLines now) lessons)
     = List.length lessons
  /\ countOf "END:VEVENT" (flat_map (eventLines now) lessons)
     = List.length lessons.
Proof.
  induction lessons as [| lesson lessons (IH1 & IH2 & IH3)].
  - repeat split.
  - cbn [flat_map]. rewrite !countOf_app, length_app, IH1, IH2, IH3.
    split; [cbn [eventLines List.length]; lia |].
    split; reflexivity.
Qed.

(** X21: the calendar of any list of lessons has five lines of its own and
    eleven per lesson, among them exactly one BEGIN:VEVENT and one END:VEVENT
    per lesson (none for the empty list); and when no text of the lessons
    holds a carriage return, these lines are the lines of the exported
    text. *)
Theorem X21_one_event_block_per_lesson (now : Z)
    (lessons : list CalendarLesson.t) :
  List.length (icalLines now lessons) = (5 + 11 * List.length lessons)%nat
  /\ countOf "BEGIN:VEVENT" (icalLines now lessons) = List.length lessons
  /\ countOf "END:VEVENT" (icalLines now lessons) = List.length lessons
  /\ (Forall plainFields lessons ->
      splitLines (generateICalendar now lessons) = icalLines now lessons).
Proof.
  destruct (events_counted now lessons) as (H1 & H2 & H3).
  unfold icalLines. rewrite !countOf_app, !length_app, H1, H2, H3.
  change (countOf "BEGIN:VEVENT" ["END:VCALENDAR"]) with 0%nat.
  change (countOf "END:VEVENT" ["END:VCALENDAR"]) with 0%nat.
  change (countOf "BEGIN:VEVENT" (_ :: _ :: _ :: _ :: nil)) with 0%nat.
  change (countOf "END:VEVENT" (_ :: _ :: _ :: _ :: nil)) with 0%nat.
  cbn [List.length].
  split; [lia |]. split; [lia |]. split; [lia |].
  intros Hplain. clear H1 H2 H3. unfold generateICalendar, icalLines.
  apply splitLines_join; [discriminate |].
  apply Forall_app. split; [repeat constructor |].
  apply Forall_app. split; [| repeat constructor].
  induction Hplain as [| lesson rest Hlesson _ IH]; cbn [flat_map].
  - constructor.
  - apply Forall_app. split; [now apply plain_eventLines | exact IH].
Qed.

(** X22: the stamp [formatDate] writes for an instant in the years 0 to
    9999 is sixteen characters "YYYYMMDDTHHMMSSZ" that read back, as a UTC
    date and time, as that instant cut to the second. *)
Theorem X22_formatDate_reads_back (t : Z) :
  fourDigitYear t ->
  String.length (formatDate t) = 16%nat
  /\ stampSeconds (formatDate t) = Some (t / 1000).
Proof.
  intros Hy. split; [| now apply stampSeconds_formatDate].
  rewrite (formatDate_fields t Hy). unfold fourDigitYear in Hy.
  pose proof (MonthFromTime_range t) as Hmo.
  pose proof (DateFromTime_range t) as Hd.
  destruct (time_fields_range t) as (Hh & Hmi & Hs).
  destruct (pad4_digits _ Hy) as (? & ? & ? & ? & Ey & _).
  destruct (pad2_digits (Date.MonthFromTime t + 1) ltac:(lia))
    as (? & ? & Em & _).
  destruct (pad2_digits (Date.DateFromTime t) ltac:(lia)) as (? & ? & Ed & _).
  destruct (pad2_digits (Date.HourFromTime t) ltac:(lia)) as (? & ? & Eh & _).
  destruct (pad2_digits (Date.MinFromTime t) ltac:(lia)) as (? & ? & Ei & _).
  destruct (pad2_digits (Date.SecFromTime t) ltac:(lia)) as (? & ? & Es & _).
  rewrite Ey, Em, Ed, Eh, Ei, Es. reflexivity.
Qed.

Lemma X22_formatDate_witness :
  String.length (formatDate (at_ monday 9 0)) = 16%nat
  /\ stampSeconds (formatDate (at_ monday 9 0)) = Some (at_ monday 9 0 / 1000).
Proof.
  apply (X22_formatDate_reads_back (at_ monday 9 0)).
  vm_compute. split; discriminate.
Defined.


(** ** The time slots route *)

Section GroupsByDate.

Variable Price : Type.
Variable price : option Price.
Variable duration : Z.


Lemma groupOf_pushUnder_same (key : string) (e : SlotEntry.t Price)
    (g : list (string * list (SlotEntry.t Price))) :
  groupOf key (TimeslotsRoute.pushUnder key e g)
  = Some (match groupOf key g with
          | Some entries => (entries ++ [e])%list
          | None => [e]
          end).
Proof.
  unfold groupOf. induction g as [| [k entries] rest IH];
    cbn [TimeslotsRoute.pushUnder find fst].
  - rewrite String.eqb_refl. reflexivity.
  - destruct (String.eqb k key) eqn:E; cbn [find fst]; rewrite E.
    + reflexivity.
    + exact IH.
Qed.

Lemma groupOf_pushUnder_other (key other : string) (e : SlotEntry.t Price)
    (g : list (string * list (SlotEntry.t Price))) :
  other <> key ->
  groupOf other (TimeslotsRoute.pushUnder key e g) = groupOf other g.
Proof.
  intros Hne. unfold groupOf. induction g as [| [k entries] rest IH];
    cbn [TimeslotsRoute.pushUnder find fst].
  - destruct (String.eqb_spec key other); [congruence | reflexivity].
  - destruct (String.eqb_spec k key) as [-> | Hk]; cbn [find fst].
    + destruct (String.eqb_spec key other); [congruence | reflexivity].
    + destruct (String.eqb k other); [reflexivity | exact IH].
Qed.

Lemma keys_pushUnder (key : string) (e : SlotEntry.t Price)
    (g : list (string * list (SlotEntry.t Price))) (k : string) :
  In k (map fst (TimeslotsRoute.pushUnder key e g))
  <-> k = key \/ In k (map fst g).
Proof.
  induction g as [| [k' entries] rest IH];
    cbn [TimeslotsRoute.pushUnder map fst In].
  - intuition congruence.
  - destruct (String.eqb_spec k' key) as [-> | Hk]; cbn [map fst In].
    + intuition congruence.
    + rewrite IH. intuition congruence.
Qed.

Lemma NoDup_pushUnder (key : string) (e : SlotEntry.t Price)
    (g : list (string * list (SlotEntry.t Price))) :
  NoDup (map fst g) -> NoDup (map fst (TimeslotsRoute.pushUnder key e g)).
Proof.
  induction g as [| [k entries] rest IH];
    cbn [TimeslotsRoute.pushUnder map fst]; intros Hnd.
  - constructor; [intros [] | constructor].
  - apply NoDup_cons_iff in Hnd. destruct Hnd as [Hk Hrest].
    destruct (String.eqb_spec k key) as [-> | Hne]; cbn [map fst].
    + now constructor.
    + constructor; [| now apply IH].
      rewrite keys_pushUnder. intros [-> | Hin]; [now apply Hne | now apply Hk].
Qed.

Lemma entries_pushUnder (key : string) (e : SlotEntry.t Price)
    (g : list (string * list (SlotEntry.t Price))) :
  List.length (List.concat (map snd (TimeslotsRoute.pushUnder key e g)))
  = S (List.length (List.concat (map snd g))).
Proof.
  induction g as [| [k entries] rest IH];
    cbn [TimeslotsRoute.pushUnder map snd List.concat].
  - reflexivity.
  - destruct (String.eqb k key); cbn [map snd List.concat];
      rewrite !length_app.
    + cbn [List.length]. lia.
    + rewrite IH. lia.
Qed.

Lemma slotsByDate_snoc (slots : list Slot.t) (s : Slot.t) :
  TimeslotsRoute.slotsByDate price duration (slots ++ [s])
  = TimeslotsRoute.pushUnder (TimeslotsRoute.dateKey (Slot.startTime s))
      (TimeslotsRoute.entryOf price duration s)
      (TimeslotsRoute.slotsByDate price duration slots).
Proof. unfold TimeslotsRoute.slotsByDate. now rewrite fold_left_app. Qed.

(** X23: the groups of the response split the slots by the date key of
    their start: no key is listed twice; the group under a key holds the
    entries of exactly the slots with that key, in the order the generator
    returned them; a date without a slot has no group; and the groups hold
    as many entries as there are slots. *)
Theorem X23_groups_split_the_slots_by_date (slots : list Slot.t) :
  NoDup (map fst (TimeslotsRoute.slotsByDate price duration slots))
  /\ (forall key,
        groupOf key (TimeslotsRoute.slotsByDate price duration slots)
        = match slotsOfDate key slots with
          | [] => None
          | found => Some (map (TimeslotsRoute.entryOf price duration) found)
          end)
  /\ List.length
       (List.concat (map snd (TimeslotsRoute.slotsByDate price duration slots)))
     = List.length slots.
Proof.
  induction slots as [| s slots (IHk & IHg & IHn)] using rev_ind.
  - split; [constructor |]. split; [reflexivity | reflexivity].
  - rewrite slotsByDate_snoc. split; [now apply NoDup_pushUnder |]. split.
    + intros key. unfold slotsOfDate. rewrite filter_app. cbn [filter].
      fold (slotsOfDate key slots).
      destruct (String.eqb_spec (TimeslotsRoute.dateKey (Slot.startTime s)) key)
        as [<- | Hne].
      * rewrite groupOf_pushUnder_same, IHg.
        destruct (slotsOfDate _ slots) as [| a found].
        -- reflexivity.
        -- cbn [app map]. rewrite map_app. reflexivity.
      * rewrite groupOf_pushUnder_other by congruence.
        rewrite app_nil_r. apply IHg.
    + rewrite entries_pushUnder, IHn, length_app. cbn [List.length]. lia.
Qed.

End GroupsByDate.

Lemma find_first {A : Type} (f : A -> bool) (xs : list A) (x : A) :
  find f xs = Some x ->
  exists before after,
    xs = (before ++ x :: after)%list
    /\ f x = true
    /\ Forall (fun y => f y = false) before.
Proof.
  induction xs as [| y xs IH]; cbn [find]; [discriminate |].
  destruct (f y) eqn:E.
  - intros [= ->]. exists [], xs. repeat split; [exact E | constructor].
  - intros H. destruct (IH H) as (before & after & -> & Hx & Hb).
    exists (y :: before), after. repeat split; [exact Hx |].
    constructor; [exact E | exact Hb].
Qed.

Lemma sorted_after (before after : list Z) (x : Z) :
  StronglySorted Z.lt (before ++ x :: after) -> Forall (Z.lt x) after.
Proof.
  induction before as [| b before IH]; cbn [app]; intros H;
    apply StronglySorted_inv in H; destruct H as [H Hall].
  - exact Hall.
  - now apply IH.
Qed.

Lemma filter_none {A : Type} (f : A -> bool) (xs : list A) :
  find f xs = None -> filter f xs = [].
Proof.
  induction xs as [| y xs IH]; cbn [find filter]; [reflexivity |].
  destruct (f y); [discriminate | exact IH].
Qed.

(** X24: with the teacher's active rules in the stored format, a positive
    slot interval and a duration that is not negative, the summary's
    [nextAvailable] is the earliest available slot of the result, and
    [getDayName] has a name for its day of the week; there is none exactly
    when no slot is available, and then [bookedSlots] counts every slot. *)
Theorem X24_next_available_is_the_earliest (w : World) (teacherId : string)
    (startDate endDate duration : Z) (slots : list Slot.t) :
  Forall wellFormedRule (activeRules w teacherId) ->
  0 < duration + bufferOf (findSettings (prisma w) teacherId) ->
  0 <= duration ->
  generateTimeSlots w teacherId startDate endDate duration = Returns slots ->
  match TimeslotsRoute.nextAvailable slots with
  | Some next =>
      In next slots
      /\ Slot.available next = true
      /\ (forall s, In s slots -> Slot.available s = true ->
                    Slot.startTime next <= Slot.startTime s)
      /\ (exists name,
            TimeslotsRoute.nextAvailableDayOfWeek (tz w) slots
            = Some (Some name))
      /\ 0 < TimeslotsRoute.availableSlots slots
  | None =>
      TimeslotsRoute.availableSlots slots = 0
      /\ TimeslotsRoute.bookedSlots slots = TimeslotsRoute.totalSlots slots
      /\ forall s, In s slots -> Slot.available s = false
  end.
Proof.
  intros Hwf Hpos Hdur Hslots.
  destruct (generateTimeSlots_ordered w teacherId startDate endDate duration
              slots Hwf Hpos Hdur Hslots) as [Hsorted _].
  unfold TimeslotsRoute.nextAvailableDayOfWeek, TimeslotsRoute.bookedSlots,
    TimeslotsRoute.availableSlots, TimeslotsRoute.nextAvailable.
  destruct (find Slot.available slots) as [next |] eqn:E.
  - destruct (find_first _ _ _ E) as (before & after & -> & Hnext & Hbefore).
    split; [apply in_or_app; right; now left |].
    split; [exact Hnext |]. split; [| split].
    + intros s Hin Hs. rewrite map_app in Hsorted. cbn [map] in Hsorted.
      apply sorted_after in Hsorted.
      apply in_app_or in Hin. destruct Hin as [Hin | [<- | Hin]].
      * rewrite Forall_forall in Hbefore. rewrite (Hbefore s Hin) in Hs.
        discriminate.
      * lia.
      * rewrite Forall_forall in Hsorted.
        pose proof (Hsorted _ (in_map Slot.startTime _ _ Hin)). lia.
    + cbn [option_map].
      pose proof (getDay_range (tz w) (Slot.startTime next)) as Hr.
      unfold getDayName.
      destruct (Z.ltb_spec (Date.getDay (tz w) (Slot.startTime next)) 0);
        [lia |].
      destruct (nth_error days
                  (Z.to_nat (Date.getDay (tz w) (Slot.startTime next))))
        as [name |] eqn:En; [now exists name |].
      apply nth_error_None in En. cbn [days List.length] in En. lia.
    + rewrite filter_app, length_app. cbn [filter]. rewrite Hnext.
      cbn [List.length]. lia.
  - rewrite (filter_none _ _ E). cbn [List.length].
    split; [reflexivity |]. split; [lia |].
    apply find_None_iff. exact E.
Qed.

Lemma X24_next_available_witness :
  match TimeslotsRoute.nextAvailable bookedWorldSlots with
  | Some next =>
      In next bookedWorldSlots
      /\ Slot.available next = true
      /\ (forall s, In s bookedWorldSlots -> Slot.available s = true ->
                    Slot.startTime next <= Slot.startTime s)
      /\ (exists name,
            TimeslotsRoute.nextAvailableDayOfWeek (tz bookedWorld)
              bookedWorldSlots
            = Some (Some name))
      /\ 0 < TimeslotsRoute.availableSlots bookedWorldSlots
  | None =>
      TimeslotsRoute.availableSlots bookedWorldSlots = 0
      /\ TimeslotsRoute.bookedSlots bookedWorldSlots
         = TimeslotsRoute.totalSlots bookedWorldSlots
      /\ forall s, In s bookedWorldSlots -> Slot.available s = false
  end.
Proof.
  apply (X24_next_available_is_the_earliest bookedWorld "teacher-1" monday
           monday 60 bookedWorldSlots (mondayRule_active bookedWorld eq_refl)
           eq_refl).
  - lia.
  - exact bookedWorld_slots.
Defined.

Lemma digit_not_T (c : ascii) : JS.isDigit c = true -> Ascii.eqb c "T" = false.
Proof.
  intros H. apply isDigit_In in H. simpl in H.
  repeat (destruct H as [H | H]; [subst c; reflexivity | ]). contradiction.
Qed.

Lemma first_piece_before_T (c : ascii) (rest : string) :
  JS.isDigit c = true ->
  nth 0 (JS.split "T" (String c rest)) EmptyString
  = String c (nth 0 (JS.split "T" rest) EmptyString).
Proof. intros H. now rewrite first_piece_cons, (digit_not_T c H). Qed.

(** The date key of an instant: the year, month and day of its UTC date. *)
Lemma dateKey_fields (t : Z) :
  fourDigitYear t ->
  TimeslotsRoute.dateKey t
  = Date.pad 4 (Date.YearFromTime t) ++ "-"
    ++ Date.pad 2 (Date.MonthFromTime t + 1) ++ "-"
    ++ Date.pad 2 (Date.DateFromTime t).
Proof.
  intros Hy. unfold fourDigitYear in Hy.
  pose proof (MonthFromTime_range t) as Hmo.
  pose proof (DateFromTime_range t) as Hd.
  destruct (pad4_digits _ Hy) as (y1 & y2 & y3 & y4 & Ey & ? & ? & ? & ? & _).
  destruct (pad2_digits (Date.MonthFromTime t + 1) ltac:(lia))
    as (m1 & m2 & Em & ? & ? & _).
  destruct (pad2_digits (Date.DateFromTime t) ltac:(lia))
    as (d1 & d2 & Ed & ? & ? & _).
  unfold TimeslotsRoute.dateKey, Date.toISOString, Date.isoYear.
  replace ((0 <=? Date.YearFromTime t) && (Date.YearFromTime t <=? 9999))
    with true
    by (symmetry; apply andb_true_iff; split; apply Z.leb_le; lia).
  rewrite Ey, Em, Ed. cbn [append].
  rewrite !first_piece_before_T by assumption.
  rewrite first_piece_cons. cbn [Ascii.eqb Bool.eqb].
  rewrite !first_piece_before_T by assumption.
  rewrite first_piece_cons. cbn [Ascii.eqb Bool.eqb].
  rewrite !first_piece_before_T by assumption.
  rewrite first_piece_cons. cbn [Ascii.eqb Bool.eqb].
  reflexivity.
Qed.

Lemma date_of_day (t1 t2 : Z) :
  Date.Day t1 = Date.Day t2 ->
  Date.YearFromTime t1 = Date.YearFromTime t2
  /\ Date.MonthFromTime t1 = Date.MonthFromTime t2
  /\ Date.DateFromTime t1 = Date.DateFromTime t2.
Proof.
  intros H.
  assert (Hy : Date.YearFromTime t1 = Date.YearFromTime t2)
    by (unfold Date.YearFromTime; now rewrite H).
  assert (Hw : Date.DayWithinYear t1 = Date.DayWithinYear t2)
    by (unfold Date.DayWithinYear; now rewrite H, Hy).
  assert (Hm : Date.MonthFromTime t1 = Date.MonthFromTime t2)
    by (unfold Date.MonthFromTime; now rewrite Hy, Hw).
  repeat split; [exact Hy | exact Hm |].
  unfold Date.DateFromTime. now rewrite Hy, Hw, Hm.
Qed.

Lemma day_of_date (t1 t2 : Z) :
  Date.YearFromTime t1 = Date.YearFromTime t2 ->
  Date.MonthFromTime t1 = Date.MonthFromTime t2 ->
  Date.DateFromTime t1 = Date.DateFromTime t2 ->
  Date.Day t1 = Date.Day t2.
Proof.
  intros Hy Hm Hd.
  pose proof (MakeDay_of_parts t1 0) as H1.
  pose proof (MakeDay_of_parts t2 0) as H2.
  rewrite Hy, Hm, Hd in H1. lia.
Qed.

(** X25: the groups are the days of UTC, not the local days the generator
    works on: two starts in the years 0 to 9999 have the same date key
    exactly when they fall on the same UTC day, and on a server east of UTC a
    slot that starts fewer minutes after local midnight than the zone is
    ahead falls on an earlier UTC day than its local day. *)
Theorem X25_groups_are_utc_days (t1 t2 : Z) :
  fourDigitYear t1 -> fourDigitYear t2 ->
  (TimeslotsRoute.dateKey t1 = TimeslotsRoute.dateKey t2
   <-> Date.Day t1 = Date.Day t2)
  /\ (forall tz, minuteInDay tz t1 < tz ->
                 Date.Day t1 < localDay tz t1).
Proof.
  intros Hy1 Hy2. split; [split |].
  - intros Hkey.
    rewrite (dateKey_fields t1 Hy1), (dateKey_fields t2 Hy2) in Hkey.
    unfold fourDigitYear in Hy1, Hy2.
    pose proof (MonthFromTime_range t1) as Hmo1.
    pose proof (DateFromTime_range t1) as Hd1.
    pose proof (MonthFromTime_range t2) as Hmo2.
    pose proof (DateFromTime_range t2) as Hd2.
    destruct (pad4_digits _ Hy1) as (? & ? & ? & ? & Ey1 & _ & _ & _ & _ & Vy1).
    destruct (pad2_digits (Date.MonthFromTime t1 + 1) ltac:(lia))
      as (? & ? & Em1 & _ & _ & Vm1).
    destruct (pad2_digits (Date.DateFromTime t1) ltac:(lia))
      as (? & ? & Ed1 & _ & _ & Vd1).
    destruct (pad4_digits _ Hy2) as (? & ? & ? & ? & Ey2 & _ & _ & _ & _ & Vy2).
    destruct (pad2_digits (Date.MonthFromTime t2 + 1) ltac:(lia))
      as (? & ? & Em2 & _ & _ & Vm2).
    destruct (pad2_digits (Date.DateFromTime t2) ltac:(lia))
      as (? & ? & Ed2 & _ & _ & Vd2).
    rewrite Ey1, Em1, Ed1, Ey2, Em2, Ed2 in Hkey. cbn [append] in Hkey.
    injection Hkey as -> -> -> -> -> -> -> ->.
    apply day_of_date; lia.
  - intros Hday. destruct (date_of_day t1 t2 Hday) as (Hy & Hm & Hd).
    rewrite (dateKey_fields t1 Hy1), (dateKey_fields t2 Hy2).
    now rewrite Hy, Hm, Hd.
  - intros tz Hm. unfold minuteInDay, localDay in *.
    unfold Date.TimeWithinDay, Date.Day, Date.LocalTime, Date.msPerMinute,
      Date.msPerDay in *.
    div_lia.
Qed.

Lemma X25_utc_days_witness :
  (TimeslotsRoute.dateKey (at_ monday 9 0)
   = TimeslotsRoute.dateKey (at_ monday 10 15)
   <-> Date.Day (at_ monday 9 0) = Date.Day (at_ monday 10 15))
  /\ (forall tz, minuteInDay tz (at_ monday 9 0) < tz ->
                 Date.Day (at_ monday 9 0) < localDay tz (at_ monday 9 0)).
Proof.
  apply (X25_groups_are_utc_days (at_ monday 9 0) (at_ monday 10 15));
    vm_compute; split; discriminate.
Defined.

(** ** The booking settings route *)

Lemma upsert_keys (table : list SettingsRow.t) (userId : string)
    (data : SettingsBody.t) (k : string) :
  In k (map SettingsRow.userId
          (snd (BookingSettingsRoute.upsert table userId data)))
  <-> k = userId \/ In k (map SettingsRow.userId table).
Proof.
  induction table as [| row rest IH]; cbn [BookingSettingsRoute.upsert].
  - cbn. intuition congruence.
  - destruct (String.eqb_spec (SettingsRow.userId row) userId) as [E | _].
    + cbn [snd map In]. change (SettingsRow.userId
        (BookingSettingsRoute.update data row)) with (SettingsRow.userId row).
      intuition congruence.
    + destruct (BookingSettingsRoute.upsert rest userId data) as [r rest'].
      cbn [snd map In] in *. rewrite IH. intuition congruence.
Qed.

Lemma upsert_NoDup (table : list SettingsRow.t) (userId : string)
    (data : SettingsBody.t) :
  NoDup (map SettingsRow.userId table) ->
  NoDup (map SettingsRow.userId
           (snd (BookingSettingsRoute.upsert table userId data))).
Proof.
  induction table as [| row rest IH]; cbn [BookingSettingsRoute.upsert];
    intros Hnd.
  - cbn. constructor; [intros [] | constructor].
  - cbn [map] in Hnd. apply NoDup_cons_iff in Hnd. destruct Hnd as [Hk Hrest].
    destruct (String.eqb_spec (SettingsRow.userId row) userId) as [E | Hne].
    + cbn [snd map]. now constructor.
    + pose proof (upsert_keys rest userId data (SettingsRow.userId row)) as Hin.
      specialize (IH Hrest).
      destruct (BookingSettingsRoute.upsert rest userId data) as [r rest'].
      cbn [snd map] in *. constructor; [| exact IH].
      rewrite Hin. intros [E | Hold]; [now apply Hne | now apply Hk].
Qed.

Lemma upsert_GET (table : list SettingsRow.t) (userId : string)
    (data : SettingsBody.t) :
  let (settings, table') := BookingSettingsRoute.upsert table userId data in
  settings = BookingSettingsRoute.update data
               (BookingSettingsRoute.GET table userId)
  /\ BookingSettingsRoute.GET table' userId = settings
  /\ forall other, other <> userId ->
       BookingSettingsRoute.GET table' other
       = BookingSettingsRoute.GET table other.
Proof.
  unfold BookingSettingsRoute.GET.
  induction table as [| row rest IH];
    cbn [BookingSettingsRoute.upsert find].
  - change (SettingsRow.userId (BookingSettingsRoute.update data
              (BookingSettingsRoute.columnDefaults userId))) with userId.
    rewrite String.eqb_refl. split; [reflexivity |]. split; [reflexivity |].
    intros other Hne.
    destruct (String.eqb_spec userId other); [congruence | reflexivity].
  - destruct (String.eqb_spec (SettingsRow.userId row) userId) as [E | Hne].
    + cbn [find].
      change (SettingsRow.userId (BookingSettingsRoute.update data row))
        with (SettingsRow.userId row).
      rewrite E, String.eqb_refl. split; [reflexivity |].
      split; [reflexivity |]. intros other Hother.
      destruct (String.eqb_spec userId other); [congruence | reflexivity].
    + destruct (BookingSettingsRoute.upsert rest userId data) as [r rest'].
      destruct IH as (Hr & Hget & Hframe). cbn [find].
      destruct (String.eqb_spec (SettingsRow.userId row) userId);
        [contradiction |].
      split; [exact Hr |]. split; [exact Hget |].
      intros other Hother.
      destruct (String.eqb (SettingsRow.userId row) other);
        [reflexivity | now apply Hframe].
Qed.

(** X26: an accepted POST is a write the next GET reads back.  The row it
    answers with is the row GET showed before, the defaults if the user had
    none, with the fields of the body written over it; GET shows that row
    afterwards; what GET shows for any other user is unchanged; and a table
    with one row per user stays one. *)
Theorem X26_accepted_post_reads_back (table table' : list SettingsRow.t)
    (userId : string) (body : SettingsBody.t) (settings : SettingsRow.t) :
  BookingSettingsRoute.POST table userId body
  = (BookingSettingsRoute.Json settings, table') ->
  settings = BookingSettingsRoute.update body
               (BookingSettingsRoute.GET table userId)
  /\ BookingSettingsRoute.GET table' userId = settings
  /\ (forall other, other <> userId ->
        BookingSettingsRoute.GET table' other
        = BookingSettingsRoute.GET table other)
  /\ (NoDup (map SettingsRow.userId table) ->
      NoDup (map SettingsRow.userId table')).
Proof.
  unfold BookingSettingsRoute.POST.
  destruct (BookingSettingsRoute.bookingSettingsSchema body); [| discriminate].
  destruct (BookingSettingsRoute.durationsError _); [discriminate |].
  pose proof (upsert_GET table userId body) as Hget.
  pose proof (upsert_NoDup table userId body) as Hnd.
  destruct (BookingSettingsRoute.upsert table userId body) as [r t].
  intros [= <- <-]. destruct Hget as (H1 & H2 & H3).
  repeat split; assumption.
Qed.

Lemma X26_reads_back_witness :
  BookingSettingsRoute.update strictBody
    (BookingSettingsRoute.columnDefaults "teacher-1")
  = BookingSettingsRoute.update strictBody
      (BookingSettingsRoute.GET [] "teacher-1")
  /\ BookingSettingsRoute.GET
       [BookingSettingsRoute.update strictBody
          (BookingSettingsRoute.columnDefaults "teacher-1")] "teacher-1"
     = BookingSettingsRoute.update strictBody
         (BookingSettingsRoute.columnDefaults "teacher-1")
  /\ (forall other, other <> "teacher-1" ->
        BookingSettingsRoute.GET
          [BookingSettingsRoute.update strictBody
             (BookingSettingsRoute.columnDefaults "teacher-1")] other
        = BookingSettingsRoute.GET [] other)
  /\ (NoDup (map SettingsRow.userId []) ->
      NoDup (map SettingsRow.userId
               [BookingSettingsRoute.update strictBody
                  (BookingSettingsRoute.columnDefaults "teacher-1")])).
Proof.
  apply (X26_accepted_post_reads_back [] _ "teacher-1" strictBody).
  reflexivity.
Defined.

Lemma between_bounds (lo hi : Z) (field : option Z) (stored : Z) :
  BookingSettingsRoute.between lo hi field = true ->
  lo <= stored <= hi ->
  lo <= BookingSettingsRoute.orStored field stored <= hi.
Proof.
  destruct field as [v |]; cbn; [| auto].
  intros H _. apply andb_true_iff in H. destruct H as [H1 H2].
  apply Z.leb_le in H1. apply Z.leb_le in H2. lia.
Qed.

Lemma durationsError_bounds (durations : list Z) :
  BookingSettingsRoute.durationsError (Some durations) = None ->
  durations <> [] /\ Forall (fun d => 15 <= d <= 240) durations.
Proof.
  unfold BookingSettingsRoute.durationsError.
  destruct durations as [| d rest]; [discriminate |].
  destruct (existsb _ (d :: rest)) eqn:E; [discriminate |]. intros _.
  split; [discriminate |]. apply Forall_forall. intros x Hin.
  destruct (Z.ltb_spec x 15) as [Hlo |];
    [| destruct (Z.gtb_spec x 240) as [Hhi |]; [| lia]].
  - assert (existsb (fun duration => (duration <? 15) || (duration >? 240))
              (d :: rest) = true) as Hex.
    { apply existsb_exists. exists x. split; [exact Hin |].
      apply orb_true_iff. left. now apply Z.ltb_lt. }
    rewrite Hex in E. discriminate.
  - assert (existsb (fun duration => (duration <? 15) || (duration >? 240))
              (d :: rest) = true) as Hex.
    { apply existsb_exists. exists x. split; [exact Hin |].
      apply orb_true_iff. right. apply Z.gtb_lt. lia. }
    rewrite Hex in E. discriminate.
Qed.

Lemma update_withinLimits (body : SettingsBody.t) (row : SettingsRow.t) :
  BookingSettingsRoute.bookingSettingsSchema body = true ->
  BookingSettingsRoute.durationsError (SettingsBody.allowedDurations body)
  = None ->
  withinLimits row ->
  withinLimits (BookingSettingsRoute.update body row).
Proof.
  unfold BookingSettingsRoute.bookingSettingsSchema.
  intros Hschema Hdur (Hb & Hmin & Hmax & Hne & Hall & Hc).
  do 4 (apply andb_true_iff in Hschema; destruct Hschema as [Hschema ?]).
  unfold withinLimits, BookingSettingsRoute.update.
  cbn [SettingsRow.columns SettingsRow.cancellationHours
       BookingSettings.bufferMinutes BookingSettings.minAdvanceHours
       BookingSettings.maxAdvanceDays BookingSettings.allowedDurations].
  split; [now apply between_bounds |].
  split; [now apply between_bounds |].
  split; [now apply between_bounds |].
  split; [| split; [| now apply between_bounds]].
  - destruct (SettingsBody.allowedDurations body) as [durations |];
      [| exact Hne].
    apply (durationsError_bounds durations Hdur).
  - destruct (SettingsBody.allowedDurations body) as [durations |];
      [| exact Hall].
    apply (durationsError_bounds durations Hdur).
Qed.

Lemma columnDefaults_withinLimits (userId : string) :
  withinLimits (BookingSettingsRoute.columnDefaults userId).
Proof.
  unfold withinLimits. cbn.
  repeat split; try lia; try discriminate.
  repeat constructor; lia.
Qed.

Lemma upsert_withinLimits (table : list SettingsRow.t) (userId : string)
    (body : SettingsBody.t) :
  BookingSettingsRoute.bookingSettingsSchema body = true ->
  BookingSettingsRoute.durationsError (SettingsBody.allowedDurations body)
  = None ->
  Forall withinLimits table ->
  Forall withinLimits (snd (BookingSettingsRoute.upsert table userId body)).
Proof.
  intros Hschema Hdur.
  induction table as [| row rest IH]; cbn [BookingSettingsRoute.upsert];
    intros Hall.
  - cbn [snd]. constructor; [| constructor].
    apply update_withinLimits; auto using columnDefaults_withinLimits.
  - apply Forall_cons_iff in Hall. destruct Hall as [Hrow Hrest].
    destruct (String.eqb (SettingsRow.userId row) userId).
    + cbn [snd]. constructor; [now apply update_withinLimits | exact Hrest].
    + specialize (IH Hrest).
      destruct (BookingSettingsRoute.upsert rest userId body) as [r rest'].
      cbn [snd] in *. now constructor.
Qed.

Lemma GET_withinLimits (table : list SettingsRow.t) (targetUserId : string) :
  Forall withinLimits table ->
  withinLimits (BookingSettingsRoute.GET table targetUserId).
Proof.
  intros Hall. unfold BookingSettingsRoute.GET.
  destruct (find _ table) as [row |] eqn:E.
  - rewrite Forall_forall in Hall. apply Hall.
    exact (proj1 (find_some _ _ E)).
  - exact (columnDefaults_withinLimits targetUserId).
Qed.

(** X27: the route keeps the table within its limits: if every row has a
    buffer of 0 to 60 minutes, a notice of 1 to 168 hours, a horizon of 1 to
    365 days, at least one allowed duration, all of them from 15 to 240
    minutes, and 1 to 168 cancellation hours, then so has every row after
    any POST, and so has whatever GET answers for any user.  A POST that is
    refused answers with status 400 and changes nothing. *)
Theorem X27_table_stays_within_limits (table table' : list SettingsRow.t)
    (userId : string) (body : SettingsBody.t)
    (response : BookingSettingsRoute.Response) :
  Forall withinLimits table ->
  BookingSettingsRoute.POST table userId body = (response, table') ->
  Forall withinLimits table'
  /\ (forall targetUserId,
        withinLimits (BookingSettingsRoute.GET table' targetUserId))
  /\ (forall status error,
        response = BookingSettingsRoute.Failure status error ->
        status = 400 /\ table' = table).
Proof.
  intros Hall Hpost.
  assert (Hkept : Forall withinLimits table'
                  /\ forall status error,
                       response = BookingSettingsRoute.Failure status error ->
                       status = 400 /\ table' = table).
  { unfold BookingSettingsRoute.POST in Hpost.
    destruct (BookingSettingsRoute.bookingSettingsSchema body) eqn:Hschema.
    - destruct (BookingSettingsRoute.durationsError _) as [error |] eqn:Hdur.
      + injection Hpost as <- <-. split; [exact Hall |].
        intros status e [= <- _]. now split.
      + pose proof (upsert_withinLimits table userId body Hschema Hdur Hall)
          as Hnew.
        destruct (BookingSettingsRoute.upsert table userId body) as [r t].
        injection Hpost as <- <-. split; [exact Hnew |].
        intros status e. discriminate.
    - injection Hpost as <- <-. split; [exact Hall |].
      intros status e [= <- _]. now split. }
  destruct Hkept as [Hnew Hfail].
  split; [exact Hnew |]. split; [| exact Hfail].
  intros targetUserId. now apply GET_withinLimits.
Qed.

Lemma X27_within_limits_witness :
  Forall withinLimits
    [BookingSettingsRoute.update strictBody
       (BookingSettingsRoute.columnDefaults "teacher-1")]
  /\ (forall targetUserId,
        withinLimits
          (BookingSettingsRoute.GET
             [BookingSettingsRoute.update strictBody
                (BookingSettingsRoute.columnDefaults "teacher-1")]
             targetUserId))
  /\ (forall status error,
        BookingSettingsRoute.Json
          (BookingSettingsRoute.update strictBody
             (BookingSettingsRoute.columnDefaults "teacher-1"))
        = BookingSettingsRoute.Failure status error ->
        status = 400
        /\ [BookingSettingsRoute.update strictBody
              (BookingSettingsRoute.columnDefaults "teacher-1")] = []).
Proof.
  apply (X27_table_stays_within_limits [] _ "teacher-1" strictBody).
  - constructor.
  - reflexivity.
Defined.

Lemma findSettings_of_table (w : World) (table : list SettingsRow.t)
    (userId : string) :
  findSettings (prisma (withSettingsTable w table)) userId
  = option_map SettingsRow.columns
      (find (fun row => String.eqb (SettingsRow.userId row) userId) table).
Proof.
  unfold findSettings, withSettingsTable. cbn [prisma bookingSettings].
  induction table as [| row rest IH]; cbn [map find]; [reflexivity |].
  unfold SettingsRow.userId at 1.
  destruct (String.eqb (BookingSettings.userId (SettingsRow.columns row))
              userId);
    [reflexivity | exact IH].
Qed.

Lemma upsert_find (table : list SettingsRow.t) (userId : string)
    (data : SettingsBody.t) :
  find (fun row => String.eqb (SettingsRow.userId row) userId)
       (snd (BookingSettingsRoute.upsert table userId data))
  = Some (fst (BookingSettingsRoute.upsert table userId data)).
Proof.
  induction table as [| row rest IH]; cbn [BookingSettingsRoute.upsert].
  - cbn [snd fst find].
    change (SettingsRow.userId (BookingSettingsRoute.update data
              (BookingSettingsRoute.columnDefaults userId))) with userId.
    now rewrite String.eqb_refl.
  - destruct (String.eqb (SettingsRow.userId row) userId) eqn:E.
    + cbn [snd fst find].
      change (SettingsRow.userId (BookingSettingsRoute.update data row))
        with (SettingsRow.userId row).
      now rewrite E.
    + destruct (BookingSettingsRoute.upsert rest userId data) as [r rest'].
      cbn [snd fst find] in *. now rewrite E.
Qed.

(** X28: once a POST of a teacher is accepted, [isTeacherAvailable] holds
    the teacher's bookings to the notice and the horizon of the row the POST
    answered with: an interval that passes the lesson, blocked-time and
    weekly-rule checks is available exactly when its start lies within them.
    This holds for a body without fields too, which stores the defaults of
    24 hours and 90 days for a teacher who had no row. *)
Theorem X28_posted_policy_is_enforced (w : World)
    (table table' : list SettingsRow.t) (teacherId : string)
    (body : SettingsBody.t) (settings : SettingsRow.t)
    (startTime endTime : Z) :
  BookingSettingsRoute.POST table teacherId body
  = (BookingSettingsRoute.Json settings, table') ->
  passesTableChecks w teacherId startTime endTime ->
  (available (isTeacherAvailable (withSettingsTable w table') teacherId
                startTime endTime) = true
   <-> withinPolicy w startTime (SettingsRow.columns settings)).
Proof.
  intros Hpost (Hlesson & Hblocked & Hrule).
  assert (Hfound : findSettings (prisma (withSettingsTable w table')) teacherId
                   = Some (SettingsRow.columns settings)).
  { rewrite findSettings_of_table.
    unfold BookingSettingsRoute.POST in Hpost.
    destruct (BookingSettingsRoute.bookingSettingsSchema body);
      [| discriminate].
    destruct (BookingSettingsRoute.durationsError _); [discriminate |].
    pose proof (upsert_find table teacherId body) as Hfind.
    destruct (BookingSettingsRoute.upsert table teacherId body) as [r t].
    injection Hpost as <- <-. cbn [snd fst] in Hfind. now rewrite Hfind. }
  unfold isTeacherAvailable. rewrite Hfound.
  cbn [withSettingsTable prisma lessons blockedTimes availabilities tz now].
  rewrite Hlesson, Hblocked.
  destruct (find (availabilityWhere _ _ _ _) _); [| congruence].
  unfold withinPolicy.
  destruct (Z.ltb_spec (startTime - now w)
              (BookingSettings.minAdvanceHours (SettingsRow.columns settings)
               * Date.msPerHour)).
  - cbn [available]. split; [discriminate | lia].
  - destruct (Z.gtb_spec (startTime - now w)
                (BookingSettings.maxAdvanceDays (SettingsRow.columns settings)
                 * Date.msPerDay)); cbn [available].
    + split; [discriminate | lia].
    + split; [lia | reflexivity].
Qed.

Lemma X28_posted_policy_witness :
  available (isTeacherAvailable
               (withSettingsTable unsetWorld
                  [BookingSettingsRoute.columnDefaults "teacher-1"])
               "teacher-1" (at_ monday 9 0) (at_ monday 10 0)) = true
  <-> withinPolicy unsetWorld (at_ monday 9 0)
        (SettingsRow.columns (BookingSettingsRoute.columnDefaults "teacher-1")).
Proof.
  apply (X28_posted_policy_is_enforced unsetWorld [] _ "teacher-1" emptyBody).
  - reflexivity.
  - exact unsetWorld_passes.
Defined.
